(** * update.py: redirect tracking, CAB download and extraction

    A shallow embedding of [update.py].  Python values are embedded as
    data, the exceptions of the interpreter as an error monad over an
    explicit state (a file system and the output written so far), and
    every answer of the outside world (HTTP, the clock, the extraction
    tool, the host and its text codec) is read from an environment record,
    so that each function below runs once an environment is fixed.

    What is modelled of the libraries: [json.dump] with [indent=4] and
    [json.load] on text, [datetime.isoformat], [posixpath.join], the
    strict UTF-8 codec, and the string, list and dict operations the
    program uses.  [archive_to_wayback], whose only call is commented out
    in [process_url], is modelled on its own.  What is left out:
    [print_lock], which only keeps the lines of concurrent workers apart;
    and the interleaving of the worker pool, whose results [executor.map]
    returns in the order of the work list.  Three limits of the
    interpreter and of the host are idealised, as the comments on [print],
    [os_makedirs] and [Json.loads] say: what is printed can be encoded by
    [sys.stdout], the ancestors of a path are directories, and a JSON text is
    parsed whatever its depth and the length of its numbers.  The theorems
    that depend on one of them say so in a hypothesis. *)

From Stdlib Require Import ZArith NArith List String Ascii Lia Bool.
From stdpp Require Import base option list gmap.

Local Open Scope N_scope.

(** ** Text

    A Python [str] is a sequence of code points; a [bytes] object is a
    sequence of octets.  Both are lists of [N]. *)

Abbreviation str := (list N).

Definition py (s : string) : str := List.map N_of_ascii (list_ascii_of_string s).
Arguments py s%_string.

Module Str.

(** [s.split(sep)] for a one-character separator: never returns the
    empty list, and keeps empty fields. *)
Fixpoint split (sep : N) (s : str) : list str :=
  match s with
  | [] => [[]]
  | c :: s' =>
      if N.eqb c sep then [] :: split sep s'
      else match split sep s' with
           | [] => [[c]]
           | w :: ws => (c :: w) :: ws
           end
  end.

(** [sep.join(parts)] *)
Fixpoint join (sep : str) (parts : list str) : str :=
  match parts with
  | [] => []
  | [p] => p
  | p :: ps => p ++ sep ++ join sep ps
  end.

(** [l[-n:]] for [n > 0] *)
Definition last_n {A} (n : nat) (l : list A) : list A :=
  skipn (length l - n) l.

(** [s[:-n]] for [n > 0] *)
Definition drop_last {A} (n : nat) (l : list A) : list A :=
  firstn (length l - n) l.

Fixpoint startswith (s prefix : str) {struct prefix} : bool :=
  match prefix with
  | [] => true
  | p :: prefix' =>
      match s with
      | c :: s' => N.eqb p c && startswith s' prefix'
      | [] => false
      end
  end.

Definition endswith (s suffix : str) : bool :=
  startswith (rev s) (rev suffix).

(** [needle in s] on two strings: substring test *)
Fixpoint contains (s needle : str) : bool :=
  startswith s needle ||
  match s with
  | [] => false
  | _ :: s' => contains s' needle
  end.

Definition eqb (a b : str) : bool := bool_decide (a = b).

End Str.

(** ** Exceptions

    The exception classes the program names in an [except] clause, and the
    ones its operations raise.  [FileNotFoundError] is a subclass of
    [OSError]; every class here is a subclass of [Exception]. *)

Inductive exc_class :=
| RequestException      (* requests.RequestException and its subclasses *)
| JSONDecodeError
| UnicodeDecodeError
| OSError               (* IsADirectoryError, FileExistsError, ... *)
| FileNotFoundError
| CalledProcessError
| TimeoutExpired
| TypeError
| AttributeError
| KeyError.

Record exn := Exn {
  exc_type : exc_class;
  exc_msg : str;                (* str(e) *)
  exc_stderr : option str       (* e.stderr, when the attribute exists and is not None *)
}.

Global Instance exc_class_eq_dec : EqDecision exc_class.
Proof. solve_decision. Defined.

Definition isinstance (e : exn) (c : exc_class) : bool :=
  bool_decide (exc_type e = c) ||
  match exc_type e, c with
  | FileNotFoundError, OSError => true
  | _, _ => false
  end.

Definition isinstance_any (e : exn) (cs : list exc_class) : bool :=
  existsb (isinstance e) cs.

Definition error (c : exc_class) (msg : string) : exn := Exn c (py msg) None.
Arguments error c msg%_string.

(** ** Python values

    What [json.load] can return.  A number is kept as its literal: the
    program never computes with one.  A [dict] is an association list in
    insertion order whose keys are unique. *)

#[warnings="-register-all"] Inductive pyval :=
| PNone
| PBool (b : bool)
| PNum (literal : str)
| PStr (s : str)
| PList (l : list pyval)
| PDict (d : list (str * pyval)).

Module Dict.
Section Ops.
Context {V : Type}.

Fixpoint get (k : str) (d : list (str * V)) : option V :=
  match d with
  | [] => None
  | (k', v) :: d' => if Str.eqb k k' then Some v else get k d'
  end.

(** [d[k] = v]: replaces the value in place, or appends a new item. *)
Fixpoint set (k : str) (v : V) (d : list (str * V)) : list (str * V) :=
  match d with
  | [] => [(k, v)]
  | (k', v') :: d' =>
      if Str.eqb k k' then (k', v) :: d' else (k', v') :: set k v d'
  end.

Definition mem (k : str) (d : list (str * V)) : bool :=
  match get k d with Some _ => true | None => false end.

Definition keys (d : list (str * V)) : list str := List.map fst d.
End Ops.
End Dict.

(** ** Output

    A printed line is kept as the pieces of its f-string. *)

Inductive frag :=
| Lit (s : str)
| FStr (s : str)
| FInt (z : Z)
| FVal (v : pyval)
| FExc (e : exn).

Inductive output :=
| Print (line : list frag)      (* print(f"...") *)
| PrintExc (e : exn).           (* traceback.print_exc() *)

(** ** The file system

    A flat name space: a path is looked up as the string the program
    passes.  A file written in text mode is kept as its text; a file
    written in binary mode as its octets. *)

Inductive content :=
| Text (s : str)
| Bytes (b : list N).

Inductive node :=
| Dir
| File (c : content).

Record state := State {
  fs : gmap str node;
  out : list output
}.

(** ** The interpreter monad: state and exceptions *)

Inductive outcome (A : Type) :=
| Return (a : A)
| Raise (e : exn).
Arguments Return {A} a.
Arguments Raise {A} e.

Definition M (A : Type) : Type := state -> outcome A * state.

Definition ret {A} (a : A) : M A := fun st => (Return a, st).

Definition raise {A} (e : exn) : M A := fun st => (Raise e, st).

Definition bind {A B} (m : M A) (k : A -> M B) : M B :=
  fun st =>
    match m st with
    | (Return a, st') => k a st'
    | (Raise e, st') => (Raise e, st')
    end.

Notation "'let*' x ':=' m 'in' k" := (bind m (fun x => k))
  (at level 10, x name, m at level 100, k at level 200).
Notation "m >> k" := (bind m (fun _ => k))
  (at level 100, k at level 200, right associativity).

(** [try: body  except classes as e: handler e] *)
Definition try_except {A} (body : M A) (classes : list exc_class)
    (handler : exn -> M A) : M A :=
  fun st =>
    match body st with
    | (Return a, st') => (Return a, st')
    | (Raise e, st') =>
        if isinstance_any e classes then handler e st' else (Raise e, st')
    end.

(** [except Exception as e]: every class of [exc_class] *)
Definition try_except_Exception {A} (body : M A) (handler : exn -> M A) : M A :=
  fun st =>
    match body st with
    | (Return a, st') => (Return a, st')
    | (Raise e, st') => handler e st'
    end.

Definition lift {A} (o : outcome A) : M A := fun st => (o, st).

(** [with print_lock: print(...)].  The encoding of [sys.stdout] is not
    modelled: a line is taken to be text that it can encode. *)
Definition print (line : list frag) : M unit :=
  fun st => (Return tt, State (fs st) (out st ++ [Print line])).

(** [traceback.print_exc()] *)
Definition print_exc (e : exn) : M unit :=
  fun st => (Return tt, State (fs st) (out st ++ [PrintExc e])).

Fixpoint mapM {A B} (f : A -> M B) (l : list A) : M (list B) :=
  match l with
  | [] => ret []
  | a :: l' => let* b := f a in let* bs := mapM f l' in ret (b :: bs)
  end.

Fixpoint foldM {A B} (f : B -> A -> M B) (l : list A) (b : B) : M B :=
  match l with
  | [] => ret b
  | a :: l' => let* b' := f b a in foldM f l' b'
  end.

(** ** Operations of Python values the program uses

    Each raises what the interpreter raises on a value of the wrong type;
    the messages are shortened. *)

Module Py.

Definition is_str (item : str) (v : pyval) : bool :=
  match v with
  | PStr s => Str.eqb s item
  | _ => false
  end.

(** [item in container] for a string [item] *)
Definition contains (container : pyval) (item : str) : outcome bool :=
  match container with
  | PDict d => Return (Dict.mem item d)
  | PList l => Return (existsb (is_str item) l)
  | PStr s => Return (Str.contains s item)
  | _ => Raise (error TypeError "argument is not iterable")
  end.

(** [container[key]] for a string [key] *)
Definition getitem (container : pyval) (key : str) : outcome pyval :=
  match container with
  | PDict d =>
      match Dict.get key d with
      | Some v => Return v
      | None => Raise (Exn KeyError key None)
      end
  | PList _ => Raise (error TypeError "list indices must be integers or slices, not str")
  | PStr _ => Raise (error TypeError "string indices must be integers, not 'str'")
  | _ => Raise (error TypeError "object is not subscriptable")
  end.

(** [container[key] = v] for a string [key] *)
Definition setitem (container : pyval) (key : str) (v : pyval) : outcome pyval :=
  match container with
  | PDict d => Return (PDict (Dict.set key v d))
  | PList _ => Raise (error TypeError "list indices must be integers or slices, not str")
  | _ => Raise (error TypeError "object does not support item assignment")
  end.

(** [container.items()] *)
Definition items (container : pyval) : outcome (list (str * pyval)) :=
  match container with
  | PDict d => Return d
  | _ => Raise (error AttributeError "object has no attribute 'items'")
  end.

(** [for x in container] *)
Definition iter (container : pyval) : outcome (list pyval) :=
  match container with
  | PDict d => Return (List.map PStr (Dict.keys d))
  | PList l => Return l
  | PStr s => Return (List.map (fun c => PStr [c]) s)
  | _ => Raise (error TypeError "object is not iterable")
  end.

(** [sum(results)] over the values a worker returns: [Some b] is the
    boolean [b], [None] is Python's [None]. *)
Fixpoint sum_from (acc : Z) (results : list (option bool)) : outcome Z :=
  match results with
  | [] => Return acc
  | Some b :: rest => sum_from (acc + (if b then 1 else 0))%Z rest
  | None :: _ =>
      Raise (error TypeError "unsupported operand type(s) for +: 'int' and 'NoneType'")
  end.

Definition sum (results : list (option bool)) : outcome Z := sum_from 0%Z results.

End Py.

(** ** The json module

    [json.dump(obj, f, indent=4)] (with the default [ensure_ascii=True])
    and [json.load(f)] on text. *)

Module Json.

(** *** Encoding *)

Definition hex_digit (n : N) : N := if n <? 10 then 48 + n else 87 + n.

(** ['{0:04x}'.format(n)] for [n < 0x10000] *)
Definition hex4 (n : N) : str :=
  [hex_digit (n / 4096 mod 16); hex_digit (n / 256 mod 16);
   hex_digit (n / 16 mod 16); hex_digit (n mod 16)].

Definition u_escape (n : N) : str := [92; 117] ++ hex4 n.

(** The replacement of one character matched by [ESCAPE_ASCII], or the
    character itself when it is in [' '..'~'] and is neither a quote nor
    a backslash. *)
Definition escape_char (c : N) : str :=
  if c =? 34 then [92; 34]
  else if c =? 92 then [92; 92]
  else if c =? 10 then [92; 110]
  else if c =? 13 then [92; 114]
  else if c =? 9 then [92; 116]
  else if c =? 8 then [92; 98]
  else if c =? 12 then [92; 102]
  else if (32 <=? c) && (c <=? 126) then [c]
  else if c <? 65536 then u_escape c
  else
    let n := c - 65536 in
    u_escape (N.lor 55296 (N.land (N.shiftr n 10) 1023)) ++
    u_escape (N.lor 56320 (N.land n 1023)).

Definition encode_basestring_ascii (s : str) : str :=
  [34] ++ flat_map escape_char s ++ [34].

Definition indent : str := py "    ".

Definition newline_indent (level : nat) : str :=
  10 :: concat (repeat indent level).

Definition item_separator (level : nat) : str := 44 :: newline_indent level.

Definition key_separator : str := py ": ".

Fixpoint encode (level : nat) (v : pyval) : str :=
  match v with
  | PNone => py "null"
  | PBool true => py "true"
  | PBool false => py "false"
  | PNum literal => literal
  | PStr s => encode_basestring_ascii s
  | PList [] => py "[]"
  | PList l =>
      py "[" ++ newline_indent (S level) ++
      Str.join (item_separator (S level)) (List.map (encode (S level)) l) ++
      newline_indent level ++ py "]"
  | PDict [] => py "{}"
  | PDict d =>
      py "{" ++ newline_indent (S level) ++
      Str.join (item_separator (S level))
        (List.map (fun kv => encode_basestring_ascii (fst kv) ++ key_separator ++
                             encode (S level) (snd kv)) d) ++
      newline_indent level ++ py "}"
  end.

Definition dumps (v : pyval) : str := encode 0 v.

(** *** Decoding *)

Definition is_ws (c : N) : bool :=
  (c =? 32) || (c =? 9) || (c =? 10) || (c =? 13).

Fixpoint skip_ws (s : str) : str :=
  match s with
  | c :: s' => if is_ws c then skip_ws s' else s
  | [] => []
  end.

Definition hex_value (c : N) : option N :=
  if (48 <=? c) && (c <=? 57) then Some (c - 48)
  else if (97 <=? c) && (c <=? 102) then Some (c - 87)
  else if (65 <=? c) && (c <=? 70) then Some (c - 55)
  else None.

Definition decode_hex4 (a b c d : N) : option N :=
  match hex_value a, hex_value b, hex_value c, hex_value d with
  | Some x, Some y, Some z, Some w => Some (((x * 16 + y) * 16 + z) * 16 + w)
  | _, _, _, _ => None
  end.

Definition unescape (c : N) : option N :=
  if c =? 34 then Some 34
  else if c =? 92 then Some 92
  else if c =? 47 then Some 47
  else if c =? 98 then Some 8
  else if c =? 102 then Some 12
  else if c =? 110 then Some 10
  else if c =? 114 then Some 13
  else if c =? 116 then Some 9
  else None.

Definition is_high_surrogate (c : N) : bool := (55296 <=? c) && (c <=? 56319).
Definition is_low_surrogate (c : N) : bool := (56320 <=? c) && (c <=? 57343).

Definition join_surrogates (hi lo : N) : N :=
  65536 + N.lor (N.shiftl (hi - 55296) 10) (lo - 56320).

Definition push (c : N) (r : option (str * str)) : option (str * str) :=
  match r with
  | Some (t, rest) => Some (c :: t, rest)
  | None => None
  end.

(** The body of a string, after its opening quote: the decoded text and
    what follows the closing quote. *)
Fixpoint scanstring (s : str) : option (str * str) :=
  match s with
  | [] => None
  | c :: r =>
      if c =? 34 then Some ([], r)
      else if c =? 92 then
        match r with
        | [] => None
        | e :: r1 =>
            if e =? 117 then
              match r1 with
              | a :: b :: c1 :: d :: r2 =>
                  match decode_hex4 a b c1 d with
                  | None => None
                  | Some uni =>
                      if is_high_surrogate uni then
                        match r2 with
                        | bs :: u :: a2 :: b2 :: c2 :: d2 :: r3 =>
                            if (bs =? 92) && (u =? 117) then
                              match decode_hex4 a2 b2 c2 d2 with
                              | None => None
                              | Some uni2 =>
                                  if is_low_surrogate uni2
                                  then push (join_surrogates uni uni2) (scanstring r3)
                                  else push uni (scanstring r2)
                              end
                            else push uni (scanstring r2)
                        | _ => push uni (scanstring r2)
                        end
                      else push uni (scanstring r2)
                  end
              | _ => None
              end
            else
              match unescape e with
              | Some ch => push ch (scanstring r1)
              | None => None
              end
        end
      else if c <? 32 then None
      else push c (scanstring r)
  end.

Definition is_digit (c : N) : bool := (48 <=? c) && (c <=? 57).

Fixpoint take_digits (s : str) : str * str :=
  match s with
  | c :: s' =>
      if is_digit c then let '(ds, rest) := take_digits s' in (c :: ds, rest)
      else ([], s)
  | [] => ([], [])
  end.

(** [NUMBER_RE]: an optional minus sign and either a zero or a digit
    string without a leading zero; then, optionally, a dot and digits;
    then, optionally, an exponent mark, a sign and digits. *)
Definition scan_integer (s : str) : option (str * str) :=
  let '(sign, s1) :=
    match s with
    | c :: s' => if c =? 45 then ([45], s') else ([], s)
    | [] => ([], s)
    end in
  match s1 with
  | c :: s2 =>
      if c =? 48 then Some (sign ++ [48], s2)
      else if is_digit c then
        let '(ds, rest) := take_digits s2 in Some (sign ++ c :: ds, rest)
      else None
  | [] => None
  end.

Definition scan_fraction (s : str) : str * str :=
  match s with
  | c :: s' =>
      if c =? 46 then
        match take_digits s' with
        | ([], _) => ([], s)
        | (ds, rest) => (46 :: ds, rest)
        end
      else ([], s)
  | [] => ([], s)
  end.

Definition scan_exponent (s : str) : str * str :=
  match s with
  | e :: s' =>
      if (e =? 101) || (e =? 69) then
        let '(sign, s1) :=
          match s' with
          | c :: s'' => if (c =? 45) || (c =? 43) then ([c], s'') else ([], s')
          | [] => ([], s')
          end in
        match take_digits s1 with
        | ([], _) => ([], s)
        | (ds, rest) => (e :: sign ++ ds, rest)
        end
      else ([], s)
  | [] => ([], s)
  end.

Definition scan_number (s : str) : option (str * str) :=
  match scan_integer s with
  | Some (int, s1) =>
      let '(frac, s2) := scan_fraction s1 in
      let '(exp, s3) := scan_exponent s2 in
      Some (int ++ frac ++ exp, s3)
  | None => None
  end.

Definition literal (word : str) (v : pyval) (s : str) : option (pyval * str) :=
  if Str.startswith s word then Some (v, skipn (length word) s) else None.

Definition scan_constant (s : str) : option (pyval * str) :=
  match scan_number s with
  | Some (lit, rest) => Some (PNum lit, rest)
  | None =>
      match literal (py "NaN") (PNum (py "NaN")) s with
      | Some r => Some r
      | None =>
          match literal (py "Infinity") (PNum (py "Infinity")) s with
          | Some r => Some r
          | None => literal (py "-Infinity") (PNum (py "-Infinity")) s
          end
      end
  end.

(** [scan_once], [JSONArray] and [JSONObject].  The recursion is on a
    bound of the nesting and of the number of items; [loads] starts it
    above the length of the text. *)
Fixpoint scan_once (fuel : nat) (s : str) : option (pyval * str) :=
  match fuel with
  | O => None
  | S fuel' =>
      match s with
      | [] => None
      | c :: r =>
          if c =? 34 then
            match scanstring r with
            | Some (t, rest) => Some (PStr t, rest)
            | None => None
            end
          else if c =? 123 then
            let r1 := skip_ws r in
            match r1 with
            | c1 :: r2 =>
                if c1 =? 125 then Some (PDict [], r2)
                else
                  match scan_members fuel' r1 with
                  | Some (pairs, rest) =>
                      Some (PDict (fold_left (fun d kv => Dict.set (fst kv) (snd kv) d)
                                      pairs []), rest)
                  | None => None
                  end
            | [] => None
            end
          else if c =? 91 then
            let r1 := skip_ws r in
            match r1 with
            | c1 :: r2 =>
                if c1 =? 93 then Some (PList [], r2)
                else
                  match scan_elements fuel' r1 with
                  | Some (l, rest) => Some (PList l, rest)
                  | None => None
                  end
            | [] => None
            end
          else if Str.startswith s (py "null") then literal (py "null") PNone s
          else if Str.startswith s (py "true") then literal (py "true") (PBool true) s
          else if Str.startswith s (py "false") then literal (py "false") (PBool false) s
          else scan_constant s
      end
  end

(** the items of an array, from the first character of an item *)
with scan_elements (fuel : nat) (s : str) : option (list pyval * str) :=
  match fuel with
  | O => None
  | S fuel' =>
      match scan_once fuel' s with
      | Some (v, rest) =>
          match skip_ws rest with
          | c :: r =>
              if c =? 93 then Some ([v], r)
              else if c =? 44 then
                match scan_elements fuel' (skip_ws r) with
                | Some (vs, rest') => Some (v :: vs, rest')
                | None => None
                end
              else None
          | [] => None
          end
      | None => None
      end
  end

(** the members of an object, from the opening quote of a key *)
with scan_members (fuel : nat) (s : str) : option (list (str * pyval) * str) :=
  match fuel with
  | O => None
  | S fuel' =>
      match s with
      | q :: s1 =>
          if q =? 34 then
            match scanstring s1 with
            | Some (key, s2) =>
                match skip_ws s2 with
                | colon :: s3 =>
                    if colon =? 58 then
                      match scan_once fuel' (skip_ws s3) with
                      | Some (v, rest) =>
                          match skip_ws rest with
                          | c :: r =>
                              if c =? 125 then Some ([(key, v)], r)
                              else if c =? 44 then
                                match scan_members fuel' (skip_ws r) with
                                | Some (kvs, rest') => Some ((key, v) :: kvs, rest')
                                | None => None
                                end
                              else None
                          | [] => None
                          end
                      | None => None
                      end
                    else None
                | [] => None
                end
            | None => None
            end
          else None
      | [] => None
      end
  end.

(** [json.loads(s)]: [None] stands for [JSONDecodeError].  The
    recursion limit of the interpreter and its limit on the digits of an
    integer are not modelled: the parser is that of the grammar. *)
Definition loads (s : str) : option pyval :=
  match scan_once (S (length s)) (skip_ws s) with
  | Some (v, rest) =>
      match skip_ws rest with
      | [] => Some v
      | _ :: _ => None
      end
  | None => None
  end.

End Json.

(** ** datetime

    A naive [datetime] object and its [isoformat()]. *)

Record datetime := DateTime {
  year : N; month : N; day : N;
  hour : N; minute : N; second : N; microsecond : N
}.

Module Iso.

(** ['%0<width>d' % n] for [n < 10 ^ width] *)
Fixpoint pad (width : nat) (n : N) : str :=
  match width with
  | O => []
  | S w => pad w (n / 10) ++ [48 + n mod 10]
  end.

Definition isoformat (t : datetime) : str :=
  pad 4 (year t) ++ py "-" ++ pad 2 (month t) ++ py "-" ++ pad 2 (day t) ++
  py "T" ++ pad 2 (hour t) ++ py ":" ++ pad 2 (minute t) ++ py ":" ++
  pad 2 (second t) ++
  (if microsecond t =? 0 then [] else py "." ++ pad 6 (microsecond t)).

Definition is_leap (y : N) : bool :=
  (y mod 4 =? 0) && (negb (y mod 100 =? 0) || (y mod 400 =? 0)).

Definition days_in_month (y m : N) : N :=
  if m =? 2 then (if is_leap y then 29 else 28)
  else if (m =? 4) || (m =? 6) || (m =? 9) || (m =? 11) then 30
  else 31.

(** The invariant of a [datetime] object. *)
Definition valid (t : datetime) : bool :=
  (1 <=? year t) && (year t <=? 9999) &&
  (1 <=? month t) && (month t <=? 12) &&
  (1 <=? day t) && (day t <=? days_in_month (year t) (month t)) &&
  (hour t <? 24) && (minute t <? 60) && (second t <? 60) &&
  (microsecond t <? 1000000).

(** Reading a timestamp back: exactly [width] decimal digits. *)
Fixpoint digits (width : nat) (acc : N) (s : str) : option (N * str) :=
  match width with
  | O => Some (acc, s)
  | S w =>
      match s with
      | c :: s' =>
          if (48 <=? c) && (c <=? 57) then digits w (acc * 10 + (c - 48)) s'
          else None
      | [] => None
      end
  end.

Definition expect (c : N) (s : str) : option str :=
  match s with
  | c' :: s' => if c =? c' then Some s' else None
  | [] => None
  end.

(** The extended ISO 8601 form [YYYY-MM-DDTHH:MM:SS] with an optional
    fraction of six digits, denoting an existing calendar day and time. *)
Definition parse (s : str) : option datetime :=
  '(y, s) ← digits 4 0 s; s ← expect 45 s;
  '(mo, s) ← digits 2 0 s; s ← expect 45 s;
  '(d, s) ← digits 2 0 s; s ← expect 84 s;
  '(h, s) ← digits 2 0 s; s ← expect 58 s;
  '(mi, s) ← digits 2 0 s; s ← expect 58 s;
  '(sec, s) ← digits 2 0 s;
  '(us, s) ← match s with
             | [] => Some (0, [])
             | _ => s ← expect 46 s; digits 6 0 s
             end;
  let t := DateTime y mo d h mi sec us in
  match s with
  | [] => if valid t then Some t else None
  | _ :: _ => None
  end.

End Iso.

(** ** The outside world *)

(** [requests.head(url, headers=HEADERS, allow_redirects=False, timeout=30)] *)
Inductive head_outcome :=
| HeadRaises (e : exn)
| HeadResponse (location : option str).   (* response.headers.get("Location") *)

(** [requests.get(url, stream=True, ...)], [raise_for_status()] and the
    iteration over [iter_content]. *)
Inductive get_outcome :=
| GetRaises (e : exn)                           (* before the destination is opened *)
| StreamRaises (chunks : list (list N)) (e : exn) (* after these chunks were received *)
| StreamEnds (chunks : list (list N)).

(** [subprocess.run(argv, check=True, capture_output=True, text=True,
    timeout=300)]: the files a tool that exits with status 0 has written,
    or the exception raised. *)
Inductive run_outcome :=
| RunCompleted (written : list (str * list N))
| RunRaises (e : exn).

Record env := Env {
  sys_platform : str;
  os_path_join : list str -> str;
  text_decode : list N -> option str;     (* the codec of [open(path, "r")] *)
  requests_head : str -> head_outcome;
  datetime_now : str -> datetime;         (* the clock, when the product is handled *)
  requests_get : str -> str -> get_outcome;
  subprocess_run : list str -> run_outcome
}.

(** [posixpath.join] *)
Fixpoint posix_join_from (path : str) (parts : list str) : str :=
  match parts with
  | [] => path
  | b :: parts' =>
      posix_join_from
        (if Str.startswith b (py "/") then b
         else if Str.eqb path [] || Str.endswith path (py "/") then path ++ b
         else path ++ py "/" ++ b)
        parts'
  end.

Definition posix_join (parts : list str) : str :=
  match parts with
  | [] => []
  | a :: parts' => posix_join_from a parts'
  end.

(** The strict UTF-8 codec. *)
Definition is_cont (b : N) : bool := (128 <=? b) && (b <=? 191).

Fixpoint utf8_decode (bs : list N) : option str :=
  match bs with
  | [] => Some []
  | b0 :: r0 =>
      if b0 <? 128 then cons b0 <$> utf8_decode r0
      else if (194 <=? b0) && (b0 <=? 223) then
        match r0 with
        | b1 :: r1 =>
            if is_cont b1
            then cons ((b0 - 192) * 64 + (b1 - 128)) <$> utf8_decode r1
            else None
        | _ => None
        end
      else if (224 <=? b0) && (b0 <=? 239) then
        match r0 with
        | b1 :: b2 :: r2 =>
            if is_cont b1 && is_cont b2 &&
               negb ((b0 =? 224) && (b1 <? 160)) &&
               negb ((b0 =? 237) && (160 <=? b1))
            then cons ((b0 - 224) * 4096 + (b1 - 128) * 64 + (b2 - 128))
                   <$> utf8_decode r2
            else None
        | _ => None
        end
      else if (240 <=? b0) && (b0 <=? 244) then
        match r0 with
        | b1 :: b2 :: b3 :: r3 =>
            if is_cont b1 && is_cont b2 && is_cont b3 &&
               negb ((b0 =? 240) && (b1 <? 144)) &&
               negb ((b0 =? 244) && (144 <=? b1))
            then cons ((b0 - 240) * 262144 + (b1 - 128) * 4096 +
                       (b2 - 128) * 64 + (b3 - 128))
                   <$> utf8_decode r3
            else None
        | _ => None
        end
      else None
  end.

(** ** File operations *)

Section FileSystem.
Variable E : env.

(** [os.path.exists(path)] *)
Definition os_path_exists (path : str) : M bool :=
  fun st => (Return (bool_decide (is_Some (fs st !! path))), st).

(** [open(path, "r")] and [f.read()] *)
Definition read_text (path : str) : M str :=
  fun st =>
    match fs st !! path with
    | None => (Raise (Exn FileNotFoundError path None), st)
    | Some Dir => (Raise (Exn OSError path None), st)
    | Some (File (Text s)) => (Return s, st)
    | Some (File (Bytes b)) =>
        match text_decode E b with
        | Some s => (Return s, st)
        | None => (Raise (Exn UnicodeDecodeError path None), st)
        end
    end.

(** [open(path, mode)] for a writing mode, and the writes that follow:
    the file is created or truncated, then holds [c]. *)
Definition write_file (path : str) (c : content) : M unit :=
  fun st =>
    match fs st !! path with
    | Some Dir => (Raise (Exn OSError path None), st)
    | _ => (Return tt, State (<[path := File c]> (fs st)) (out st))
    end.

(** [os.makedirs(path, exist_ok=True)].  The ancestors of [path] are
    not modelled: they are taken to be directories, or absent. *)
Definition os_makedirs (path : str) : M unit :=
  fun st =>
    match fs st !! path with
    | None => (Return tt, State (<[path := Dir]> (fs st)) (out st))
    | Some Dir => (Return tt, st)
    | Some (File _) => (Raise (Exn OSError path None), st)
    end.

(** [os.remove(path)] *)
Definition os_remove (path : str) : M unit :=
  fun st =>
    match fs st !! path with
    | None => (Raise (Exn FileNotFoundError path None), st)
    | Some Dir => (Raise (Exn OSError path None), st)
    | Some (File _) => (Return tt, State (delete path (fs st)) (out st))
    end.

(** [subprocess.run(argv, check=True, ...)] *)
Definition run (argv : list str) : M unit :=
  fun st =>
    match subprocess_run E argv with
    | RunCompleted written =>
        (Return tt,
         State (fold_left (fun f w => <[fst w := File (Bytes (snd w))]> f) written (fs st))
               (out st))
    | RunRaises e => (Raise e, st)
    end.

End FileSystem.

(** ** update.py *)

Definition URLS : list (str * str) :=
  [(py "Win10", py "https://go.microsoft.com/fwlink/?LinkId=841361");
   (py "Win11", py "https://go.microsoft.com/fwlink/?LinkId=2156292")].

Definition HEADERS : list (str * str) :=
  [(py "Connection", py "Keep-Alive"); (py "User-Agent", py "Windows Dlp Manager")].

Definition JSON_FILE : str := py "locations.json".
Definition BASE_DIR : str := py "products".
Definition MAX_WORKERS : Z := 5.

(** The three values a worker can return: [Some true] and [Some false] are
    the booleans, [None] is Python's [None]. *)
Abbreviation pyresult := (option bool).

Definition truthy (r : pyresult) : bool :=
  match r with
  | Some b => b
  | None => false
  end.

Section Program.
Variable E : env.

Definition load_existing_data : M pyval :=
  let* present := os_path_exists JSON_FILE in
  if present then
    try_except
      (let* text := read_text E JSON_FILE in
       match Json.loads text with
       | Some v => ret v
       | None => raise (error JSONDecodeError "invalid JSON")
       end)
      [JSONDecodeError]
      (fun _ =>
         print [Lit (py "Warning: "); FStr JSON_FILE;
                Lit (py " contains invalid JSON. Starting with empty data.")] >>
         ret (PDict []))
  else ret (PDict []).

Definition save_data (data : pyval) : M unit :=
  write_file JSON_FILE (Text (Json.dumps data)).

(** the body of [with requests.get(...) as response] *)
Definition fetch (url output_path : str) : M unit :=
  match requests_get E url output_path with
  | GetRaises e => raise e
  | StreamRaises chunks e =>
      write_file output_path (Bytes (concat chunks)) >> raise e
  | StreamEnds chunks => write_file output_path (Bytes (concat chunks))
  end.

Definition download_cab (url output_path : str) : M bool :=
  try_except
    (print [Lit (py "Downloading CAB from: "); FStr url] >>
     fetch url output_path >>
     ret true)
    [RequestException]
    (fun e =>
       print [Lit (py "Error downloading "); FStr url; Lit (py ": "); FExc e] >>
       ret false).

(** [if hasattr(e, "stderr") and e.stderr: print(f"stderr: {e.stderr}")] *)
Definition print_stderr (e : exn) : M unit :=
  match exc_stderr e with
  | Some (c :: s) => print [Lit (py "stderr: "); FStr (c :: s)]
  | _ => ret tt
  end.

Definition extract_cab_windows (cab_path output_dir : str) : M pyresult :=
  try_except
    (let output_file := os_path_join E [output_dir; py "products.xml"] in
     run E [py "expand"; cab_path; py "-f:products.xml"; output_file] >>
     ret (Some true))
    [CalledProcessError; TimeoutExpired]
    (fun e =>
       print [Lit (py "Error extracting "); FStr cab_path;
              Lit (py " on Windows: "); FExc e] >>
       print_stderr e >>
       ret (Some false)).

(** The handler ends without a [return]: the call evaluates to [None]. *)
Definition extract_cab_unix (cab_path output_dir : str) : M pyresult :=
  try_except
    (run E [py "cabextract"; py "-d"; output_dir; cab_path] >>
     ret (Some true))
    [CalledProcessError; FileNotFoundError; TimeoutExpired]
    (fun e =>
       print [Lit (py "Error extracting "); FStr cab_path;
              Lit (py " on unix: "); FExc e] >>
       print_stderr e >>
       ret None).

(** ["_".join(url.split('/')[-5:])], without a final [".cab"] *)
Definition path_suffix (url : str) : str :=
  let path_suffix := Str.join (py "_") (Str.last_n 5 (Str.split 47 url)) in
  if Str.endswith path_suffix (py ".cab") then Str.drop_last 4 path_suffix
  else path_suffix.

Definition output_dir (os_name url : str) : str :=
  os_path_join E [BASE_DIR; os_name; path_suffix url].

Definition cab_path (os_name url : str) : str :=
  os_path_join E [output_dir os_name url; py "archive.cab"].

(** [url.split] exists on a string only. *)
Definition as_str (url : pyval) : M str :=
  match url with
  | PStr s => ret s
  | _ => raise (error AttributeError "object has no attribute 'split'")
  end.

Definition process_url (args : str * pyval) : M pyresult :=
  let '(os_name, url) := args in
  try_except_Exception
    (let* u := as_str url in
     let output_dir := output_dir os_name u in
     os_makedirs output_dir >>
     let cab_path := cab_path os_name u in
     let* downloaded := download_cab u cab_path in
     if negb downloaded then ret (Some false)
     else
       let* success :=
         (if Str.startswith (sys_platform E) (py "win")
          then extract_cab_windows cab_path output_dir
          else extract_cab_unix cab_path output_dir) in
       let* still_there :=
         (if truthy success then os_path_exists cab_path else ret false) in
       (if truthy success && still_there then os_remove cab_path else ret tt) >>
       ret success)
    (fun e =>
       print [Lit (py "Error processing "); FVal url; Lit (py ": "); FExc e] >>
       print_exc e >>
       ret (Some false)).

(** The body of the loop over [URLS.items()].  [data] is mutated only
    after [requests.head] has returned, and what follows cannot raise a
    [RequestException]: the handler sees the record as it was. *)
Definition probe (data : pyval) (item : str * str) : M pyval :=
  let '(os_name, url) := item in
  try_except
    (match requests_head E url with
     | HeadRaises e => raise e
     | HeadResponse (Some (c :: l)) =>
         let location := c :: l in
         let* known_product := lift (Py.contains data os_name) in
         let* data :=
           (if negb known_product then lift (Py.setitem data os_name (PDict []))
            else ret data) in
         let* urls := lift (Py.getitem data os_name) in
         let* known := lift (Py.contains urls location) in
         if negb known then
           let stamp := PStr (Iso.isoformat (datetime_now E os_name)) in
           let* urls := lift (Py.getitem data os_name) in
           let* urls := lift (Py.setitem urls location stamp) in
           let* data := lift (Py.setitem data os_name urls) in
           print [Lit (py "Added new URL for "); FStr os_name; Lit (py ": ");
                  FStr location] >>
           ret data
         else ret data
     | HeadResponse _ =>
         print [Lit (py "No Location header found for "); FStr os_name;
                Lit (py ".")] >>
         ret data
     end)
    [RequestException]
    (fun e =>
       print [Lit (py "Error fetching "); FStr os_name; Lit (py " URL: "); FExc e] >>
       ret data).

Definition resolve (data : pyval) : M pyval := foldM probe URLS data.

(** [[(os_name, url) for os_name, urls_dict in data.items() for url in urls_dict]] *)
Fixpoint flatten (items : list (str * pyval)) : outcome (list (str * pyval)) :=
  match items with
  | [] => Return []
  | (os_name, urls_dict) :: items' =>
      match Py.iter urls_dict with
      | Return urls =>
          match flatten items' with
          | Return rest => Return (List.map (fun url => (os_name, url)) urls ++ rest)
          | Raise e => Raise e
          end
      | Raise e => Raise e
      end
  end.

Definition url_list (data : pyval) : outcome (list (str * pyval)) :=
  match Py.items data with
  | Return items => flatten items
  | Raise e => Raise e
  end.

(** [executor.map] returns the results in the order of the work list;
    the pool is run here one item after the other. *)
Definition main : M unit :=
  let* data := load_existing_data in
  let* data := resolve data in
  save_data data >>
  let* url_list := lift (url_list data) in
  print [Lit (py "Processing "); FInt (Z.of_nat (length url_list));
         Lit (py " URLs with "); FInt MAX_WORKERS; Lit (py " workers")] >>
  let* results := mapM process_url url_list in
  let* successful := lift (Py.sum results) in
  print [Lit (py "Processing complete. Successful: "); FInt successful;
         Lit (py "/"); FInt (Z.of_nat (length url_list))].

End Program.

(** ** The Wayback Machine

    [archive_to_wayback] is defined and never called: its call in
    [process_url] is commented out. *)

Section Wayback.
(** [requests.get(url, timeout=30).raise_for_status()]: the exception
    that the call raises, if any. *)
Variable requests_get_status : str -> option exn.

Definition archive_to_wayback (url : str) : M unit :=
  try_except
    (print [Lit (py "Archiving to Wayback: "); FStr url] >>
     match requests_get_status (py "http://web.archive.org/save/" ++ url) with
     | Some e => raise e
     | None => ret tt
     end)
    [RequestException]
    (fun e =>
       print [Lit (py "Failed to archive "); FStr url;
              Lit (py " to Wayback Machine")] >>
       print_exc e).

End Wayback.

(** ** Location records

    The shape the program expects of its state: an object of objects of
    strings, where a [dict] has no key twice.  Text is a sequence of code
    points in which no high surrogate is followed at once by a low one:
    [json.dump] writes a character above U+FFFF as such a pair of escapes
    and [json.load] reads a pair back as one character, so that only text
    without such a pair is written and read back as it is. *)

Definition code_point (c : N) : bool := c <? 1114112.

Definition splits_pair (c : N) (s : str) : bool :=
  Json.is_high_surrogate c &&
  match s with
  | c2 :: _ => Json.is_low_surrogate c2
  | [] => false
  end.

Fixpoint text_ok (s : str) : bool :=
  match s with
  | [] => true
  | c :: s' => code_point c && negb (splits_pair c s') && text_ok s'
  end.

(** A Unicode scalar value: a code point that is not a surrogate. *)
Definition scalar (c : N) : bool :=
  (c <? 1114112) && negb ((55296 <=? c) && (c <=? 57343)).

Definition scalars (s : str) : bool := forallb scalar s.

Fixpoint unique_keys {V} (d : list (str * V)) : bool :=
  match d with
  | [] => true
  | (k, _) :: d' => negb (Dict.mem k d') && unique_keys d'
  end.

Definition is_timestamp_value (v : pyval) : bool :=
  match v with
  | PStr t => text_ok t
  | _ => false
  end.

Definition is_urls (v : pyval) : bool :=
  match v with
  | PDict urls =>
      unique_keys urls &&
      forallb (fun kv => text_ok (fst kv) && is_timestamp_value (snd kv)) urls
  | _ => false
  end.

Definition is_record (v : pyval) : bool :=
  match v with
  | PDict d =>
      unique_keys d && forallb (fun kv => text_ok (fst kv) && is_urls (snd kv)) d
  | _ => false
  end.

(** [data[product][url]], when both keys are there *)
Definition entry (data : pyval) (product url : str) : option pyval :=
  match data with
  | PDict d =>
      match Dict.get product d with
      | Some (PDict urls) => Dict.get url urls
      | _ => None
      end
  | _ => None
  end.

Definition is_dict (v : pyval) : bool :=
  match v with
  | PDict _ => true
  | _ => false
  end.

(** JSON values without numbers, made of well-formed text and dicts. *)
Fixpoint plain (v : pyval) : bool :=
  match v with
  | PNone | PBool _ => true
  | PNum _ => false
  | PStr s => text_ok s
  | PList l => forallb plain l
  | PDict d =>
      unique_keys d && forallb (fun kv => text_ok (fst kv) && plain (snd kv)) d
  end.

(** The layout of a saved record, as the specification words it: an
    object of objects of strings, one item per line, products at four
    spaces, URLs with their timestamps at eight. *)
Module Layout.

Definition quote (s : str) : str := Json.encode_basestring_ascii s.

Definition newline : str := [10].

Definition url_line (kv : str * pyval) : str :=
  py "        " ++ quote (fst kv) ++ py ": " ++
  match snd kv with
  | PStr t => quote t
  | _ => []
  end.

Definition urls_block (v : pyval) : str :=
  match v with
  | PDict [] => py "{}"
  | PDict urls =>
      py "{" ++ newline ++
      Str.join (py "," ++ newline) (List.map url_line urls) ++
      newline ++ py "    }"
  | _ => []
  end.

Definition product_line (kv : str * pyval) : str :=
  py "    " ++ quote (fst kv) ++ py ": " ++ urls_block (snd kv).

Definition record (v : pyval) : str :=
  match v with
  | PDict [] => py "{}"
  | PDict d =>
      py "{" ++ newline ++
      Str.join (py "," ++ newline) (List.map product_line d) ++
      newline ++ py "}"
  | _ => []
  end.

End Layout.

(** ** A well-behaved world

    [requests.head] fails with a [RequestException] only, a redirect
    target is text, and the clock returns [datetime] objects. *)

Definition head_ok (h : head_outcome) : bool :=
  match h with
  | HeadRaises e => isinstance e RequestException
  | HeadResponse (Some location) => text_ok location
  | HeadResponse None => true
  end.

Definition item_ok (E : env) (item : str * str) : bool :=
  text_ok (fst item) && head_ok (requests_head E (snd item)) &&
  Iso.valid (datetime_now E (fst item)).

Definition sane_world (E : env) : bool := forallb (item_ok E) URLS.

(** The probe of [item] reports [location] for [product]. *)
Definition reports (E : env) (product location : str) (item : str * str) : bool :=
  Str.eqb product (fst item) &&
  match requests_head E (snd item) with
  | HeadResponse (Some (c :: l)) => Str.eqb location (c :: l)
  | _ => false
  end.

Definition observed (E : env) (items : list (str * str)) (product location : str) : bool :=
  existsb (reports E product location) items.

(** The timestamp recorded for a product in this run. *)
Definition stamp (E : env) (os_name : str) : pyval :=
  PStr (Iso.isoformat (datetime_now E os_name)).

(** The record after a redirect target was observed for a product. *)
Definition record_with (d : list (str * pyval)) (os_name location : str)
    (stamp : pyval) : list (str * pyval) :=
  match Dict.get os_name d with
  | None => Dict.set os_name (PDict [(location, stamp)]) d
  | Some (PDict urls) =>
      if Dict.mem location urls then d
      else Dict.set os_name (PDict (Dict.set location stamp urls)) d
  | Some _ => d
  end.

(** The probe of [item] reports nothing that is not recorded yet. *)
Definition settled (E : env) (data : pyval) (item : str * str) : bool :=
  match requests_head E (snd item) with
  | HeadRaises e => isinstance e RequestException
  | HeadResponse (Some (c :: l)) =>
      match entry data (fst item) (c :: l) with
      | Some _ => true
      | None => false
      end
  | HeadResponse _ => true
  end.

Definition no_news (E : env) (data : pyval) : bool := forallb (settled E data) URLS.

(** The lines the resolver prints. *)
Definition added_line (os_name location : str) : output :=
  Print [Lit (py "Added new URL for "); FStr os_name; Lit (py ": "); FStr location].

Definition no_location_line (os_name : str) : output :=
  Print [Lit (py "No Location header found for "); FStr os_name; Lit (py ".")].

Definition error_fetching_line (os_name : str) (e : exn) : output :=
  Print [Lit (py "Error fetching "); FStr os_name; Lit (py " URL: "); FExc e].

Definition logged (st : state) (line : output) : state :=
  State (fs st) (out st ++ [line]).

Definition invalid_json_line : output :=
  Print [Lit (py "Warning: "); FStr JSON_FILE;
         Lit (py " contains invalid JSON. Starting with empty data.")].

(** ** The phases of [main] *)

(** Lines 138 to 159: load, resolve, save. *)
Definition record_phase (E : env) : M pyval :=
  let* data := load_existing_data E in
  let* data := resolve E data in
  save_data data >>
  ret data.

Definition processing_line (total : nat) : output :=
  Print [Lit (py "Processing "); FInt (Z.of_nat total);
         Lit (py " URLs with "); FInt MAX_WORKERS; Lit (py " workers")].

Definition is_bool (r : pyresult) : bool :=
  match r with
  | Some _ => true
  | None => false
  end.

(** The number of [True] among the results. *)
Definition successes (results : list pyresult) : Z :=
  Z.of_nat (length (List.filter truthy results)).

(** A computation only appends to the output. *)
Definition appends {A} (m : M A) : Prop :=
  forall st o st', m st = (o, st') -> exists more, out st' = out st ++ more.

(** One member of an encoded object: key, separator, value. *)
Definition member (level : nat) (kv : str * pyval) : str :=
  Json.encode_basestring_ascii (fst kv) ++ Json.key_separator ++ Json.encode level (snd kv).

(** A value that is read back from its encoding, whatever follows it. *)
Definition reads_back (level : nat) (v : pyval) : Prop :=
  plain v = true /\
  forall rest f, (length (Json.encode level v) <= f)%nat ->
    Json.scan_once f (Json.encode level v ++ rest) = Some (v, rest).

(** What follows a lone high surrogate is not the escape of a low one. *)
Definition no_low_escape (rest : str) : bool :=
  match rest with
  | bs :: u :: a :: b :: c :: d :: _ =>
      if (bs =? 92) && (u =? 117) then
        match Json.decode_hex4 a b c d with
        | Some lo => negb (Json.is_low_surrogate lo)
        | None => false
        end
      else true
  | _ => true
  end.

(** A scan that succeeds consumes at least one character, and succeeds in
    the same way with any bound that is at least what it consumed. *)
Definition enough {A} (scan : nat -> str -> option (A * str)) (f : nat) : Prop :=
  forall s a rest,
    scan f s = Some (a, rest) ->
    (length rest < length s)%nat /\
    forall g, (length s - length rest <= g)%nat -> scan g s = Some (a, rest).


(** Text that every ASCII-compatible codec writes and reads as it is. *)
Definition is_ascii (s : str) : bool := forallb (fun c => c <? 128) s.

(** The work list of a record: one item per URL, product after product. *)
Definition work_items (d : list (str * pyval)) : list (str * pyval) :=
  flat_map (fun kv =>
              match snd kv with
              | PDict urls => List.map (fun u => (fst kv, PStr u)) (Dict.keys urls)
              | _ => []
              end) d.

(** A value whose strings are well-formed text and whose dicts have no key
    twice, whatever its shape. *)
Fixpoint well_formed (v : pyval) : bool :=
  match v with
  | PNone | PBool _ | PNum _ => true
  | PStr s => text_ok s
  | PList l => forallb well_formed l
  | PDict d =>
      unique_keys d && forallb (fun kv => text_ok (fst kv) && well_formed (snd kv)) d
  end.

(** An object of objects of strings, whatever its text and its keys. *)
Definition record_shape (v : pyval) : bool :=
  match v with
  | PDict d =>
      forallb (fun kv =>
                 match snd kv with
                 | PDict urls =>
                     forallb (fun ut => match snd ut with PStr _ => true | _ => false end) urls
                 | _ => false
                 end) d
  | _ => false
  end.

Definition starts_low (t : str) : bool :=
  match t with
  | c :: _ => Json.is_low_surrogate c
  | [] => false
  end.

(** The facts that the induction on a string carries. *)
Definition scanned (s t rest : str) : Prop :=
  text_ok t = true /\ scalars rest = true /\
  (starts_low t = true -> no_low_escape s = false).

(** ** Work items *)

(** The command line of the extraction tool of the host. *)
Definition extraction_command (E : env) (cab_path output_dir : str) : list str :=
  if Str.startswith (sys_platform E) (py "win")
  then [py "expand"; cab_path; py "-f:products.xml";
        os_path_join E [output_dir; py "products.xml"]]
  else [py "cabextract"; py "-d"; output_dir; cab_path].

(** The files on disk once a tool has written [written]. *)
Definition after_run (written : list (str * list N)) (f : gmap str node) : gmap str node :=
  fold_left (fun f w => <[fst w := File (Bytes (snd w))]> f) written f.

Definition error_processing_line (url : pyval) (e : exn) : output :=
  Print [Lit (py "Error processing "); FVal url; Lit (py ": "); FExc e].

(** The exception classes that the extractor of the host handles. *)
Definition handled_by_extractor (E : env) : list exc_class :=
  if Str.startswith (sys_platform E) (py "win")
  then [CalledProcessError; TimeoutExpired]
  else [CalledProcessError; FileNotFoundError; TimeoutExpired].

Definition error_extracting_line (E : env) (cab_path : str) (e : exn) : output :=
  Print [Lit (py "Error extracting "); FStr cab_path;
         Lit (if Str.startswith (sys_platform E) (py "win")
              then py " on Windows: " else py " on unix: "); FExc e].

(** What [print_stderr] prints. *)
Definition stderr_lines (e : exn) : list output :=
  match exc_stderr e with
  | Some (c :: s) => [Print [Lit (py "stderr: "); FStr (c :: s)]]
  | _ => []
  end.

(** A computation leaves what is at [p] as it is. *)
Definition keeps (p : str) {A} (m : M A) : Prop :=
  forall st o st', m st = (o, st') -> fs st' !! p = fs st !! p.

Definition has_slash (s : str) : bool := existsb (fun c => c =? 47) s.

(** The lines of [archive_to_wayback]. *)
Definition archiving_line (url : str) : output :=
  Print [Lit (py "Archiving to Wayback: "); FStr url].

Definition failed_to_archive_line (url : str) : output :=
  Print [Lit (py "Failed to archive "); FStr url; Lit (py " to Wayback Machine")].

(** [d'] holds the products of [d] in the same order, each with the URLs
    it has in [d] in the same order and with the same timestamps; what is
    new comes after what was there. *)
Definition grows_from (d d' : list (str * pyval)) : Prop :=
  (exists more, Dict.keys d' = Dict.keys d ++ more) /\
  forall product urls,
    Dict.get product d = Some (PDict urls) ->
    exists more, Dict.get product d' = Some (PDict (urls ++ more)).

(** One step of [posixpath.join]: what the path so far becomes with the
    next component. *)
Definition posix_step (path b : str) : str :=
  if Str.startswith b (py "/") then b
  else if Str.eqb path [] || Str.endswith path (py "/") then path ++ b
  else path ++ py "/" ++ b.

Definition error_downloading_line (url : str) (e : exn) : output :=
  Print [Lit (py "Error downloading "); FStr url; Lit (py ": "); FExc e].

(** Two file systems hold the same files. *)
Definition same_files (f1 f2 : gmap str node) : Prop :=
  forall p c, f1 !! p = Some (File c) <-> f2 !! p = Some (File c).

(** ** The limits of the interpreter and of the host *)

(** The number of opening brackets and braces of a text: no value in it
    is nested deeper. *)
Definition openings (s : str) : nat :=
  length (List.filter (fun c => (c =? 91) || (c =? 123)) s).

(** The length of the longest run of digits of a text, given the run that
    is being read: no number in it has more digits. *)
Fixpoint longest_digit_run (run : nat) (s : str) : nat :=
  match s with
  | [] => run
  | c :: s' =>
      if Json.is_digit c then longest_digit_run (S run) s'
      else Nat.max run (longest_digit_run 0 s')
  end.

(** A text that [json.load] parses within the limits of the interpreter:
    its nesting stays far below the recursion limit (1000 by default), and
    no integer in it has more digits than [int] converts (4300 by
    default).  On such a text [json.load] returns a value or raises
    [JSONDecodeError], as the grammar decides. *)
Definition modest (s : str) : bool :=
  (openings s <=? 100)%nat && (longest_digit_run 0 s <=? 4300)%nat.



(** ** Values that cannot hold URLs *)

(** What [for url in v] accepts. *)
Definition iterable (v : pyval) : bool :=
  match v with
  | PDict _ | PList _ | PStr _ => true
  | _ => false
  end.

(** An object whose values can all be iterated over. *)
Definition object_of_iterables (v : pyval) : bool :=
  match v with
  | PDict d => forallb (fun kv => iterable (snd kv)) d
  | _ => false
  end.

(** ** Sample worlds

    Concrete environments and states on which the definitions run. *)

Definition quoted (s : string) : str := [34] ++ py s ++ [34].
Arguments quoted s%_string.

Definition win10_url : str := py "https://go.microsoft.com/fwlink/?LinkId=841361".

Definition target : str :=
  py "http://download.windowsupdate.com/c/msdownload/update/2024/03/wsusscn2.cab".

Definition sample_record : pyval :=
  PDict [(py "Win10", PDict [(py "https://a/b.cab", PStr (py "2024-01-02T03:04:05"))]);
         (py "Win11", PDict [])].

Definition empty_state : state := State ∅ [].

(** The state file holds [sample_record]. *)
Definition sample_state : state :=
  State {[ JSON_FILE := File (Text (Layout.record sample_record)) ]} [].

Definition noon : datetime := DateTime 2024 3 9 12 0 0 250000.

Definition connection_reset : exn := error RequestException "connection reset by peer".

Definition exit_status_1 : exn :=
  Exn CalledProcessError (py "Command returned non-zero exit status 1.")
      (Some (py "no valid cabinets found")).

(** A Unix host on which nothing answers. *)
Definition offline : env := {|
  sys_platform := py "linux";
  os_path_join := posix_join;
  text_decode := utf8_decode;
  requests_head := fun _ => HeadRaises connection_reset;
  datetime_now := fun _ => noon;
  requests_get := fun _ _ => GetRaises connection_reset;
  subprocess_run := fun _ => RunRaises (Exn FileNotFoundError (py "cabextract") None)
|}.

(** The Win10 link redirects to [target]; the Win11 link answers without
    a [Location] header. *)
Definition redirecting (E : env) : env := {|
  sys_platform := sys_platform E;
  os_path_join := os_path_join E;
  text_decode := text_decode E;
  requests_head := fun url =>
    if Str.eqb url win10_url then HeadResponse (Some target) else HeadResponse None;
  datetime_now := datetime_now E;
  requests_get := requests_get E;
  subprocess_run := subprocess_run E
|}.

Definition with_get (E : env) (g : get_outcome) : env := {|
  sys_platform := sys_platform E;
  os_path_join := os_path_join E;
  text_decode := text_decode E;
  requests_head := requests_head E;
  datetime_now := datetime_now E;
  requests_get := fun _ _ => g;
  subprocess_run := subprocess_run E
|}.

Definition with_run (E : env) (r : run_outcome) : env := {|
  sys_platform := sys_platform E;
  os_path_join := os_path_join E;
  text_decode := text_decode E;
  requests_head := requests_head E;
  datetime_now := datetime_now E;
  requests_get := requests_get E;
  subprocess_run := fun _ => r
|}.

(** The archive arrives in two chunks and [cabextract] rejects it. *)
Definition unix_extraction_fails : env :=
  with_run (with_get (redirecting offline) (StreamEnds [[77; 83]; [67; 70]]))
           (RunRaises exit_status_1).

(** The same on a Windows host.  For relative names without a drive or a
    separator, [ntpath.join] puts a backslash between the parts. *)
Definition on_windows (E : env) : env := {|
  sys_platform := py "win32";
  os_path_join := Str.join (py "\");
  text_decode := text_decode E;
  requests_head := requests_head E;
  datetime_now := datetime_now E;
  requests_get := requests_get E;
  subprocess_run := subprocess_run E
|}.

Definition windows_extraction_fails : env := on_windows unix_extraction_fails.

(** The connection drops after the first chunk. *)
Definition stream_breaks : env :=
  with_get (redirecting offline) (StreamRaises [[77; 83]] connection_reset).


(** A state file holding an object whose value is a string. *)
Definition object_of_strings : str :=
  py "{" ++ quoted "Other" ++ py ": " ++ quoted "ab" ++ py "}".

Definition odd_state : state :=
  State {[ JSON_FILE := File (Text object_of_strings) ]} [].

Definition no_headers : env := {|
  sys_platform := py "linux";
  os_path_join := posix_join;
  text_decode := utf8_decode;
  requests_head := fun _ => HeadResponse None;
  datetime_now := fun _ => noon;
  requests_get := fun _ _ => GetRaises (error RequestException "Invalid URL: No scheme supplied");
  subprocess_run := fun _ => RunRaises (Exn FileNotFoundError (py "cabextract") None)
|}.

(** A state file holding a list. *)
Definition list_state : state :=
  State {[ JSON_FILE := File (Text (py "[1, 2]")) ]} [].

(** The summary line of [main]. *)
Definition summary_line (successful : Z) (total : nat) : output :=
  Print [Lit (py "Processing complete. Successful: "); FInt successful;
         Lit (py "/"); FInt (Z.of_nat total)].

Definition is_summary (o : output) : bool :=
  match o with
  | Print [Lit s; FInt _; Lit _; FInt _] =>
      Str.eqb s (py "Processing complete. Successful: ")
  | _ => false
  end.

Definition downloading_line (url : str) : output :=
  Print [Lit (py "Downloading CAB from: "); FStr url].

Definition no_slash (s : str) : bool := forallb (fun c => negb (c =? 47)) s.

(** ** More sample worlds *)

Definition archive_chunks : list (list N) := [[77; 83]; [67; 70]].

Definition target_dir : str := py "products/Win10/msdownload_update_2024_03_wsusscn2".

(** The archive arrives and [cabextract] writes [products.xml]. *)
Definition extraction_works : env :=
  with_run (with_get (redirecting offline) (StreamEnds archive_chunks))
           (RunCompleted [(target_dir ++ py "/products.xml", [60; 120; 47; 62])]).

(** A Windows host without the [expand] tool. *)
Definition expand_missing : env :=
  on_windows (with_run (with_get (redirecting offline) (StreamEnds archive_chunks))
                       (RunRaises (Exn FileNotFoundError (py "expand") None))).

(** The same answers at a later time. *)
Definition later (E : env) : env := {|
  sys_platform := sys_platform E;
  os_path_join := os_path_join E;
  text_decode := text_decode E;
  requests_head := requests_head E;
  datetime_now := fun _ => DateTime 2025 1 1 0 0 0 0;
  requests_get := requests_get E;
  subprocess_run := subprocess_run E
|}.

(** [requests] raises [OSError] when it finds no CA bundle. *)
Definition no_ca_bundle : exn :=
  error OSError "Could not find a suitable TLS CA certificate bundle".

Definition head_crashes : env := {|
  sys_platform := py "linux";
  os_path_join := posix_join;
  text_decode := utf8_decode;
  requests_head := fun _ => HeadRaises no_ca_bundle;
  datetime_now := fun _ => noon;
  requests_get := fun _ _ => GetRaises connection_reset;
  subprocess_run := fun _ => RunRaises (Exn FileNotFoundError (py "cabextract") None)
|}.

(** The record after [target] was seen for Win10 at [noon]. *)
Definition recorded : pyval :=
  PDict [(py "Win10", PDict [(target, PStr (py "2024-03-09T12:00:00.250000"))])].

(** A regular file where the output directory of [target] should be. *)
Definition blocked_state : state := State {[ target_dir := File (Bytes []) ]} [].

(** A directory where the state file should be. *)
Definition directory_state : state := State {[ JSON_FILE := Dir ]} [].


(** A state file holding an object whose value is a number. *)
Definition object_of_numbers : str := py "{" ++ quoted "Other" ++ py ": 5}".

Definition number_state : state :=
  State {[ JSON_FILE := File (Text object_of_numbers) ]} [].

(** The output directory of [target] is there. *)
Definition ready_state : state := State {[ target_dir := Dir ]} [].

(** [sample_record] with [target] seen for Win10 at [noon]. *)
Definition sample_record_after : pyval :=
  PDict [(py "Win10", PDict [(py "https://a/b.cab", PStr (py "2024-01-02T03:04:05"));
                             (target, PStr (py "2024-03-09T12:00:00.250000"))]);
         (py "Win11", PDict [])].

(** The output directory of [target] for Win10 is there, on the host [E]. *)
Definition ready_for (E : env) : state :=
  State {[ output_dir E (py "Win10") target := Dir ]} [].

(** ** Running the definitions *)

Example split_keeps_empty_fields :
  Str.split 47 (py "a/b//c") = [py "a"; py "b"; py ""; py "c"].
Proof. reflexivity. Qed.

Example split_of_empty : Str.split 47 (py "") = [py ""].
Proof. reflexivity. Qed.

Example endswith_cab : Str.endswith (py "x_y.cab") (py ".cab") = true.
Proof. reflexivity. Qed.

Example sum_of_booleans : Py.sum [Some true; Some false; Some true] = Return 2%Z.
Proof. reflexivity. Qed.

Example in_on_a_string_is_substring :
  Py.contains (PStr (py "xWin10y")) (py "Win10") = Return true.
Proof. reflexivity. Qed.

Example dumps_sample :
  Json.dumps sample_record =
  py "{" ++ [10] ++
  py "    " ++ quoted "Win10" ++ py ": {" ++ [10] ++
  py "        " ++ quoted "https://a/b.cab" ++ py ": " ++ quoted "2024-01-02T03:04:05" ++ [10] ++
  py "    }," ++ [10] ++
  py "    " ++ quoted "Win11" ++ py ": {}" ++ [10] ++
  py "}".
Proof. reflexivity. Qed.

Example loads_dumps_sample : Json.loads (Json.dumps sample_record) = Some sample_record.
Proof. reflexivity. Qed.

Example isoformat_with_microseconds :
  Iso.isoformat (DateTime 2024 3 9 7 5 1 42) = py "2024-03-09T07:05:01.000042".
Proof. reflexivity. Qed.

Example isoformat_whole_second :
  Iso.isoformat (DateTime 2024 3 9 7 5 1 0) = py "2024-03-09T07:05:01".
Proof. reflexivity. Qed.

Example parse_rejects_february_30 : Iso.parse (py "2024-02-30T00:00:00") = None.
Proof. reflexivity. Qed.

(** A character above U+FFFF is written as two escapes and read back as
    one character; so are two surrogates that stand next to each other in
    a string. *)
Example dumps_astral : Json.dumps (PStr [128512]) = quoted "\ud83d\ude00".
Proof. reflexivity. Qed.

Example loads_joins_surrogates :
  Json.loads (Json.dumps (PStr [55357; 56832])) = Some (PStr [128512]).
Proof. reflexivity. Qed.

Example loads_keeps_a_lone_surrogate :
  Json.loads (Json.dumps (PStr [55357; 65])) = Some (PStr [55357; 65]).
Proof. reflexivity. Qed.

Example loads_rejects_a_trailing_comma : Json.loads (py "[1,]") = None.
Proof. reflexivity. Qed.

Example loads_rejects_a_raw_newline_in_a_string : Json.loads [34; 10; 34] = None.
Proof. reflexivity. Qed.

Example loads_keeps_the_first_position_of_a_key :
  Json.loads (py "{" ++ quoted "a" ++ py ": 1, " ++ quoted "b" ++ py ": 2, " ++
              quoted "a" ++ py ": 3}") =
  Some (PDict [(py "a", PNum (py "3")); (py "b", PNum (py "2"))]).
Proof. reflexivity. Qed.

Example utf8_decode_two_bytes : utf8_decode [195; 169] = Some [233].
Proof. reflexivity. Qed.

Example utf8_decode_rejects_ff : utf8_decode [255; 254; 0; 1] = None.
Proof. reflexivity. Qed.

Example posix_join_relative :
  posix_join [py "products"; py "Win10"; py "a_b"] = py "products/Win10/a_b".
Proof. reflexivity. Qed.

Example posix_join_absolute_component :
  posix_join [py "products"; py "/etc"; py "a_b"] = py "/etc/a_b".
Proof. reflexivity. Qed.

Example path_suffix_of_target :
  path_suffix target = py "msdownload_update_2024_03_wsusscn2".
Proof. reflexivity. Qed.

Example path_suffix_of_short_url : path_suffix (py "a/b.cab") = py "a_b".
Proof. reflexivity. Qed.

(** The same failed extraction on the two platforms. *)
Example windows_extraction_failure_is_counted :
  fst (process_url windows_extraction_fails (py "Win10", PStr target) empty_state) =
    Return (Some false) /\
  fst (main windows_extraction_fails empty_state) = Return tt /\
  last (out (snd (main windows_extraction_fails empty_state))) = Some (summary_line 0 1).
Proof. vm_compute. repeat split. Qed.

Example unix_extraction_failure_is_none :
  fst (process_url unix_extraction_fails (py "Win10", PStr target) empty_state) = Return None.
Proof. vm_compute. reflexivity. Qed.

Example unix_run_without_failure :
  let E := with_run unix_extraction_fails
             (RunCompleted [(py "products/Win10/msdownload_update_2024_03_wsusscn2/package.xml",
                             [60; 47; 62])]) in
  fst (main E empty_state) = Return tt /\
  last (out (snd (main E empty_state))) = Some (summary_line 1 1) /\
  fs (snd (main E empty_state)) !! cab_path E (py "Win10") target = None.
Proof. vm_compute. repeat split. Qed.

(** * Dictionaries *)

Module DictFacts.

Lemma str_eqb_refl a : Str.eqb a a = true.
Proof. unfold Str.eqb. apply bool_decide_eq_true. reflexivity. Qed.

Lemma str_eqb_eq a b : Str.eqb a b = true <-> a = b.
Proof. unfold Str.eqb. apply bool_decide_eq_true. Qed.

Lemma str_eqb_neq a b : Str.eqb a b = false <-> a <> b.
Proof. unfold Str.eqb. apply bool_decide_eq_false. Qed.

Lemma str_eqb_sym a b : Str.eqb a b = Str.eqb b a.
Proof. unfold Str.eqb. apply bool_decide_ext. split; congruence. Qed.

Section Laws.
Context {V : Type}.
Implicit Types (d : list (str * V)) (k : str) (v : V).

Lemma get_set_same k v d : Dict.get k (Dict.set k v d) = Some v.
Proof.
  induction d as [|[k' v'] d IH]; cbn [Dict.set Dict.get].
  - rewrite str_eqb_refl. reflexivity.
  - destruct (Str.eqb k k') eqn:E; cbn [Dict.get]; rewrite E; [reflexivity|exact IH].
Qed.

Lemma get_set_other k k' v d : k' <> k -> Dict.get k' (Dict.set k v d) = Dict.get k' d.
Proof.
  intros Hne. induction d as [|[k2 v2] d IH]; cbn [Dict.set Dict.get].
  - rewrite (proj2 (str_eqb_neq k' k)) by assumption. reflexivity.
  - destruct (Str.eqb k k2) eqn:E; cbn [Dict.get].
    + apply str_eqb_eq in E. subst k2.
      rewrite (proj2 (str_eqb_neq k' k)) by assumption. reflexivity.
    + destruct (Str.eqb k' k2); [reflexivity|exact IH].
Qed.

Lemma mem_set k k' v d :
  Dict.mem k' (Dict.set k v d) = Str.eqb k' k || Dict.mem k' d.
Proof.
  unfold Dict.mem. destruct (Str.eqb k' k) eqn:E.
  - apply str_eqb_eq in E. subst. rewrite get_set_same. reflexivity.
  - apply str_eqb_neq in E. rewrite get_set_other by assumption. reflexivity.
Qed.

Lemma unique_keys_set k v d :
  unique_keys d = true -> unique_keys (Dict.set k v d) = true.
Proof.
  induction d as [|[k2 v2] d IH]; intros H; [reflexivity|].
  cbn [unique_keys Dict.set] in *. apply andb_true_iff in H. destruct H as [Hk Hu].
  destruct (Str.eqb k k2) eqn:E; cbn [unique_keys].
  - rewrite Hk, Hu. reflexivity.
  - rewrite IH by assumption. rewrite mem_set.
    rewrite str_eqb_sym, E. cbn [orb]. rewrite Hk. reflexivity.
Qed.

Lemma forallb_set (p : str * V -> bool) k v d :
  forallb p d = true -> p (k, v) = true ->
  forallb p (Dict.set k v d) = true.
Proof.
  intros Hd Hp. induction d as [|[k2 v2] d IH]; cbn [Dict.set forallb] in *.
  - rewrite Hp. reflexivity.
  - apply andb_true_iff in Hd. destruct Hd as [H2 Hd].
    destruct (Str.eqb k k2) eqn:E; cbn [forallb].
    + apply str_eqb_eq in E. subst k2. rewrite Hp, Hd. reflexivity.
    + rewrite H2, IH by assumption. reflexivity.
Qed.

Lemma get_mem k d : Dict.mem k d = false <-> Dict.get k d = None.
Proof. unfold Dict.mem. destruct (Dict.get k d); split; congruence. Qed.

Lemma get_in k v d : Dict.get k d = Some v -> In (k, v) d.
Proof.
  induction d as [|[k2 v2] d IH]; cbn [Dict.get]; [discriminate|].
  destruct (Str.eqb k k2) eqn:E.
  - apply str_eqb_eq in E. intros [= ->]. left. congruence.
  - intros H. right. apply IH, H.
Qed.

Lemma set_set k v v0 d : Dict.set k v (Dict.set k v0 d) = Dict.set k v d.
Proof.
  induction d as [|[k2 v2] d IH]; cbn [Dict.set].
  - rewrite str_eqb_refl. reflexivity.
  - destruct (Str.eqb k k2) eqn:E; cbn [Dict.set]; rewrite E; [reflexivity|].
    rewrite IH. reflexivity.
Qed.
End Laws.
(** ** Rebuilding a dict from its items *)

Lemma dict_set_fresh {V} k (v : V) acc :
  Dict.mem k acc = false -> Dict.set k v acc = acc ++ [(k, v)].
Proof.
  unfold Dict.mem. induction acc as [|[k' v'] acc IH]; intros H; [reflexivity|].
  cbn [Dict.get Dict.set] in *. destruct (Str.eqb k k'); [discriminate|].
  cbn [app]. rewrite IH by assumption. reflexivity.
Qed.

Lemma dict_mem_app {V} k (a b : list (str * V)) :
  Dict.mem k (a ++ b) = Dict.mem k a || Dict.mem k b.
Proof.
  unfold Dict.mem. induction a as [|[k' v'] a IH]; [reflexivity|].
  cbn [app Dict.get]. destruct (Str.eqb k k'); [reflexivity|exact IH].
Qed.

Lemma dict_rebuild_from {V} (d acc : list (str * V)) :
  unique_keys d = true ->
  Forall (fun kv => Dict.mem (fst kv) acc = false) d ->
  fold_left (fun a kv => Dict.set (fst kv) (snd kv) a) d acc = acc ++ d.
Proof.
  revert acc. induction d as [|[k v] d IH]; intros acc Hu Hf.
  - cbn. rewrite app_nil_r. reflexivity.
  - cbn [fold_left fst snd]. cbn [unique_keys] in Hu.
    apply andb_true_iff in Hu. destruct Hu as [Hk Hu]. apply negb_true_iff in Hk.
    inversion Hf as [|? ? Hka Hf']; subst. cbn [fst] in Hka.
    rewrite dict_set_fresh by assumption.
    rewrite IH; [rewrite <- app_assoc; reflexivity | assumption |].
    clear IH Hu. induction d as [|[k2 v2] d IHd]; constructor.
    + cbn [fst]. rewrite dict_mem_app. inversion Hf' as [|? ? H2 _]; subst.
      cbn [fst] in H2. rewrite H2. cbn [orb].
      unfold Dict.mem in *. cbn [Dict.get] in *.
      rewrite str_eqb_sym. destruct (Str.eqb k k2); [discriminate|reflexivity].
    + apply IHd.
      * unfold Dict.mem in *. cbn [Dict.get] in Hk.
        destruct (Str.eqb k k2); [discriminate|exact Hk].
      * constructor; [exact Hka|]. inversion Hf' as [|? ? _ H3]; subst.
        inversion Hf as [|? ? _ H4]; subst. inversion H4; subst. assumption.
      * inversion Hf'; subst. assumption.
Qed.

Lemma dict_rebuild {V} (d : list (str * V)) :
  unique_keys d = true ->
  fold_left (fun a kv => Dict.set (fst kv) (snd kv) a) d [] = d.
Proof.
  intros H. rewrite dict_rebuild_from; [reflexivity | assumption |].
  apply List.Forall_forall. reflexivity.
Qed.

End DictFacts.

(** * Facts about the json module *)

Module JsonFacts.
Import Json.

(** ** Escapes *)

Lemma hex_value_digit d : d < 16 -> hex_value (hex_digit d) = Some d.
Proof.
  intros H. unfold hex_value, hex_digit.
  destruct (N.ltb_spec d 10).
  - replace ((48 <=? 48 + d) && (48 + d <=? 57)) with true
      by (symmetry; apply andb_true_iff; split; apply N.leb_le; lia).
    f_equal. lia.
  - replace ((48 <=? 87 + d) && (87 + d <=? 57)) with false
      by (symmetry; apply andb_false_iff; right; apply N.leb_gt; lia).
    replace ((97 <=? 87 + d) && (87 + d <=? 102)) with true
      by (symmetry; apply andb_true_iff; split; apply N.leb_le; lia).
    f_equal. lia.
Qed.

Lemma decode_hex4_hex4 c :
  c < 65536 ->
  decode_hex4 (hex_digit (c / 4096 mod 16)) (hex_digit (c / 256 mod 16))
              (hex_digit (c / 16 mod 16)) (hex_digit (c mod 16)) = Some c.
Proof.
  intros H. unfold decode_hex4.
  rewrite !hex_value_digit by (apply N.mod_lt; lia).
  f_equal.
  change 4096 with (16 * 16 * 16). change 256 with (16 * 16).
  rewrite <- !N.Div0.div_div.
  pose proof (N.div_mod c 16) as D1.
  pose proof (N.div_mod (c / 16) 16) as D2.
  pose proof (N.div_mod (c / 16 / 16) 16) as D3.
  assert (c / 16 / 16 / 16 < 16) as D4
    by (rewrite !N.Div0.div_div; apply N.Div0.div_lt_upper_bound; lia).
  rewrite (N.mod_small (c / 16 / 16 / 16) 16) by assumption.
  lia.
Qed.

Lemma lor_shift_add a b : b < 1024 -> N.lor (N.shiftl a 10) b = a * 1024 + b.
Proof.
  intros H.
  assert (N.land (N.shiftl a 10) b = 0) as L.
  { apply N.bits_inj. intros i. rewrite N.land_spec, N.bits_0.
    destruct (N.lt_ge_cases i 10).
    - rewrite N.shiftl_spec_low by lia. reflexivity.
    - rewrite <- (N.mod_small b (2 ^ 10)) by (change (2 ^ 10) with 1024; lia).
      rewrite N.mod_pow2_bits_high by lia. apply andb_false_r. }
  rewrite <- N.lxor_lor by exact L.
  rewrite <- N.add_nocarry_lxor by exact L.
  rewrite N.shiftl_mul_pow2. reflexivity.
Qed.

Lemma surrogate_hi n :
  n < 1048576 -> N.lor 55296 (N.land (N.shiftr n 10) 1023) = 55296 + n / 1024.
Proof.
  intros H. change 55296 with (N.shiftl 54 10) at 1. change 1023 with (N.ones 10).
  rewrite N.land_ones, N.shiftr_div_pow2. change (2 ^ 10) with 1024.
  rewrite lor_shift_add by (apply N.mod_lt; lia).
  rewrite N.mod_small by (apply N.Div0.div_lt_upper_bound; lia). reflexivity.
Qed.

Lemma surrogate_lo n : N.lor 56320 (N.land n 1023) = 56320 + n mod 1024.
Proof.
  change 56320 with (N.shiftl 55 10) at 1. change 1023 with (N.ones 10).
  rewrite N.land_ones. change (2 ^ 10) with 1024.
  rewrite lor_shift_add by (apply N.mod_lt; lia). reflexivity.
Qed.

Lemma surrogate_join n :
  n < 1048576 ->
  join_surrogates (55296 + n / 1024) (56320 + n mod 1024) = 65536 + n.
Proof.
  intros H. unfold join_surrogates.
  rewrite (N.add_comm 55296), (N.add_comm 56320), !N.add_sub.
  rewrite lor_shift_add by (apply N.mod_lt; lia).
  pose proof (N.div_mod n 1024) as D. revert D.
  generalize (n / 1024) (n mod 1024). intros q r D. lia.
Qed.

Lemma surrogate_hi_range n :
  n < 1048576 -> is_high_surrogate (55296 + n / 1024) = true.
Proof.
  intros H.
  assert (n / 1024 < 1024) as Hq by (apply N.Div0.div_lt_upper_bound; lia).
  unfold is_high_surrogate. revert Hq. generalize (n / 1024). intros q Hq.
  apply andb_true_iff; split; apply N.leb_le; lia.
Qed.

Lemma surrogate_lo_range n : is_low_surrogate (56320 + n mod 1024) = true.
Proof.
  assert (n mod 1024 < 1024) as Hq by (apply N.mod_lt; lia).
  unfold is_low_surrogate. revert Hq. generalize (n mod 1024). intros q Hq.
  apply andb_true_iff; split; apply N.leb_le; lia.
Qed.

(** ** Strings *)

Lemma scanstring_quote r : scanstring (34 :: r) = Some ([], r).
Proof. reflexivity. Qed.

Lemma scanstring_plain c r :
  c <> 34 -> c <> 92 -> 32 <= c ->
  scanstring (c :: r) = push c (scanstring r).
Proof.
  intros H1 H2 H3. cbn [scanstring].
  rewrite (proj2 (N.eqb_neq c 34)), (proj2 (N.eqb_neq c 92)) by assumption.
  rewrite (proj2 (N.ltb_ge c 32)) by assumption. reflexivity.
Qed.

Lemma scanstring_simple e ch r :
  e <> 117 -> unescape e = Some ch ->
  scanstring (92 :: e :: r) = push ch (scanstring r).
Proof.
  intros H1 H2. cbn [scanstring]. change (92 =? 34) with false.
  change (92 =? 92) with true. cbn iota.
  rewrite (proj2 (N.eqb_neq e 117)) by assumption. rewrite H2. reflexivity.
Qed.

Lemma scanstring_u a b c d uni r :
  decode_hex4 a b c d = Some uni -> is_high_surrogate uni = false ->
  scanstring (92 :: 117 :: a :: b :: c :: d :: r) = push uni (scanstring r).
Proof.
  intros H1 H2. cbn [scanstring]. change (92 =? 34) with false.
  change (92 =? 92) with true. change (117 =? 117) with true. cbn iota.
  rewrite H1, H2. reflexivity.
Qed.

Lemma scanstring_pair a b c d a2 b2 c2 d2 hi lo r :
  decode_hex4 a b c d = Some hi -> is_high_surrogate hi = true ->
  decode_hex4 a2 b2 c2 d2 = Some lo -> is_low_surrogate lo = true ->
  scanstring (92 :: 117 :: a :: b :: c :: d :: 92 :: 117 :: a2 :: b2 :: c2 :: d2 :: r)
  = push (join_surrogates hi lo) (scanstring r).
Proof.
  intros H1 H2 H3 H4. cbn [scanstring]. change (92 =? 34) with false.
  change (92 =? 92) with true. change (117 =? 117) with true. cbn iota.
  rewrite H1, H2. cbn [andb]. rewrite H3, H4. reflexivity.
Qed.

Lemma scan_escape_char c rest :
  c < 1114112 -> is_high_surrogate c = false ->
  scanstring (escape_char c ++ rest) = push c (scanstring rest).
Proof.
  intros Hmax Hhigh.
  unfold escape_char.
  destruct (N.eqb_spec c 34) as [->|N34]; [reflexivity|].
  destruct (N.eqb_spec c 92) as [->|N92]; [reflexivity|].
  destruct (N.eqb_spec c 10) as [->|N10]; [reflexivity|].
  destruct (N.eqb_spec c 13) as [->|N13]; [reflexivity|].
  destruct (N.eqb_spec c 9) as [->|N9]; [reflexivity|].
  destruct (N.eqb_spec c 8) as [->|N8]; [reflexivity|].
  destruct (N.eqb_spec c 12) as [->|N12]; [reflexivity|].
  destruct (N.leb_spec 32 c) as [Hlo|Hlo]; cbn [andb].
  - destruct (N.leb_spec c 126) as [Hhi|Hhi].
    + apply scanstring_plain; assumption.
    + destruct (N.ltb_spec c 65536) as [Hbmp|Hbmp].
      * apply scanstring_u; [apply decode_hex4_hex4; assumption|exact Hhigh].
      * assert (c - 65536 < 1048576) as Hn by lia.
        rewrite surrogate_hi, surrogate_lo by assumption.
        cbn [u_escape hex4 app].
        rewrite (scanstring_pair _ _ _ _ _ _ _ _ (55296 + (c - 65536) / 1024)
                   (56320 + (c - 65536) mod 1024)).
        -- rewrite surrogate_join by assumption. f_equal. lia.
        -- apply decode_hex4_hex4.
           assert ((c - 65536) / 1024 < 1024) as Hq
             by (apply N.Div0.div_lt_upper_bound; lia).
           revert Hq. generalize ((c - 65536) / 1024). intros; lia.
        -- apply surrogate_hi_range; assumption.
        -- apply decode_hex4_hex4.
           assert ((c - 65536) mod 1024 < 1024) as Hq by (apply N.mod_lt; lia).
           revert Hq. generalize ((c - 65536) mod 1024). intros; lia.
        -- apply surrogate_lo_range.
  - destruct (N.ltb_spec c 65536) as [Hbmp|Hbmp]; [|lia].
    apply scanstring_u; [apply decode_hex4_hex4; assumption|exact Hhigh].
Qed.

Lemma scanstring_high c rest :
  is_high_surrogate c = true -> no_low_escape rest = true ->
  scanstring (u_escape c ++ rest) = push c (scanstring rest).
Proof.
  intros Hhigh Hrest.
  assert (c < 65536) as Hbmp.
  { unfold is_high_surrogate in Hhigh. apply andb_true_iff in Hhigh.
    destruct Hhigh as [_ H]. apply N.leb_le in H. lia. }
  unfold u_escape, hex4. cbn [app scanstring].
  change (92 =? 34) with false. change (92 =? 92) with true.
  change (117 =? 117) with true. cbn iota.
  rewrite decode_hex4_hex4 by assumption. rewrite Hhigh.
  unfold no_low_escape in Hrest.
  destruct rest as [|bs [|u [|a [|b [|c1 [|d r3]]]]]]; try reflexivity.
  destruct ((bs =? 92) && (u =? 117)); [|reflexivity].
  destruct (decode_hex4 a b c1 d) as [lo|]; [|discriminate].
  apply negb_true_iff in Hrest. rewrite Hrest. reflexivity.
Qed.

Lemma escape_char_high c :
  is_high_surrogate c = true -> escape_char c = u_escape c.
Proof.
  intros H. unfold is_high_surrogate in H. apply andb_true_iff in H.
  destruct H as [H1 H2]. apply N.leb_le in H1, H2. unfold escape_char.
  repeat match goal with
         | |- context [?a =? ?b] =>
             destruct (N.eqb_spec a b); [lia|]
         end.
  replace ((32 <=? c) && (c <=? 126)) with false
    by (symmetry; apply andb_false_iff; right; apply N.leb_gt; lia).
  replace (c <? 65536) with true by (symmetry; apply N.ltb_lt; lia).
  reflexivity.
Qed.

(** The escape of a character that is not a low surrogate does not read
    as the escape of one. *)
Lemma no_low_escape_char c rest :
  c < 1114112 -> is_low_surrogate c = false ->
  no_low_escape (escape_char c ++ rest) = true.
Proof.
  intros Hmax Hlow. unfold escape_char.
  destruct (N.eqb_spec c 34) as [->|N34];
    [destruct rest as [|? [|? [|? [|? ?]]]]; reflexivity|].
  destruct (N.eqb_spec c 92) as [->|N92];
    [destruct rest as [|? [|? [|? [|? ?]]]]; reflexivity|].
  destruct (N.eqb_spec c 10) as [->|N10];
    [destruct rest as [|? [|? [|? [|? ?]]]]; reflexivity|].
  destruct (N.eqb_spec c 13) as [->|N13];
    [destruct rest as [|? [|? [|? [|? ?]]]]; reflexivity|].
  destruct (N.eqb_spec c 9) as [->|N9];
    [destruct rest as [|? [|? [|? [|? ?]]]]; reflexivity|].
  destruct (N.eqb_spec c 8) as [->|N8];
    [destruct rest as [|? [|? [|? [|? ?]]]]; reflexivity|].
  destruct (N.eqb_spec c 12) as [->|N12];
    [destruct rest as [|? [|? [|? [|? ?]]]]; reflexivity|].
  destruct ((32 <=? c) && (c <=? 126)).
  - cbn [app]. unfold no_low_escape.
    destruct rest as [|u [|a [|b [|c1 [|d r3]]]]]; try reflexivity.
    rewrite (proj2 (N.eqb_neq c 92)) by assumption. reflexivity.
  - destruct (N.ltb_spec c 65536) as [Hbmp|Hbmp].
    + unfold u_escape, hex4, no_low_escape. cbn [app].
      change (92 =? 92) with true. change (117 =? 117) with true. cbn [andb].
      rewrite decode_hex4_hex4 by assumption. rewrite Hlow. reflexivity.
    + assert (c - 65536 < 1048576) as Hn by lia.
      rewrite surrogate_hi by assumption.
      unfold u_escape at 1, hex4, no_low_escape. cbn [app].
      change (92 =? 92) with true. change (117 =? 117) with true. cbn [andb].
      assert ((c - 65536) / 1024 < 1024) as Hq
        by (apply N.Div0.div_lt_upper_bound; lia).
      rewrite decode_hex4_hex4
        by (revert Hq; generalize ((c - 65536) / 1024); intros; lia).
      unfold is_low_surrogate.
      replace (56320 <=? 55296 + (c - 65536) / 1024) with false; [reflexivity|].
      symmetry. apply N.leb_gt. revert Hq. generalize ((c - 65536) / 1024). intros; lia.
Qed.

Lemma no_low_escape_encoded s rest :
  text_ok s = true ->
  match s with
  | c :: _ => is_low_surrogate c = false
  | [] => True
  end ->
  no_low_escape (flat_map escape_char s ++ 34 :: rest) = true.
Proof.
  destruct s as [|c s]; intros Hs Hc.
  - cbn [flat_map app]. destruct rest as [|? [|? [|? [|? [|? ?]]]]]; reflexivity.
  - cbn [flat_map]. rewrite <- app_assoc. apply no_low_escape_char; [|exact Hc].
    cbn [text_ok] in Hs. apply andb_true_iff in Hs. destruct Hs as [Hs _].
    apply andb_true_iff in Hs. destruct Hs as [Hs _]. apply N.ltb_lt, Hs.
Qed.

(** Reading back an encoded string gives the string and what follows
    its closing quote. *)
Lemma scanstring_encoded s rest :
  text_ok s = true ->
  scanstring (flat_map escape_char s ++ 34 :: rest) = Some (s, rest).
Proof.
  induction s as [|c s IH]; intros Hs.
  - reflexivity.
  - cbn [text_ok] in Hs. apply andb_true_iff in Hs. destruct Hs as [Hs Hs'].
    apply andb_true_iff in Hs. destruct Hs as [Hc Hpair].
    apply N.ltb_lt in Hc. apply negb_true_iff in Hpair.
    cbn [flat_map]. rewrite <- app_assoc.
    destruct (is_high_surrogate c) eqn:Hhigh.
    + rewrite escape_char_high by assumption.
      rewrite scanstring_high; [rewrite IH by assumption; reflexivity|assumption|].
      apply no_low_escape_encoded; [assumption|].
      unfold splits_pair in Hpair. rewrite Hhigh in Hpair. cbn [andb] in Hpair.
      destruct s; [exact I|exact Hpair].
    + rewrite scan_escape_char by assumption.
      rewrite IH by assumption. reflexivity.
Qed.

End JsonFacts.

(** * Loading what was dumped *)

Module JsonRound.
Import Json JsonFacts.

Lemma pyval_nested_ind (P : pyval -> Prop) :
  P PNone -> (forall b, P (PBool b)) -> (forall l, P (PNum l)) -> (forall s, P (PStr s)) ->
  (forall l, Forall P l -> P (PList l)) ->
  (forall d, Forall (fun kv => P (snd kv)) d -> P (PDict d)) ->
  forall v, P v.
Proof.
  intros HN HB HNum HS HL HD. fix IH 1. intros [ | b | l | s | l | d].
  - exact HN.
  - apply HB.
  - apply HNum.
  - apply HS.
  - apply HL. induction l as [|a l IHl]; constructor; [apply IH | exact IHl].
  - apply HD. induction d as [|[k a] d IHd]; constructor; [apply IH | exact IHd].
Qed.

Lemma encode_list_cons level a l :
  encode level (PList (a :: l)) =
  91 :: newline_indent (S level) ++
  Str.join (item_separator (S level)) (List.map (encode (S level)) (a :: l)) ++
  newline_indent level ++ [93].
Proof. reflexivity. Qed.

Lemma encode_dict_cons level a d :
  encode level (PDict (a :: d)) =
  123 :: newline_indent (S level) ++
  Str.join (item_separator (S level)) (List.map (member (S level)) (a :: d)) ++
  newline_indent level ++ [125].
Proof. reflexivity. Qed.

Lemma skip_ws_stop c r : is_ws c = false -> skip_ws (c :: r) = c :: r.
Proof. intros H. cbn [skip_ws]. rewrite H. reflexivity. Qed.

Lemma skip_ws_indent n r : skip_ws (concat (repeat indent n) ++ r) = skip_ws r.
Proof. induction n as [|n IH]; [reflexivity|]. cbn [repeat concat]. rewrite <- app_assoc. exact IH. Qed.

Lemma skip_ws_newline_indent level r : skip_ws (newline_indent level ++ r) = skip_ws r.
Proof. unfold newline_indent. cbn [app skip_ws]. change (is_ws 10) with true. cbn iota. apply skip_ws_indent. Qed.

Lemma length_newline_indent level : (1 <= length (newline_indent level))%nat.
Proof. unfold newline_indent. cbn [length]. lia. Qed.

(** An encoded value starts with a character that is not white space. *)
Lemma encode_head level v :
  plain v = true -> exists c t, encode level v = c :: t /\ is_ws c = false /\ c <> 93 /\ c <> 125.
Proof.
  intros H.
  assert (forall c t, is_ws c = false /\ c <> 93 /\ c <> 125 -> encode level v = c :: t ->
          exists c t, encode level v = c :: t /\ is_ws c = false /\ c <> 93 /\ c <> 125) as K
    by (intros c t ? ?; exists c, t; tauto).
  destruct v as [ | [|] | l | s | [|a l] | [|a d]]; try discriminate H.
  - apply (K 110 (py "ull")); [repeat split; discriminate | reflexivity].
  - apply (K 116 (py "rue")); [repeat split; discriminate | reflexivity].
  - apply (K 102 (py "alse")); [repeat split; discriminate | reflexivity].
  - apply (K 34 (flat_map escape_char s ++ [34])); [repeat split; discriminate | reflexivity].
  - apply (K 91 [93]); [repeat split; discriminate | reflexivity].
  - rewrite encode_list_cons in *. eapply K; [|reflexivity]. repeat split; discriminate.
  - apply (K 123 [125]); [repeat split; discriminate | reflexivity].
  - rewrite encode_dict_cons in *. eapply K; [|reflexivity]. repeat split; discriminate.
Qed.

Lemma scan_once_quote f r :
  scan_once (S f) (34 :: r) =
  match scanstring r with
  | Some (t, rest) => Some (PStr t, rest)
  | None => None
  end.
Proof. reflexivity. Qed.

Lemma scan_once_bracket f r :
  scan_once (S f) (91 :: r) =
  match skip_ws r with
  | c1 :: r2 =>
      if c1 =? 93 then Some (PList [], r2)
      else match scan_elements f (skip_ws r) with
           | Some (l, rest) => Some (PList l, rest)
           | None => None
           end
  | [] => None
  end.
Proof. reflexivity. Qed.

Lemma scan_once_brace f r :
  scan_once (S f) (123 :: r) =
  match skip_ws r with
  | c1 :: r2 =>
      if c1 =? 125 then Some (PDict [], r2)
      else match scan_members f (skip_ws r) with
           | Some (pairs, rest) =>
               Some (PDict (fold_left (fun d kv => Dict.set (fst kv) (snd kv) d) pairs []),
                     rest)
           | None => None
           end
  | [] => None
  end.
Proof. reflexivity. Qed.

Lemma scan_elements_step f s :
  scan_elements (S f) s =
  match scan_once f s with
  | Some (v, rest) =>
      match skip_ws rest with
      | c :: r =>
          if c =? 93 then Some ([v], r)
          else if c =? 44 then
            match scan_elements f (skip_ws r) with
            | Some (vs, rest') => Some (v :: vs, rest')
            | None => None
            end
          else None
      | [] => None
      end
  | None => None
  end.
Proof. reflexivity. Qed.

Lemma scan_members_step f s1 :
  scan_members (S f) (34 :: s1) =
  match scanstring s1 with
  | Some (key, s2) =>
      match skip_ws s2 with
      | colon :: s3 =>
          if colon =? 58 then
            match scan_once f (skip_ws s3) with
            | Some (v, rest) =>
                match skip_ws rest with
                | c :: r =>
                    if c =? 125 then Some ([(key, v)], r)
                    else if c =? 44 then
                      match scan_members f (skip_ws r) with
                      | Some (kvs, rest') => Some ((key, v) :: kvs, rest')
                      | None => None
                      end
                    else None
                | [] => None
                end
            | None => None
            end
          else None
      | [] => None
      end
  | None => None
  end.
Proof. reflexivity. Qed.

Lemma scan_once_string f s rest :
  text_ok s = true ->
  scan_once (S f) (encode_basestring_ascii s ++ rest) = Some (PStr s, rest).
Proof.
  intros H. unfold encode_basestring_ascii. cbn [app]. rewrite <- app_assoc. cbn [app].
  rewrite scan_once_quote, scanstring_encoded by assumption. reflexivity.
Qed.

Lemma scan_elements_encoded level rest l :
  l <> [] -> Forall (reads_back (S level)) l ->
  forall f, (length (Str.join (item_separator (S level)) (List.map (encode (S level)) l)) < f)%nat ->
  scan_elements f
    (Str.join (item_separator (S level)) (List.map (encode (S level)) l) ++
     newline_indent level ++ 93 :: rest) = Some (l, rest).
Proof.
  induction l as [|v l IH]; [congruence|]. intros _ HF f Hf.
  inversion HF as [|? ? [Hp Hv] HF']; subst.
  destruct f as [|f]; [lia|]. rewrite scan_elements_step.
  destruct l as [|v2 l].
  - cbn [List.map Str.join] in *.
    rewrite Hv by lia. rewrite skip_ws_newline_indent, skip_ws_stop by reflexivity.
    reflexivity.
  - change (Str.join (item_separator (S level)) (List.map (encode (S level)) (v :: v2 :: l)))
      with (encode (S level) v ++ item_separator (S level) ++
            Str.join (item_separator (S level)) (List.map (encode (S level)) (v2 :: l))) in *.
    rewrite length_app, length_app in Hf.
    rewrite <- !app_assoc. rewrite Hv by lia.
    unfold item_separator at 1. cbn [app]. rewrite skip_ws_stop by reflexivity.
    change (44 =? 93) with false. change (44 =? 44) with true. cbn iota.
    rewrite skip_ws_newline_indent.
    destruct (encode_head (S level) v2) as (c & t & Hc & Hws & _).
    { inversion HF' as [|? ? [Hp2 _] _]. exact Hp2. }
    assert (skip_ws (Str.join (item_separator (S level)) (List.map (encode (S level)) (v2 :: l)) ++
              newline_indent level ++ 93 :: rest)
            = Str.join (item_separator (S level)) (List.map (encode (S level)) (v2 :: l)) ++
              newline_indent level ++ 93 :: rest) as ->.
    { destruct l; cbn [List.map Str.join]; rewrite Hc; cbn [app]; apply skip_ws_stop, Hws. }
    rewrite IH; [reflexivity | congruence | assumption | ].
    assert (1 <= length (item_separator (S level)))%nat
      by (unfold item_separator; cbn [length]; lia).
    lia.
Qed.

Lemma scan_members_encoded level rest d :
  d <> [] ->
  Forall (fun kv => text_ok (fst kv) = true /\ reads_back (S level) (snd kv)) d ->
  forall f, (length (Str.join (item_separator (S level)) (List.map (member (S level)) d)) < f)%nat ->
  scan_members f
    (Str.join (item_separator (S level)) (List.map (member (S level)) d) ++
     newline_indent level ++ 125 :: rest) = Some (d, rest).
Proof.
  induction d as [|[k v] d IH]; [congruence|]. intros _ HF f Hf.
  inversion HF as [|? ? [Hk [Hp Hv]] HF']; subst. cbn [fst snd] in *.
  destruct f as [|f]; [lia|].
  destruct (encode_head (S level) v Hp) as (c & t & Hc & Hws & _).
  assert (forall tail,
            member (S level) (k, v) ++ tail =
            34 :: flat_map escape_char k ++ 34 :: 58 :: 32 :: encode (S level) v ++ tail) as Hm.
  { intros tail. unfold member, encode_basestring_ascii, key_separator. cbn [fst snd].
    change (py ": ") with [58; 32]. cbn [app]. rewrite <- !app_assoc. reflexivity. }
  assert (length (encode (S level) v) < length (member (S level) (k, v)))%nat as Hlen.
  { unfold member. cbn [fst snd]. rewrite !length_app.
    unfold encode_basestring_ascii. cbn [app length]. lia. }
  destruct d as [|kv2 d].
  - cbn [List.map Str.join] in *.
    rewrite Hm, scan_members_step, scanstring_encoded by assumption.
    rewrite skip_ws_stop by reflexivity. change (58 =? 58) with true. cbn iota.
    change (skip_ws (32 :: ?x)) with (skip_ws x).
    rewrite Hc. cbn [app]. rewrite skip_ws_stop by assumption.
    change (c :: t ++ newline_indent level ++ 125 :: rest)
      with ((c :: t) ++ newline_indent level ++ 125 :: rest).
    rewrite <- Hc. rewrite Hv by lia.
    rewrite skip_ws_newline_indent, skip_ws_stop by reflexivity. reflexivity.
  - change (Str.join (item_separator (S level)) (List.map (member (S level)) ((k, v) :: kv2 :: d)))
      with (member (S level) (k, v) ++ item_separator (S level) ++
            Str.join (item_separator (S level)) (List.map (member (S level)) (kv2 :: d))) in *.
    rewrite length_app, length_app in Hf.
    rewrite <- !app_assoc.
    rewrite Hm, scan_members_step, scanstring_encoded by assumption.
    rewrite skip_ws_stop by reflexivity. change (58 =? 58) with true. cbn iota.
    change (skip_ws (32 :: ?x)) with (skip_ws x).
    rewrite Hc. cbn [app]. rewrite skip_ws_stop by assumption.
    match goal with
    | |- context [scan_once f (c :: t ++ ?tail)] =>
        change (c :: t ++ tail) with ((c :: t) ++ tail)
    end.
    rewrite <- Hc. rewrite Hv by lia.
    unfold item_separator at 1. cbn [app]. rewrite skip_ws_stop by reflexivity.
    change (44 =? 125) with false. change (44 =? 44) with true. cbn iota.
    rewrite skip_ws_newline_indent.
    assert (skip_ws (Str.join (item_separator (S level)) (List.map (member (S level)) (kv2 :: d)) ++
              newline_indent level ++ 125 :: rest)
            = Str.join (item_separator (S level)) (List.map (member (S level)) (kv2 :: d)) ++
              newline_indent level ++ 125 :: rest) as ->.
    { destruct d; cbn [List.map Str.join]; unfold member at 1, encode_basestring_ascii;
        cbn [app]; apply skip_ws_stop; reflexivity. }
    assert (1 <= length (item_separator (S level)))%nat
      by (unfold item_separator; cbn [length]; lia).
    rewrite IH; [reflexivity | congruence | assumption | lia].
Qed.

(** ** Values *)

Lemma join_head level (f : nat -> pyval -> str) sep a l c t :
  f level a = c :: t ->
  exists t', Str.join sep (List.map (f level) (a :: l)) = c :: t'.
Proof.
  intros H. destruct l; cbn [List.map Str.join]; rewrite H; cbn [app]; eauto.
Qed.

Theorem scan_once_encode v :
  plain v = true ->
  forall level rest f, (length (encode level v) <= f)%nat ->
    scan_once f (encode level v ++ rest) = Some (v, rest).
Proof.
  induction v as [ | b | lit | s | l IH | d IH] using pyval_nested_ind;
    intros Hp level rest f Hf.
  - destruct f as [|f]; [cbn in Hf; lia|]. vm_compute. reflexivity.
  - destruct f as [|f]; [destruct b; cbn in Hf; lia|]. destruct b; vm_compute; reflexivity.
  - discriminate Hp.
  - destruct f as [|f]; [unfold encode, encode_basestring_ascii in Hf; cbn in Hf; lia|].
    apply scan_once_string. exact Hp.
  - destruct l as [|a l].
    + destruct f as [|f]; [cbn in Hf; lia|]. vm_compute. reflexivity.
    + rewrite encode_list_cons in *. cbn [length] in Hf.
      destruct f as [|f]; [lia|]. cbn [app].
      rewrite scan_once_bracket. rewrite <- !app_assoc.
      rewrite skip_ws_newline_indent.
      assert (Forall (reads_back (S level)) (a :: l)) as HF.
      { cbn [plain] in Hp. rewrite forallb_forall in Hp.
        rewrite List.Forall_forall in IH. apply List.Forall_forall. intros x Hx.
        split; [apply Hp; exact Hx|]. intros r g Hg.
        apply IH; [exact Hx | apply Hp; exact Hx | exact Hg]. }
      destruct (encode_head (S level) a) as (c & t & Hc & Hws & H93 & _).
      { inversion HF as [|? ? [Ha _] _]. exact Ha. }
      destruct (join_head (S level) encode (item_separator (S level)) a l c t Hc)
        as [t' Hj].
      assert (forall tail,
                skip_ws (Str.join (item_separator (S level))
                           (List.map (encode (S level)) (a :: l)) ++ tail) =
                c :: t' ++ tail) as Hskip.
      { intros tail. rewrite Hj. cbn [app]. apply skip_ws_stop, Hws. }
      rewrite Hskip at 1. rewrite (proj2 (N.eqb_neq c 93)) by assumption.
      rewrite Hskip. change (c :: t' ++ ?x) with ((c :: t') ++ x). rewrite <- Hj.
      change ([93] ++ rest) with (93 :: rest).
      rewrite scan_elements_encoded; [reflexivity | congruence | assumption |].
      rewrite !length_app in Hf. cbn [length] in Hf. lia.
  - destruct d as [|a d].
    + destruct f as [|f]; [cbn in Hf; lia|]. vm_compute. reflexivity.
    + rewrite encode_dict_cons in *. cbn [length] in Hf.
      destruct f as [|f]; [lia|]. cbn [app].
      rewrite scan_once_brace. rewrite <- !app_assoc.
      rewrite skip_ws_newline_indent.
      cbn [plain] in Hp. apply andb_true_iff in Hp. destruct Hp as [Hu Hp].
      assert (Forall (fun kv => text_ok (fst kv) = true /\ reads_back (S level) (snd kv))
                (a :: d)) as HF.
      { rewrite forallb_forall in Hp.
        rewrite List.Forall_forall in IH. apply List.Forall_forall. intros x Hx.
        specialize (Hp x Hx). apply andb_true_iff in Hp. destruct Hp as [Hk Hx'].
        split; [exact Hk|]. split; [exact Hx'|]. intros r g Hg.
        apply IH; [exact Hx | exact Hx' | exact Hg]. }
      assert (exists t', Str.join (item_separator (S level))
                           (List.map (member (S level)) (a :: d)) = 34 :: t') as [t' Hj].
      { destruct d; cbn [List.map Str.join]; unfold member at 1, encode_basestring_ascii;
          cbn [app]; eauto. }
      assert (forall tail,
                skip_ws (Str.join (item_separator (S level))
                           (List.map (member (S level)) (a :: d)) ++ tail) =
                34 :: t' ++ tail) as Hskip.
      { intros tail. rewrite Hj. cbn [app]. apply skip_ws_stop. reflexivity. }
      rewrite Hskip at 1. change (34 =? 125) with false. cbn iota.
      rewrite Hskip. change (34 :: t' ++ ?x) with ((34 :: t') ++ x). rewrite <- Hj.
      change ([125] ++ rest) with (125 :: rest).
      rewrite scan_members_encoded; [| congruence | assumption |].
      * rewrite DictFacts.dict_rebuild by assumption. reflexivity.
      * rewrite !length_app in Hf. cbn [length] in Hf. lia.
Qed.

(** Loading what was dumped gives the value back. *)
Theorem loads_dumps v : plain v = true -> loads (dumps v) = Some v.
Proof.
  intros H. unfold loads, dumps.
  destruct (encode_head 0 v H) as (c & t & Hc & Hws & _).
  rewrite Hc at 2. rewrite skip_ws_stop by assumption. rewrite <- Hc.
  rewrite <- (app_nil_r (encode 0 v)) at 2.
  rewrite scan_once_encode; [reflexivity | assumption | lia].
Qed.
End JsonRound.

(** * The bound of the recursion in [loads] is enough *)

Module JsonFuel.
Import Json.

Lemma skip_ws_length s : (length (skip_ws s) <= length s)%nat.
Proof.
  induction s as [|c s IH]; [reflexivity|]. cbn [skip_ws].
  destruct (is_ws c); cbn [length]; lia.
Qed.

Lemma push_some c r t rest :
  push c r = Some (t, rest) -> exists t', r = Some (t', rest) /\ t = c :: t'.
Proof.
  destruct r as [[t' rest']|]; [|discriminate]. cbn. intros [= <- <-]. eauto.
Qed.

Lemma scanstring_shorter_upto n :
  forall s t rest, (length s <= n)%nat ->
    scanstring s = Some (t, rest) -> (length rest < length s)%nat.
Proof.
  induction n as [|n IH]; intros s t rest Hn H.
  - destruct s; [discriminate|cbn in Hn; lia].
  - destruct s as [|c r]; [discriminate|]. cbn [length] in *. cbn [scanstring] in H.
    destruct (c =? 34).
    { injection H as _ <-. lia. }
    destruct (c =? 92).
    + destruct r as [|e r1]; [discriminate|]. cbn [length] in *.
      destruct (e =? 117).
      * destruct r1 as [|a [|b [|c1 [|d r2]]]]; try discriminate. cbn [length] in *.
        destruct (decode_hex4 a b c1 d) as [uni|]; [|discriminate].
        assert (forall x, push x (scanstring r2) = Some (t, rest) ->
                          (length rest < S (S (S (S (S (S (length r2)))))))%nat) as Hplain.
        { intros x Hx. apply push_some in Hx. destruct Hx as (t' & Hx & _).
          apply IH in Hx; lia. }
        destruct (is_high_surrogate uni); [|eapply Hplain, H].
        destruct r2 as [|bs [|u [|a2 [|b2 [|c2 [|d2 r3]]]]]];
          try (eapply Hplain, H).
        destruct ((bs =? 92) && (u =? 117)); [|eapply Hplain, H].
        destruct (decode_hex4 a2 b2 c2 d2) as [uni2|]; [|discriminate].
        destruct (is_low_surrogate uni2); [|eapply Hplain, H].
        apply push_some in H. destruct H as (t' & H & _).
        apply IH in H; cbn [length] in *; lia.
      * destruct (unescape e); [|discriminate].
        apply push_some in H. destruct H as (t' & H & _). apply IH in H; lia.
    + destruct (c <? 32); [discriminate|].
      apply push_some in H. destruct H as (t' & H & _). apply IH in H; lia.
Qed.

Lemma scanstring_shorter s t rest :
  scanstring s = Some (t, rest) -> (length rest < length s)%nat.
Proof. apply (scanstring_shorter_upto (length s)). reflexivity. Qed.

Lemma take_digits_length s ds rest :
  take_digits s = (ds, rest) -> (length rest <= length s)%nat.
Proof.
  revert ds rest. induction s as [|c s IH]; intros ds rest H.
  - injection H as _ <-. reflexivity.
  - cbn [take_digits] in H. destruct (is_digit c).
    + destruct (take_digits s) as [ds' rest'] eqn:Hs. injection H as _ <-.
      specialize (IH _ _ eq_refl). cbn [length]. lia.
    + injection H as _ <-. reflexivity.
Qed.

Lemma scan_integer_shorter s lit rest :
  scan_integer s = Some (lit, rest) -> (length rest < length s)%nat.
Proof.
  unfold scan_integer. intros H.
  assert (forall s1, (length s1 <= length s)%nat ->
            match s1 with
            | c :: s2 =>
                if c =? 48 then Some (lit, s2)
                else if is_digit c then
                       let '(ds, rest) := take_digits s2 in Some (lit, rest)
                     else None
            | [] => None
            end = Some (lit, rest) -> (length rest < length s)%nat) as K.
  { intros s1 Hs1 H1. destruct s1 as [|c s2]; [discriminate|]. cbn [length] in Hs1.
    destruct (c =? 48); [injection H1 as <-; lia|].
    destruct (is_digit c); [|discriminate].
    destruct (take_digits s2) as [ds r] eqn:Hd. injection H1 as <-.
    apply take_digits_length in Hd. lia. }
  destruct s as [|c s']; [discriminate|].
  destruct (c =? 45).
  - apply (K s'); [cbn [length]; lia|].
    destruct s' as [|c2 s2]; [discriminate|].
    destruct (c2 =? 48); [injection H as _ <-; reflexivity|].
    destruct (is_digit c2); [|discriminate].
    destruct (take_digits s2). injection H as _ <-. reflexivity.
  - apply (K (c :: s')); [reflexivity|].
    destruct (c =? 48); [injection H as _ <-; reflexivity|].
    destruct (is_digit c); [|discriminate].
    destruct (take_digits s'). injection H as _ <-. reflexivity.
Qed.

Lemma scan_fraction_length s frac rest :
  scan_fraction s = (frac, rest) -> (length rest <= length s)%nat.
Proof.
  unfold scan_fraction. destruct s as [|c s']; [intros [= _ <-]; reflexivity|].
  destruct (c =? 46); [|intros [= _ <-]; reflexivity].
  destruct (take_digits s') as [[|d ds] r] eqn:Hd; intros [= _ <-]; [reflexivity|].
  apply take_digits_length in Hd. cbn [length]. lia.
Qed.

Lemma scan_exponent_length s e rest :
  scan_exponent s = (e, rest) -> (length rest <= length s)%nat.
Proof.
  unfold scan_exponent. destruct s as [|c s']; [intros [= _ <-]; reflexivity|].
  destruct ((c =? 101) || (c =? 69)); [|intros [= _ <-]; reflexivity].
  destruct s' as [|c2 s2].
  - cbn. intros [= _ <-]. reflexivity.
  - destruct ((c2 =? 45) || (c2 =? 43)).
    + destruct (take_digits s2) as [[|d ds] r] eqn:Hd; intros [= _ <-]; [reflexivity|].
      apply take_digits_length in Hd. cbn [length]. lia.
    + destruct (take_digits (c2 :: s2)) as [[|d ds] r] eqn:Hd; intros [= _ <-]; [reflexivity|].
      apply take_digits_length in Hd. cbn [length] in *. lia.
Qed.

Lemma scan_number_shorter s lit rest :
  scan_number s = Some (lit, rest) -> (length rest < length s)%nat.
Proof.
  unfold scan_number. destruct (scan_integer s) as [[int s1]|] eqn:Hi; [|discriminate].
  destruct (scan_fraction s1) as [frac s2] eqn:Hf.
  destruct (scan_exponent s2) as [e s3] eqn:He. intros [= _ <-].
  apply scan_integer_shorter in Hi. apply scan_fraction_length in Hf.
  apply scan_exponent_length in He. lia.
Qed.

Lemma literal_shorter word v s v' rest :
  word <> [] -> literal word v s = Some (v', rest) -> (length rest < length s)%nat.
Proof.
  intros Hw. unfold literal. destruct (Str.startswith s word) eqn:Hs; [|discriminate].
  intros [= _ <-]. rewrite length_skipn.
  destruct word as [|w word]; [congruence|]. destruct s as [|c s]; [discriminate|].
  cbn [length]. lia.
Qed.

Lemma scan_constant_shorter s v rest :
  scan_constant s = Some (v, rest) -> (length rest < length s)%nat.
Proof.
  unfold scan_constant. destruct (scan_number s) as [[lit r]|] eqn:Hn.
  - intros [= _ <-]. eapply scan_number_shorter, Hn.
  - destruct (literal (py "NaN") _ s) as [[v1 r1]|] eqn:H1.
    + intros [= _ <-]. eapply literal_shorter, H1. discriminate.
    + destruct (literal (py "Infinity") _ s) as [[v2 r2]|] eqn:H2.
      * intros [= _ <-]. eapply literal_shorter, H2. discriminate.
      * intros H3. eapply literal_shorter, H3. discriminate.
Qed.

Lemma scan_once_step f c r :
  scan_once (S f) (c :: r) =
  if c =? 34 then
    match scanstring r with
    | Some (t, rest) => Some (PStr t, rest)
    | None => None
    end
  else if c =? 123 then
    match skip_ws r with
    | c1 :: r2 =>
        if c1 =? 125 then Some (PDict [], r2)
        else
          match scan_members f (skip_ws r) with
          | Some (pairs, rest) =>
              Some (PDict (fold_left (fun d kv => Dict.set (fst kv) (snd kv) d) pairs []),
                    rest)
          | None => None
          end
    | [] => None
    end
  else if c =? 91 then
    match skip_ws r with
    | c1 :: r2 =>
        if c1 =? 93 then Some (PList [], r2)
        else
          match scan_elements f (skip_ws r) with
          | Some (l, rest) => Some (PList l, rest)
          | None => None
          end
    | [] => None
    end
  else if Str.startswith (c :: r) (py "null") then literal (py "null") PNone (c :: r)
  else if Str.startswith (c :: r) (py "true") then literal (py "true") (PBool true) (c :: r)
  else if Str.startswith (c :: r) (py "false") then literal (py "false") (PBool false) (c :: r)
  else scan_constant (c :: r).
Proof. reflexivity. Qed.

Lemma scan_elements_eq f s :
  scan_elements (S f) s =
  match scan_once f s with
  | Some (v, rest) =>
      match skip_ws rest with
      | c :: r =>
          if c =? 93 then Some ([v], r)
          else if c =? 44 then
            match scan_elements f (skip_ws r) with
            | Some (vs, rest') => Some (v :: vs, rest')
            | None => None
            end
          else None
      | [] => None
      end
  | None => None
  end.
Proof. reflexivity. Qed.

Lemma scan_members_eq f s :
  scan_members (S f) s =
  match s with
  | q :: s1 =>
      if q =? 34 then
        match scanstring s1 with
        | Some (key, s2) =>
            match skip_ws s2 with
            | colon :: s3 =>
                if colon =? 58 then
                  match scan_once f (skip_ws s3) with
                  | Some (v, rest) =>
                      match skip_ws rest with
                      | c :: r =>
                          if c =? 125 then Some ([(key, v)], r)
                          else if c =? 44 then
                            match scan_members f (skip_ws r) with
                            | Some (kvs, rest') => Some ((key, v) :: kvs, rest')
                            | None => None
                            end
                          else None
                      | [] => None
                      end
                  | None => None
                  end
                else None
            | [] => None
            end
        | None => None
        end
      else None
  | [] => None
  end.
Proof. reflexivity. Qed.

Lemma fuel_enough f :
  enough scan_once f /\ enough scan_elements f /\ enough scan_members f.
Proof.
  induction f as [|f (IHo & IHe & IHm)].
  - split; [|split]; intros s a rest H; discriminate H.
  - split; [|split].
    + intros s v rest H. destruct s as [|c r]; [discriminate|].
      rewrite scan_once_step in H. cbn [length].
      assert (forall g, (S (length r) - length rest <= g)%nat ->
                (length rest < S (length r))%nat -> exists g', g = S g') as Hg.
      { intros g Hle Hlt. destruct g; [lia|eauto]. }
      destruct (c =? 34) eqn:E34.
      { destruct (scanstring r) as [[t rest']|] eqn:Hs; [|discriminate].
        injection H as <- <-. apply scanstring_shorter in Hs as Hlen.
        split; [lia|]. intros g Hle. destruct (Hg g Hle) as [g' ->]; [lia|].
        rewrite scan_once_step, E34, Hs. reflexivity. }
      destruct (c =? 123) eqn:E123.
      { pose proof (skip_ws_length r) as Hws.
        destruct (skip_ws r) as [|c1 r2] eqn:Hr1; [discriminate|]. cbn [length] in Hws.
        destruct (c1 =? 125) eqn:E125.
        - injection H as <- <-. split; [lia|].
          intros g Hle. destruct (Hg g Hle) as [g' ->]; [lia|].
          rewrite scan_once_step, E34, E123, Hr1, E125. reflexivity.
        - destruct (scan_members f (c1 :: r2)) as [[pairs rest']|] eqn:Hm; [|discriminate].
          injection H as <- <-. destruct (IHm _ _ _ Hm) as [Hlen Hmore].
          cbn [length] in Hlen, Hmore. split; [lia|].
          intros g Hle. destruct (Hg g Hle) as [g' ->]; [lia|].
          rewrite scan_once_step, E34, E123, Hr1, E125. rewrite Hmore by lia.
          reflexivity. }
      destruct (c =? 91) eqn:E91.
      { pose proof (skip_ws_length r) as Hws.
        destruct (skip_ws r) as [|c1 r2] eqn:Hr1; [discriminate|]. cbn [length] in Hws.
        destruct (c1 =? 93) eqn:E93.
        - injection H as <- <-. split; [lia|].
          intros g Hle. destruct (Hg g Hle) as [g' ->]; [lia|].
          rewrite scan_once_step, E34, E123, E91, Hr1, E93. reflexivity.
        - destruct (scan_elements f (c1 :: r2)) as [[l rest']|] eqn:Hm; [|discriminate].
          injection H as <- <-. destruct (IHe _ _ _ Hm) as [Hlen Hmore].
          cbn [length] in Hlen, Hmore. split; [lia|].
          intros g Hle. destruct (Hg g Hle) as [g' ->]; [lia|].
          rewrite scan_once_step, E34, E123, E91, Hr1, E93. rewrite Hmore by lia.
          reflexivity. }
      assert ((length rest < S (length r))%nat) as Hlen.
      { change (S (length r)) with (length (c :: r)).
        destruct (Str.startswith (c :: r) (py "null"));
          [eapply literal_shorter, H; discriminate|].
        destruct (Str.startswith (c :: r) (py "true"));
          [eapply literal_shorter, H; discriminate|].
        destruct (Str.startswith (c :: r) (py "false"));
          [eapply literal_shorter, H; discriminate|].
        eapply scan_constant_shorter, H. }
      split; [exact Hlen|].
      intros g Hle. destruct (Hg g Hle Hlen) as [g' ->].
      rewrite scan_once_step, E34, E123, E91. exact H.
    + intros s l rest H. rewrite scan_elements_eq in H.
      destruct (scan_once f s) as [[v rest1]|] eqn:Hv; [|discriminate].
      destruct (IHo _ _ _ Hv) as [Hlen1 Hmore1].
      pose proof (skip_ws_length rest1) as Hws.
      destruct (skip_ws rest1) as [|c r] eqn:Hr; [discriminate|]. cbn [length] in Hws.
      destruct (c =? 93) eqn:E93.
      * injection H as <- <-. split; [lia|].
        intros g Hle. destruct g as [|g']; [lia|].
        rewrite scan_elements_eq, Hmore1 by lia. rewrite Hr, E93. reflexivity.
      * destruct (c =? 44) eqn:E44; [|discriminate].
        pose proof (skip_ws_length r) as Hws2.
        destruct (scan_elements f (skip_ws r)) as [[vs rest']|] eqn:Hvs; [|discriminate].
        injection H as <- <-. destruct (IHe _ _ _ Hvs) as [Hlen2 Hmore2].
        split; [lia|].
        intros g Hle. destruct g as [|g']; [lia|].
        rewrite scan_elements_eq, Hmore1 by lia. rewrite Hr, E93, E44.
        rewrite Hmore2 by lia. reflexivity.
    + intros s l rest H. rewrite scan_members_eq in H.
      destruct s as [|q s1]; [discriminate|]. cbn [length].
      destruct (q =? 34) eqn:E34; [|discriminate].
      destruct (scanstring s1) as [[key s2]|] eqn:Hk; [|discriminate].
      apply scanstring_shorter in Hk as Hlenk.
      pose proof (skip_ws_length s2) as Hws2.
      destruct (skip_ws s2) as [|colon s3] eqn:Hs2; [discriminate|]. cbn [length] in Hws2.
      destruct (colon =? 58) eqn:E58; [|discriminate].
      pose proof (skip_ws_length s3) as Hws3.
      destruct (scan_once f (skip_ws s3)) as [[v rest1]|] eqn:Hv; [|discriminate].
      destruct (IHo _ _ _ Hv) as [Hlen1 Hmore1].
      pose proof (skip_ws_length rest1) as Hws.
      destruct (skip_ws rest1) as [|c r] eqn:Hr; [discriminate|]. cbn [length] in Hws.
      destruct (c =? 125) eqn:E125.
      * injection H as <- <-. split; [lia|].
        intros g Hle. destruct g as [|g']; [lia|].
        rewrite scan_members_eq, E34, Hk, Hs2, E58. rewrite Hmore1 by lia.
        rewrite Hr, E125. reflexivity.
      * destruct (c =? 44) eqn:E44; [|discriminate].
        pose proof (skip_ws_length r) as Hwsr.
        destruct (scan_members f (skip_ws r)) as [[kvs rest']|] eqn:Hkvs; [|discriminate].
        injection H as <- <-. destruct (IHm _ _ _ Hkvs) as [Hlen2 Hmore2].
        split; [lia|].
        intros g Hle. destruct g as [|g']; [lia|].
        rewrite scan_members_eq, E34, Hk, Hs2, E58. rewrite Hmore1 by lia.
        rewrite Hr, E125, E44. rewrite Hmore2 by lia. reflexivity.
Qed.

(** [loads] finds every value that some bound of the recursion finds:
    [None] is a text that is not JSON, never a bound that was too small. *)
Theorem loads_complete s v :
  loads s = Some v <->
  exists f rest, scan_once f (skip_ws s) = Some (v, rest) /\ skip_ws rest = [].
Proof.
  unfold loads. split.
  - destruct (scan_once (S (length s)) (skip_ws s)) as [[v' rest]|] eqn:H; [|discriminate].
    destruct (skip_ws rest) eqn:Hr; [|discriminate]. intros [= <-]. eauto.
  - intros (f & rest & H & Hr). destruct (fuel_enough f) as [Ho _].
    destruct (Ho _ _ _ H) as [_ Hmore]. rewrite Hmore.
    + rewrite Hr. reflexivity.
    + pose proof (skip_ws_length s). lia.
Qed.
End JsonFuel.

(** * Records *)

Module RecordFacts.
Import Json JsonRound.

Lemma is_urls_plain v : is_urls v = true -> plain v = true.
Proof.
  destruct v as [ | | | | | urls]; try discriminate. cbn [is_urls plain].
  intros H. apply andb_true_iff in H. destruct H as [Hu Hf].
  apply andb_true_iff. split; [exact Hu|].
  rewrite forallb_forall in *. intros kv Hkv. specialize (Hf kv Hkv).
  apply andb_true_iff in Hf. destruct Hf as [Hk Hv].
  apply andb_true_iff. split; [exact Hk|].
  destruct (snd kv); try discriminate. exact Hv.
Qed.

Lemma is_record_plain v : is_record v = true -> plain v = true.
Proof.
  destruct v as [ | | | | | d]; try discriminate. cbn [is_record plain].
  intros H. apply andb_true_iff in H. destruct H as [Hu Hf].
  apply andb_true_iff. split; [exact Hu|].
  rewrite forallb_forall in *. intros kv Hkv. specialize (Hf kv Hkv).
  apply andb_true_iff in Hf. destruct Hf as [Hk Hv].
  apply andb_true_iff. split; [exact Hk|]. apply is_urls_plain, Hv.
Qed.

Lemma map_ext_forallb {A B} (f g : A -> B) (p : A -> bool) l :
  forallb p l = true -> (forall x, p x = true -> f x = g x) ->
  List.map f l = List.map g l.
Proof.
  intros H E. apply map_ext_in. intros x Hx. apply E.
  rewrite forallb_forall in H. apply H, Hx.
Qed.

(** Indenting after each separator, or indenting each line. *)
Lemma join_indented (ind : str) xs :
  xs <> [] ->
  ind ++ Str.join (44 :: 10 :: ind) xs = Str.join [44; 10] (List.map (app ind) xs).
Proof.
  induction xs as [|x xs IH]; [congruence|]. intros _.
  destruct xs as [|y xs]; [reflexivity|].
  change (Str.join (44 :: 10 :: ind) (x :: y :: xs))
    with (x ++ (44 :: 10 :: ind) ++ Str.join (44 :: 10 :: ind) (y :: xs)).
  change (Str.join [44; 10] (List.map (app ind) (x :: y :: xs)))
    with ((ind ++ x) ++ [44; 10] ++ Str.join [44; 10] (List.map (app ind) (y :: xs))).
  rewrite <- IH by congruence. rewrite <- !app_assoc. reflexivity.
Qed.

Lemma url_line_member kv :
  text_ok (fst kv) && is_timestamp_value (snd kv) = true ->
  py "        " ++ member 2 kv = Layout.url_line kv.
Proof.
  intros H. apply andb_true_iff in H. destruct H as [_ H].
  destruct kv as [k [ | | | t | | ]]; try discriminate H. reflexivity.
Qed.

Lemma urls_block_encode v :
  is_urls v = true -> encode 1 v = Layout.urls_block v.
Proof.
  destruct v as [ | | | | | [|a urls]]; try discriminate; [reflexivity|].
  intros H. cbn [is_urls] in H. apply andb_true_iff in H. destruct H as [_ H].
  rewrite encode_dict_cons. unfold Layout.urls_block.
  rewrite <- (map_ext_forallb _ _ _ _ H url_line_member).
  rewrite <- (List.map_map (member 2) (app (py "        "))).
  rewrite <- join_indented by discriminate. reflexivity.
Qed.

Lemma product_line_member kv :
  text_ok (fst kv) && is_urls (snd kv) = true ->
  py "    " ++ member 1 kv = Layout.product_line kv.
Proof.
  intros H. apply andb_true_iff in H. destruct H as [_ H].
  unfold member, Layout.product_line. rewrite urls_block_encode by assumption.
  reflexivity.
Qed.

(** The text written for a record is the layout of the specification. *)
Lemma dumps_layout r : is_record r = true -> dumps r = Layout.record r.
Proof.
  destruct r as [ | | | | | [|a d]]; try discriminate; [reflexivity|].
  intros H. cbn [is_record] in H. apply andb_true_iff in H. destruct H as [_ H].
  unfold dumps. rewrite encode_dict_cons. unfold Layout.record.
  rewrite <- (map_ext_forallb _ _ _ _ H product_line_member).
  rewrite <- (List.map_map (member 1) (app (py "    "))).
  rewrite <- join_indented by discriminate. reflexivity.
Qed.

End RecordFacts.

(** * What is saved is ASCII

    [save_data] writes in text mode and [load_existing_data] reads in text
    mode.  The file system keeps such a file as its text: with
    [ensure_ascii] the text is ASCII, which the codec of the host writes
    and reads back as it is. *)

Module SevenBit.
Import Json JsonRound.

Lemma is_ascii_app a b : is_ascii (a ++ b) = is_ascii a && is_ascii b.
Proof. apply forallb_app. Qed.

Lemma hex_digit_ascii n : n < 16 -> (hex_digit n <? 128) = true.
Proof. intros H. unfold hex_digit. apply N.ltb_lt. destruct (n <? 10); lia. Qed.

Lemma u_escape_ascii n : is_ascii (u_escape n) = true.
Proof.
  unfold u_escape, hex4, is_ascii. cbn [app forallb].
  rewrite !hex_digit_ascii by (apply N.mod_lt; lia). reflexivity.
Qed.

Lemma escape_char_ascii c : is_ascii (escape_char c) = true.
Proof.
  unfold escape_char.
  repeat match goal with
         | |- context [if ?a =? ?b then _ else _] => destruct (a =? b); [reflexivity|]
         end.
  destruct ((32 <=? c) && (c <=? 126)) eqn:Hp.
  - apply andb_true_iff in Hp. destruct Hp as [_ Hp]. apply N.leb_le in Hp.
    unfold is_ascii. cbn [forallb]. rewrite andb_true_r. apply N.ltb_lt. lia.
  - destruct (c <? 65536); [apply u_escape_ascii|].
    rewrite is_ascii_app, !u_escape_ascii. reflexivity.
Qed.

Lemma encode_basestring_ascii_is_ascii s : is_ascii (encode_basestring_ascii s) = true.
Proof.
  assert (is_ascii (flat_map escape_char s) = true) as H.
  { induction s as [|c s IH]; [reflexivity|]. cbn [flat_map].
    rewrite is_ascii_app, escape_char_ascii, IH. reflexivity. }
  unfold encode_basestring_ascii. rewrite !is_ascii_app, H. reflexivity.
Qed.

Lemma newline_indent_ascii level : is_ascii (newline_indent level) = true.
Proof.
  unfold newline_indent. change (is_ascii (10 :: ?x)) with (is_ascii x).
  induction level as [|n IH]; [reflexivity|]. cbn [repeat concat].
  rewrite is_ascii_app, IH. reflexivity.
Qed.

Lemma join_ascii sep parts :
  is_ascii sep = true -> forallb is_ascii parts = true -> is_ascii (Str.join sep parts) = true.
Proof.
  intros Hsep. induction parts as [|p parts IH]; intros H; [reflexivity|].
  cbn [forallb] in H. apply andb_true_iff in H. destruct H as [Hp H].
  destruct parts as [|q parts]; [exact Hp|].
  change (Str.join sep (p :: q :: parts)) with (p ++ sep ++ Str.join sep (q :: parts)).
  rewrite !is_ascii_app, Hp, Hsep, IH by assumption. reflexivity.
Qed.

Lemma encode_ascii v : plain v = true -> forall level, is_ascii (encode level v) = true.
Proof.
  induction v as [ | b | lit | s | l IH | d IH] using pyval_nested_ind; intros Hp level.
  - reflexivity.
  - destruct b; reflexivity.
  - discriminate Hp.
  - apply encode_basestring_ascii_is_ascii.
  - destruct l as [|a l]; [reflexivity|]. rewrite encode_list_cons.
    change (is_ascii (91 :: ?x)) with (is_ascii x).
    rewrite !is_ascii_app, !newline_indent_ascii. cbn [andb].
    rewrite andb_true_r. apply join_ascii.
    + unfold item_separator. apply newline_indent_ascii.
    + cbn [plain] in Hp. rewrite forallb_forall in *. intros x Hx.
      apply in_map_iff in Hx. destruct Hx as (y & <- & Hy).
      rewrite List.Forall_forall in IH. apply IH; [exact Hy|apply Hp, Hy].
  - destruct d as [|a d]; [reflexivity|]. rewrite encode_dict_cons.
    change (is_ascii (123 :: ?x)) with (is_ascii x).
    rewrite !is_ascii_app, !newline_indent_ascii. cbn [andb].
    rewrite andb_true_r. apply join_ascii.
    + unfold item_separator. apply newline_indent_ascii.
    + cbn [plain] in Hp. apply andb_true_iff in Hp. destruct Hp as [_ Hp].
      rewrite forallb_forall in *. intros x Hx.
      apply in_map_iff in Hx. destruct Hx as (y & <- & Hy).
      unfold member. rewrite !is_ascii_app, encode_basestring_ascii_is_ascii.
      rewrite List.Forall_forall in IH. rewrite IH; [reflexivity|exact Hy|].
      specialize (Hp y Hy). apply andb_true_iff in Hp. apply Hp.
Qed.

(** The text of a saved value is ASCII. *)
Theorem dumps_ascii v : plain v = true -> is_ascii (dumps v) = true.
Proof. intros H. apply encode_ascii, H. Qed.

(** The UTF-8 codec reads ASCII octets as the same code points. *)
Theorem utf8_decode_ascii b : is_ascii b = true -> utf8_decode b = Some b.
Proof.
  induction b as [|c b IH]; intros H; [reflexivity|].
  cbn [is_ascii forallb] in H. apply andb_true_iff in H. destruct H as [Hc H].
  cbn [utf8_decode]. rewrite Hc, (IH H). reflexivity.
Qed.

End SevenBit.

(** * Timestamps *)

Module IsoFacts.
Import Iso.





Lemma isoformat_chars t :
  isoformat t =
  pad 4 (year t) ++ 45 :: pad 2 (month t) ++ 45 :: pad 2 (day t) ++ 84 ::
  pad 2 (hour t) ++ 58 :: pad 2 (minute t) ++ 58 :: pad 2 (second t) ++
  (if microsecond t =? 0 then [] else 46 :: pad 6 (microsecond t)).
Proof. reflexivity. Qed.


End IsoFacts.

(** * What [loads] returns is well formed

    A text decoded by a codec holds scalar values only.  The strings that
    [loads] finds in it are well-formed text: two escaped surrogates that
    would stand next to each other are read as one character.  So a record
    that was loaded is a record that is saved and loaded back as it is. *)

Module Loaded.
Import Json JsonFacts JsonFuel.

Lemma hex_value_bound c x : hex_value c = Some x -> x < 16.
Proof.
  unfold hex_value.
  destruct ((48 <=? c) && (c <=? 57)) eqn:H1.
  { apply andb_true_iff in H1. destruct H1 as [H1 H2]. apply N.leb_le in H1, H2.
    intros [= <-]. lia. }
  destruct ((97 <=? c) && (c <=? 102)) eqn:H2.
  { apply andb_true_iff in H2. destruct H2 as [H2 H3]. apply N.leb_le in H2, H3.
    intros [= <-]. lia. }
  destruct ((65 <=? c) && (c <=? 70)) eqn:H3; [|discriminate].
  apply andb_true_iff in H3. destruct H3 as [H3 H4]. apply N.leb_le in H3, H4.
  intros [= <-]. lia.
Qed.

Lemma decode_hex4_bound a b c d x : decode_hex4 a b c d = Some x -> x < 65536.
Proof.
  unfold decode_hex4.
  destruct (hex_value a) as [xa|] eqn:Ha; [|discriminate].
  destruct (hex_value b) as [xb|] eqn:Hb; [|discriminate].
  destruct (hex_value c) as [xc|] eqn:Hc; [|discriminate].
  destruct (hex_value d) as [xd|] eqn:Hd; [|discriminate].
  apply hex_value_bound in Ha, Hb, Hc, Hd. intros [= <-]. lia.
Qed.

Lemma join_surrogates_bound hi lo :
  is_high_surrogate hi = true -> is_low_surrogate lo = true ->
  65536 <= join_surrogates hi lo /\ join_surrogates hi lo < 1114112.
Proof.
  unfold is_high_surrogate, is_low_surrogate. rewrite !andb_true_iff, !N.leb_le.
  intros [H1 H2] [H3 H4]. unfold join_surrogates.
  rewrite lor_shift_add by lia. split; lia.
Qed.

Lemma unescape_ascii e ch : unescape e = Some ch -> ch < 128.
Proof.
  unfold unescape.
  repeat match goal with
         | |- context [if ?a =? ?b then _ else _] =>
             destruct (a =? b); [intros [= <-]; lia|]
         end.
  discriminate.
Qed.

Lemma scalars_cons c s : scalars (c :: s) = true -> scalar c = true /\ scalars s = true.
Proof. unfold scalars. cbn [forallb]. apply andb_true_iff. Qed.

Lemma scalar_not_surrogate c :
  scalar c = true ->
  code_point c = true /\ is_high_surrogate c = false /\ is_low_surrogate c = false.
Proof.
  unfold scalar, code_point, is_high_surrogate, is_low_surrogate.
  rewrite andb_true_iff, negb_true_iff, andb_false_iff, !N.leb_gt.
  intros [Hmax Hsur]. split; [exact Hmax|].
  split; apply andb_false_iff; destruct Hsur; (left; apply N.leb_gt; lia) || (right; apply N.leb_gt; lia).
Qed.

Lemma text_ok_push c t :
  code_point c = true -> (is_high_surrogate c && starts_low t) = false ->
  text_ok t = true -> text_ok (c :: t) = true.
Proof.
  intros Hc Hpair Ht. cbn [text_ok]. rewrite Hc, Ht.
  unfold splits_pair. unfold starts_low in Hpair. rewrite Hpair. reflexivity.
Qed.

Lemma high_is_not_low c : is_high_surrogate c = true -> is_low_surrogate c = false.
Proof.
  unfold is_high_surrogate, is_low_surrogate. rewrite andb_true_iff, !N.leb_le.
  intros [_ H]. apply andb_false_iff. left. apply N.leb_gt. lia.
Qed.

Lemma bmp_code_point c : c < 65536 -> code_point c = true.
Proof. intros H. unfold code_point. apply N.ltb_lt. lia. Qed.

Lemma scanstring_scanned_upto n :
  forall s t rest, (length s <= n)%nat -> scalars s = true ->
    scanstring s = Some (t, rest) -> scanned s t rest.
Proof.
  induction n as [|n IH]; intros s t rest Hn Hs H.
  - destruct s; [discriminate|cbn in Hn; lia].
  - destruct s as [|c r]; [discriminate|]. cbn [length] in Hn.
    apply scalars_cons in Hs as [Hc Hr]. cbn [scanstring] in H.
    destruct (c =? 34) eqn:E34.
    { injection H as <- <-. repeat split; [exact Hr|discriminate]. }
    destruct (c =? 92) eqn:E92.
    + destruct r as [|e r1]; [discriminate|]. cbn [length] in Hn.
      apply scalars_cons in Hr as [_ Hr1].
      destruct (e =? 117) eqn:E117.
      * destruct r1 as [|a [|b [|c1 [|d r2]]]]; try discriminate. cbn [length] in Hn.
        apply scalars_cons in Hr1 as [_ Hr1]. apply scalars_cons in Hr1 as [_ Hr1].
        apply scalars_cons in Hr1 as [_ Hr1]. apply scalars_cons in Hr1 as [_ Hr2].
        destruct (decode_hex4 a b c1 d) as [uni|] eqn:Hd; [|discriminate].
        apply N.eqb_eq in E92, E117. subst c e.
        pose proof (bmp_code_point uni (decode_hex4_bound _ _ _ _ _ Hd)) as Hcp.
        assert (is_high_surrogate uni = true -> no_low_escape r2 = true ->
                push uni (scanstring r2) = Some (t, rest) ->
                scanned (92 :: 117 :: a :: b :: c1 :: d :: r2) t rest) as Lone.
        { intros Hhigh Hnle Hp. apply push_some in Hp. destruct Hp as (t' & Hp & ->).
          destruct (IH r2 t' rest ltac:(lia) Hr2 Hp) as (Ht' & Hrest & Hlow).
          assert (starts_low t' = false) as Hsl.
          { destruct (starts_low t'); [|reflexivity]. rewrite Hlow in Hnle by reflexivity.
            discriminate. }
          repeat split; [|exact Hrest|].
          - apply text_ok_push; [exact Hcp| |exact Ht']. rewrite Hsl. apply andb_false_r.
          - cbn [starts_low]. rewrite (high_is_not_low uni Hhigh). discriminate. }
        destruct (is_high_surrogate uni) eqn:Hhigh.
        -- destruct r2 as [|bs [|u [|a2 [|b2 [|c2 [|d2 r3]]]]]];
             try (apply Lone; [reflexivity|reflexivity|exact H]).
           destruct ((bs =? 92) && (u =? 117)) eqn:Hbu;
             [|apply Lone; [reflexivity| |exact H]; unfold no_low_escape; rewrite Hbu;
               reflexivity].
           destruct (decode_hex4 a2 b2 c2 d2) as [uni2|] eqn:Hd2; [|discriminate].
           destruct (is_low_surrogate uni2) eqn:Hlow2;
             [|apply Lone; [reflexivity| |exact H]; unfold no_low_escape;
               rewrite Hbu, Hd2, Hlow2; reflexivity].
           apply push_some in H. destruct H as (t' & Hp & ->).
           cbn [length] in Hn.
           do 6 (apply scalars_cons in Hr2 as [_ Hr2]).
           destruct (IH r3 t' rest ltac:(lia) Hr2 Hp) as (Ht' & Hrest & _).
           destruct (join_surrogates_bound uni uni2 Hhigh Hlow2) as [Hj1 Hj2].
           assert (is_high_surrogate (join_surrogates uni uni2) = false) as Hnh.
           { unfold is_high_surrogate. apply andb_false_iff. right. apply N.leb_gt. lia. }
           assert (is_low_surrogate (join_surrogates uni uni2) = false) as Hnl.
           { unfold is_low_surrogate. apply andb_false_iff. right. apply N.leb_gt. lia. }
           repeat split; [|exact Hrest|].
           ++ apply text_ok_push; [apply N.ltb_lt; lia|rewrite Hnh; reflexivity|exact Ht'].
           ++ cbn [starts_low]. rewrite Hnl. discriminate.
        -- apply push_some in H. destruct H as (t' & Hp & ->).
           destruct (IH r2 t' rest ltac:(lia) Hr2 Hp) as (Ht' & Hrest & _).
           repeat split; [|exact Hrest|].
           ++ apply text_ok_push; [exact Hcp|rewrite Hhigh; reflexivity|exact Ht'].
           ++ cbn [starts_low]. intros Hlow. unfold no_low_escape.
              change (92 =? 92) with true. change (117 =? 117) with true. cbn [andb].
              rewrite Hd, Hlow. reflexivity.
      * destruct (unescape e) as [ch|] eqn:Hu; [|discriminate].
        apply push_some in H. destruct H as (t' & Hp & ->).
        destruct (IH r1 t' rest ltac:(lia) Hr1 Hp) as (Ht' & Hrest & _).
        apply unescape_ascii in Hu.
        assert (is_high_surrogate ch = false) as Hnh
          by (unfold is_high_surrogate; apply andb_false_iff; left; apply N.leb_gt; lia).
        assert (is_low_surrogate ch = false) as Hnl
          by (unfold is_low_surrogate; apply andb_false_iff; left; apply N.leb_gt; lia).
        repeat split; [|exact Hrest|].
        -- apply text_ok_push; [apply N.ltb_lt; lia|rewrite Hnh; reflexivity|exact Ht'].
        -- cbn [starts_low]. rewrite Hnl. discriminate.
    + destruct (c <? 32); [discriminate|].
      apply push_some in H. destruct H as (t' & Hp & ->).
      destruct (IH r t' rest ltac:(lia) Hr Hp) as (Ht' & Hrest & _).
      destruct (scalar_not_surrogate c Hc) as (Hcp & Hnh & Hnl).
      repeat split; [|exact Hrest|].
      * apply text_ok_push; [exact Hcp|rewrite Hnh; reflexivity|exact Ht'].
      * cbn [starts_low]. rewrite Hnl. discriminate.
Qed.

(** A string found in decoded text is well-formed text. *)
Lemma scanstring_text_ok s t rest :
  scalars s = true -> scanstring s = Some (t, rest) ->
  text_ok t = true /\ scalars rest = true.
Proof.
  intros Hs H. destruct (scanstring_scanned_upto (length s) s t rest) as (Ht & Hr & _);
    auto.
Qed.

(** ** What is left of the text is a part of the text *)

Lemma scalars_skipn n s : scalars s = true -> scalars (skipn n s) = true.
Proof.
  revert s. induction n as [|n IH]; intros s H; [exact H|].
  destruct s as [|c s]; [reflexivity|]. apply scalars_cons in H as [_ H]. apply IH, H.
Qed.

Lemma scalars_skip_ws s : scalars s = true -> scalars (skip_ws s) = true.
Proof.
  induction s as [|c s IH]; intros H; [reflexivity|]. cbn [skip_ws].
  destruct (is_ws c); [|exact H]. apply scalars_cons in H as [_ H]. apply IH, H.
Qed.

Lemma take_digits_scalars s ds rest :
  take_digits s = (ds, rest) -> scalars s = true -> scalars rest = true.
Proof.
  revert ds rest. induction s as [|c s IH]; intros ds rest H Hs.
  - injection H as _ <-. reflexivity.
  - cbn [take_digits] in H. destruct (is_digit c).
    + destruct (take_digits s) as [ds' rest'] eqn:Hd. injection H as _ <-.
      apply scalars_cons in Hs as [_ Hs]. eapply IH; [reflexivity|exact Hs].
    + injection H as _ <-. exact Hs.
Qed.

Lemma scan_integer_scalars s lit rest :
  scan_integer s = Some (lit, rest) -> scalars s = true -> scalars rest = true.
Proof.
  unfold scan_integer. intros H Hs.
  assert (forall sign s1, scalars s1 = true ->
            match s1 with
            | c :: s2 =>
                if c =? 48 then Some (sign ++ [48], s2)
                else if is_digit c then
                       let '(ds, rest) := take_digits s2 in Some (sign ++ c :: ds, rest)
                     else None
            | [] => None
            end = Some (lit, rest) -> scalars rest = true) as K.
  { intros sign s1 Hs1 H1. destruct s1 as [|c s2]; [discriminate|].
    apply scalars_cons in Hs1 as [_ Hs2].
    destruct (c =? 48); [injection H1 as _ <-; exact Hs2|].
    destruct (is_digit c); [|discriminate].
    destruct (take_digits s2) as [ds r] eqn:Hd. injection H1 as _ <-.
    eapply take_digits_scalars; eassumption. }
  destruct s as [|c s']; [discriminate|].
  destruct (c =? 45).
  - apply scalars_cons in Hs as [_ Hs]. eapply K; [exact Hs|exact H].
  - eapply K; [exact Hs|exact H].
Qed.

Lemma scan_fraction_scalars s frac rest :
  scan_fraction s = (frac, rest) -> scalars s = true -> scalars rest = true.
Proof.
  unfold scan_fraction. destruct s as [|c s']; [intros [= _ <-]; auto|].
  destruct (c =? 46); [|intros [= _ <-]; auto].
  destruct (take_digits s') as [[|d ds] r] eqn:Hd; intros [= _ <-] Hs; [exact Hs|].
  apply scalars_cons in Hs as [_ Hs]. eapply take_digits_scalars; eassumption.
Qed.

Lemma scan_exponent_scalars s e rest :
  scan_exponent s = (e, rest) -> scalars s = true -> scalars rest = true.
Proof.
  unfold scan_exponent. destruct s as [|c s']; [intros [= _ <-]; auto|].
  destruct ((c =? 101) || (c =? 69)); [|intros [= _ <-]; auto].
  destruct s' as [|c2 s2].
  - cbn. intros [= _ <-]. auto.
  - destruct ((c2 =? 45) || (c2 =? 43)).
    + destruct (take_digits s2) as [[|d ds] r] eqn:Hd; intros [= _ <-] Hs; [exact Hs|].
      apply scalars_cons in Hs as [_ Hs]. apply scalars_cons in Hs as [_ Hs].
      eapply take_digits_scalars; eassumption.
    + destruct (take_digits (c2 :: s2)) as [[|d ds] r] eqn:Hd; intros [= _ <-] Hs;
        [exact Hs|].
      apply scalars_cons in Hs as [_ Hs]. eapply take_digits_scalars; eassumption.
Qed.

Lemma scan_constant_scalars s v rest :
  scan_constant s = Some (v, rest) -> scalars s = true ->
  well_formed v = true /\ scalars rest = true.
Proof.
  unfold scan_constant, scan_number, literal. intros H Hs.
  destruct (scan_integer s) as [[int s1]|] eqn:Hi.
  - destruct (scan_fraction s1) as [frac s2] eqn:Hf.
    destruct (scan_exponent s2) as [e s3] eqn:He. injection H as <- <-.
    split; [reflexivity|].
    eapply scan_exponent_scalars; [exact He|].
    eapply scan_fraction_scalars; [exact Hf|].
    eapply scan_integer_scalars; eassumption.
  - repeat match type of H with
           | context [if ?b then _ else _] => destruct b
           end;
      try discriminate; injection H as <- <-; (split; [reflexivity|apply scalars_skipn, Hs]).
Qed.

(** ** Dicts built from scanned members *)

Lemma built_dict (p : str * pyval -> bool) pairs :
  forallb p pairs = true ->
  forall acc, unique_keys acc = true -> forallb p acc = true ->
    unique_keys (fold_left (fun d kv => Dict.set (fst kv) (snd kv) d) pairs acc) = true /\
    forallb p (fold_left (fun d kv => Dict.set (fst kv) (snd kv) d) pairs acc) = true.
Proof.
  induction pairs as [|[k v] pairs IH]; intros H acc Hu Hp; [auto|].
  cbn [forallb] in H. apply andb_true_iff in H. destruct H as [Hkv H].
  cbn [fold_left fst snd]. apply IH; [exact H| |].
  - apply DictFacts.unique_keys_set, Hu.
  - apply DictFacts.forallb_set; assumption.
Qed.

(** ** Values *)

Lemma scan_well_formed f :
  (forall s v rest, scalars s = true -> scan_once f s = Some (v, rest) ->
     well_formed v = true /\ scalars rest = true) /\
  (forall s l rest, scalars s = true -> scan_elements f s = Some (l, rest) ->
     forallb well_formed l = true /\ scalars rest = true) /\
  (forall s l rest, scalars s = true -> scan_members f s = Some (l, rest) ->
     forallb (fun kv => text_ok (fst kv) && well_formed (snd kv)) l = true /\
     scalars rest = true).
Proof.
  induction f as [|f (IHo & IHe & IHm)].
  - split; [|split]; intros s a rest _ H; discriminate H.
  - split; [|split].
    + intros s v rest Hs H. destruct s as [|c r]; [discriminate|].
      rewrite scan_once_step in H. apply scalars_cons in Hs as Hcr. destruct Hcr as [_ Hr].
      destruct (c =? 34).
      { destruct (scanstring r) as [[t rest']|] eqn:Hstr; [|discriminate].
        injection H as <- <-. apply (scanstring_text_ok r t rest' Hr Hstr). }
      destruct (c =? 123).
      { pose proof (scalars_skip_ws r Hr) as Hr1.
        destruct (skip_ws r) as [|c1 r2] eqn:E; [discriminate|].
        destruct (c1 =? 125).
        - injection H as <- <-. split; [reflexivity|]. apply scalars_cons in Hr1. apply Hr1.
        - destruct (scan_members f (c1 :: r2)) as [[pairs rest']|] eqn:Hm; [|discriminate].
          injection H as <- <-. destruct (IHm _ _ _ Hr1 Hm) as [Hpairs Hrest].
          split; [|exact Hrest]. cbn [well_formed]. apply andb_true_iff.
          apply (built_dict _ pairs Hpairs []); reflexivity. }
      destruct (c =? 91).
      { pose proof (scalars_skip_ws r Hr) as Hr1.
        destruct (skip_ws r) as [|c1 r2] eqn:E; [discriminate|].
        destruct (c1 =? 93).
        - injection H as <- <-. split; [reflexivity|]. apply scalars_cons in Hr1. apply Hr1.
        - destruct (scan_elements f (c1 :: r2)) as [[l rest']|] eqn:Hm; [|discriminate].
          injection H as <- <-. destruct (IHe _ _ _ Hr1 Hm) as [Hl Hrest].
          split; [exact Hl|exact Hrest]. }
      unfold literal in H.
      destruct (Str.startswith (c :: r) (py "null"));
        [injection H as <- <-; split; [reflexivity|apply scalars_skipn; assumption]|].
      destruct (Str.startswith (c :: r) (py "true"));
        [injection H as <- <-; split; [reflexivity|apply scalars_skipn; assumption]|].
      destruct (Str.startswith (c :: r) (py "false"));
        [injection H as <- <-; split; [reflexivity|apply scalars_skipn; assumption]|].
      eapply scan_constant_scalars; eassumption.
    + intros s l rest Hs H. rewrite scan_elements_eq in H.
      destruct (scan_once f s) as [[v rest1]|] eqn:Hv; [|discriminate].
      destruct (IHo _ _ _ Hs Hv) as [Hwf Hrest1].
      pose proof (scalars_skip_ws rest1 Hrest1) as Hws.
      destruct (skip_ws rest1) as [|c r] eqn:E; [discriminate|].
      apply scalars_cons in Hws as [_ Hr].
      destruct (c =? 93).
      * injection H as <- <-. cbn [forallb]. rewrite Hwf. auto.
      * destruct (c =? 44); [|discriminate].
        destruct (scan_elements f (skip_ws r)) as [[vs rest']|] eqn:Hvs; [|discriminate].
        injection H as <- <-.
        destruct (IHe _ _ _ (scalars_skip_ws r Hr) Hvs) as [Hl Hrest].
        cbn [forallb]. rewrite Hwf, Hl. auto.
    + intros s l rest Hs H. rewrite scan_members_eq in H.
      destruct s as [|q s1]; [discriminate|]. apply scalars_cons in Hs as [_ Hs1].
      destruct (q =? 34); [|discriminate].
      destruct (scanstring s1) as [[key s2]|] eqn:Hk; [|discriminate].
      destruct (scanstring_text_ok s1 key s2 Hs1 Hk) as [Hkey Hs2].
      pose proof (scalars_skip_ws s2 Hs2) as Hws2.
      destruct (skip_ws s2) as [|colon s3] eqn:E2; [discriminate|].
      apply scalars_cons in Hws2 as [_ Hs3].
      destruct (colon =? 58); [|discriminate].
      destruct (scan_once f (skip_ws s3)) as [[v rest1]|] eqn:Hv; [|discriminate].
      destruct (IHo _ _ _ (scalars_skip_ws s3 Hs3) Hv) as [Hwf Hrest1].
      pose proof (scalars_skip_ws rest1 Hrest1) as Hws.
      destruct (skip_ws rest1) as [|c r] eqn:E; [discriminate|].
      apply scalars_cons in Hws as [_ Hr].
      destruct (c =? 125).
      * injection H as <- <-. cbn [forallb fst snd]. rewrite Hkey, Hwf. auto.
      * destruct (c =? 44); [|discriminate].
        destruct (scan_members f (skip_ws r)) as [[kvs rest']|] eqn:Hkvs; [|discriminate].
        injection H as <- <-.
        destruct (IHm _ _ _ (scalars_skip_ws r Hr) Hkvs) as [Hl Hrest].
        cbn [forallb fst snd]. rewrite Hkey, Hwf, Hl. auto.
Qed.

(** What [loads] finds in decoded text is well formed. *)
Theorem loads_well_formed s v :
  scalars s = true -> Json.loads s = Some v -> well_formed v = true.
Proof.
  intros Hs H. unfold loads in H.
  destruct (scan_once (S (length s)) (skip_ws s)) as [[v' rest]|] eqn:Hv; [|discriminate].
  destruct (skip_ws rest); [|discriminate]. injection H as <-.
  destruct (scan_well_formed (S (length s))) as [Ho _].
  apply (Ho _ _ _ (scalars_skip_ws s Hs) Hv).
Qed.

Lemma record_of_shape v :
  record_shape v = true -> well_formed v = true -> is_record v = true.
Proof.
  destruct v as [ | | | | | d]; try discriminate. cbn [record_shape well_formed is_record].
  intros Hshape Hwf. apply andb_true_iff in Hwf. destruct Hwf as [Hu Hwf].
  rewrite Hu. cbn [andb]. apply forallb_forall. intros [k v] Hin.
  rewrite forallb_forall in Hshape, Hwf. specialize (Hshape _ Hin). specialize (Hwf _ Hin).
  cbn [fst snd] in *. apply andb_true_iff in Hwf. destruct Hwf as [Hk Hv]. rewrite Hk.
  cbn [andb]. destruct v as [ | | | | | urls]; try discriminate Hshape.
  cbn [well_formed is_urls] in *. apply andb_true_iff in Hv. destruct Hv as [Hu2 Hv].
  rewrite Hu2. cbn [andb]. apply forallb_forall. intros [u t] Hin2.
  rewrite forallb_forall in Hshape, Hv. specialize (Hshape _ Hin2). specialize (Hv _ Hin2).
  cbn [fst snd] in *. apply andb_true_iff in Hv. destruct Hv as [Hut Ht]. rewrite Hut.
  cbn [andb]. destruct t; try discriminate Hshape. exact Ht.
Qed.

(** A state file in the shape of a record loads as a record. *)
Theorem loaded_record s v :
  scalars s = true -> Json.loads s = Some v -> record_shape v = true ->
  is_record v = true.
Proof.
  intros Hs Hv Hshape. apply record_of_shape; [exact Hshape|].
  eapply loads_well_formed; eassumption.
Qed.
End Loaded.

(** * The redirect resolver *)

Module Resolver.
Import DictFacts.

Section Steps.
Variable E : env.
Variables (os_name url : str) (st : state).

Lemma probe_no_header data :
  requests_head E url = HeadResponse None ->
  probe E data (os_name, url) st = (Return data, logged st (no_location_line os_name)).
Proof. intros H. unfold probe, try_except, bind. rewrite H. reflexivity. Qed.

Lemma probe_empty_header data :
  requests_head E url = HeadResponse (Some []) ->
  probe E data (os_name, url) st = (Return data, logged st (no_location_line os_name)).
Proof. intros H. unfold probe, try_except, bind. rewrite H. reflexivity. Qed.

Lemma probe_request_exception data e :
  requests_head E url = HeadRaises e -> isinstance e RequestException = true ->
  probe E data (os_name, url) st = (Return data, logged st (error_fetching_line os_name e)).
Proof.
  intros H He. unfold probe, try_except, bind. rewrite H. unfold raise.
  unfold isinstance_any. cbn [existsb]. rewrite He. reflexivity.
Qed.

Lemma probe_other_exception data e :
  requests_head E url = HeadRaises e -> isinstance e RequestException = false ->
  probe E data (os_name, url) st = (Raise e, st).
Proof.
  intros H He. unfold probe, try_except, bind. rewrite H. unfold raise.
  unfold isinstance_any. cbn [existsb]. rewrite He. reflexivity.
Qed.

Variables (c : N) (l : str).
Hypothesis Hhead : requests_head E url = HeadResponse (Some (c :: l)).

Lemma probe_known d urls :
  Dict.get os_name d = Some (PDict urls) -> Dict.mem (c :: l) urls = true ->
  probe E (PDict d) (os_name, url) st = (Return (PDict d), st).
Proof.
  intros Hd Hu. unfold probe, try_except, bind. rewrite Hhead.
  unfold lift, Py.contains, Dict.mem. rewrite Hd. cbn [negb ret].
  unfold Py.getitem. rewrite Hd. unfold Dict.mem in Hu.
  destruct (Dict.get (c :: l) urls); [reflexivity|discriminate].
Qed.

Lemma probe_new_url d urls :
  Dict.get os_name d = Some (PDict urls) -> Dict.mem (c :: l) urls = false ->
  probe E (PDict d) (os_name, url) st =
  (Return (PDict (Dict.set os_name (PDict (Dict.set (c :: l) (stamp E os_name) urls)) d)),
   logged st (added_line os_name (c :: l))).
Proof.
  intros Hd Hu. unfold probe, try_except, bind. rewrite Hhead.
  unfold lift, Py.contains, Dict.mem. rewrite Hd. cbn [negb ret].
  unfold Py.getitem. rewrite Hd. unfold Dict.mem in Hu.
  destruct (Dict.get (c :: l) urls); [discriminate|]. reflexivity.
Qed.

Lemma probe_new_product d :
  Dict.get os_name d = None ->
  probe E (PDict d) (os_name, url) st =
  (Return (PDict (Dict.set os_name (PDict [(c :: l, stamp E os_name)]) d)),
   logged st (added_line os_name (c :: l))).
Proof.
  intros Hd. unfold probe, try_except, bind. rewrite Hhead.
  unfold lift, Py.contains, Dict.mem. rewrite Hd. cbn [negb Py.setitem].
  unfold Py.getitem. rewrite get_set_same. cbn [Dict.get Dict.set Py.setitem].
  rewrite set_set. reflexivity.
Qed.


(** The step on a record, as one function of the record. *)
Lemma probe_record d :
  is_record (PDict d) = true ->
  probe E (PDict d) (os_name, url) st =
  (Return (PDict (record_with d os_name (c :: l) (stamp E os_name))),
   match entry (PDict d) os_name (c :: l) with
   | Some _ => st
   | None => logged st (added_line os_name (c :: l))
   end).
Proof.
  intros Hr. unfold record_with, entry.
  destruct (Dict.get os_name d) as [v|] eqn:Hd.
  - assert (is_urls v = true) as Hv.
    { cbn [is_record] in Hr. apply andb_true_iff in Hr. destruct Hr as [_ Hr].
      rewrite forallb_forall in Hr. apply get_in in Hd.
      specialize (Hr _ Hd). apply andb_true_iff in Hr. apply Hr. }
    destruct v as [ | | | | | urls]; try discriminate Hv.
    destruct (Dict.mem (c :: l) urls) eqn:Hm.
    + rewrite (probe_known d urls Hd Hm). unfold Dict.mem in Hm.
      destruct (Dict.get (c :: l) urls); [reflexivity|discriminate].
    + rewrite (probe_new_url d urls Hd Hm). unfold Dict.mem in Hm.
      destruct (Dict.get (c :: l) urls); [discriminate|reflexivity].
  - rewrite (probe_new_product d Hd). reflexivity.
Qed.

End Steps.

(** ** The record after an observation *)

Lemma record_value d os_name v :
  is_record (PDict d) = true -> Dict.get os_name d = Some v ->
  exists urls, v = PDict urls /\ is_urls (PDict urls) = true.
Proof.
  intros Hr Hd. cbn [is_record] in Hr. apply andb_true_iff in Hr. destruct Hr as [_ Hr].
  rewrite forallb_forall in Hr. apply get_in in Hd.
  specialize (Hr _ Hd). apply andb_true_iff in Hr. destruct Hr as [_ Hv]. cbn [snd] in Hv.
  destruct v as [ | | | | | urls]; try discriminate Hv. eauto.
Qed.

Lemma entry_record_with d os_name location s product u :
  is_record (PDict d) = true ->
  entry (PDict (record_with d os_name location s)) product u =
  match entry (PDict d) product u with
  | Some x => Some x
  | None => if Str.eqb product os_name && Str.eqb u location then Some s else None
  end.
Proof.
  intros Hr. unfold record_with, entry.
  destruct (Dict.get os_name d) as [v|] eqn:Hd.
  - destruct (record_value d os_name v Hr Hd) as (urls & -> & Hurls).
    destruct (Str.eqb product os_name) eqn:Hp.
    + apply str_eqb_eq in Hp. subst product. rewrite Hd.
      destruct (Dict.mem location urls) eqn:Hm.
      * rewrite Hd. destruct (Dict.get u urls) eqn:Hu; [reflexivity|].
        cbn [andb]. destruct (Str.eqb u location) eqn:Hul; [|reflexivity].
        apply str_eqb_eq in Hul. subst u. unfold Dict.mem in Hm. rewrite Hu in Hm.
        discriminate.
      * rewrite get_set_same. cbn [andb].
        destruct (Str.eqb u location) eqn:Hul.
        -- apply str_eqb_eq in Hul. subst u. rewrite get_set_same.
           apply get_mem in Hm. rewrite Hm. reflexivity.
        -- apply str_eqb_neq in Hul. rewrite get_set_other by assumption.
           destruct (Dict.get u urls); reflexivity.
    + cbn [andb]. apply str_eqb_neq in Hp.
      destruct (Dict.mem location urls).
      * destruct (Dict.get product d) as [[ | | | | | ?]|]; try reflexivity.
        destruct (Dict.get u _); reflexivity.
      * rewrite get_set_other by assumption.
        destruct (Dict.get product d) as [[ | | | | | ?]|]; try reflexivity.
        destruct (Dict.get u _); reflexivity.
  - destruct (Str.eqb product os_name) eqn:Hp.
    + apply str_eqb_eq in Hp. subst product. rewrite get_set_same, Hd. cbn [andb Dict.get].
      destruct (Str.eqb u location); reflexivity.
    + cbn [andb]. apply str_eqb_neq in Hp. rewrite get_set_other by assumption.
      destruct (Dict.get product d) as [[ | | | | | ?]|]; try reflexivity.
      destruct (Dict.get u _); reflexivity.
Qed.

Lemma is_record_record_with d os_name location s :
  is_record (PDict d) = true -> text_ok os_name = true -> text_ok location = true ->
  is_timestamp_value s = true ->
  is_record (PDict (record_with d os_name location s)) = true.
Proof.
  intros Hr Hos Hloc Hs. unfold record_with.
  destruct (Dict.get os_name d) as [v|] eqn:Hd.
  - destruct (record_value d os_name v Hr Hd) as (urls & -> & Hurls).
    destruct (Dict.mem location urls); [exact Hr|].
    cbn [is_record] in *. apply andb_true_iff in Hr. destruct Hr as [Hu Hf].
    apply andb_true_iff. split; [apply unique_keys_set, Hu|].
    apply forallb_set; [exact Hf|]. cbn [fst snd]. rewrite Hos. cbn [andb is_urls] in *.
    apply andb_true_iff in Hurls. destruct Hurls as [Hu2 Hf2].
    apply andb_true_iff. split; [apply unique_keys_set, Hu2|].
    apply forallb_set; [exact Hf2|]. cbn [fst snd]. rewrite Hloc, Hs. reflexivity.
  - cbn [is_record] in *. apply andb_true_iff in Hr. destruct Hr as [Hu Hf].
    apply andb_true_iff. split; [apply unique_keys_set, Hu|].
    apply forallb_set; [exact Hf|]. cbn [fst snd is_urls unique_keys forallb Dict.mem Dict.get].
    rewrite Hos, Hloc, Hs. reflexivity.
Qed.

(** ** The loop *)

Lemma scalars_text_ok s : scalars s = true -> text_ok s = true.
Proof.
  induction s as [|c s IH]; [reflexivity|]. unfold scalars. cbn [forallb text_ok].
  intros H. apply andb_true_iff in H. destruct H as [Hc Hs].
  rewrite (IH Hs), andb_true_r. unfold scalar in Hc.
  apply andb_true_iff in Hc. destruct Hc as [Hmax Hsur].
  unfold code_point. rewrite Hmax. cbn [andb]. apply negb_true_iff.
  unfold splits_pair, Json.is_high_surrogate.
  apply negb_true_iff, andb_false_iff in Hsur.
  destruct Hsur as [H|H]; rewrite N.leb_gt in H.
  - rewrite (proj2 (N.leb_gt 55296 c)) by exact H. reflexivity.
  - rewrite (proj2 (N.leb_gt c 56319)) by lia. rewrite andb_false_r. reflexivity.
Qed.

Lemma scalars_app a b : scalars (a ++ b) = scalars a && scalars b.
Proof. apply forallb_app. Qed.

Lemma scalars_pad w n : scalars (Iso.pad w n) = true.
Proof.
  revert n. induction w as [|w IH]; intros n; [reflexivity|].
  cbn [Iso.pad]. rewrite scalars_app, IH. cbn [andb scalars forallb].
  rewrite andb_true_r. unfold scalar.
  assert (n mod 10 < 10) as H by (apply N.mod_lt; lia).
  revert H. generalize (n mod 10). intros r H.
  apply andb_true_iff. split; [apply N.ltb_lt; lia|].
  apply negb_true_iff, andb_false_iff. left. apply N.leb_gt. lia.
Qed.

Lemma text_ok_isoformat t : text_ok (Iso.isoformat t) = true.
Proof.
  apply scalars_text_ok. rewrite IsoFacts.isoformat_chars.
  repeat (rewrite scalars_app, scalars_pad; cbn [andb];
          change (scalars (?c :: ?s)) with (scalar c && scalars s);
          try (change (scalar 45) with true); try (change (scalar 84) with true);
          try (change (scalar 58) with true); cbn [andb]).
  destruct (microsecond t =? 0); [reflexivity|].
  change (scalars (46 :: ?s)) with (scalar 46 && scalars s).
  rewrite scalars_pad. reflexivity.
Qed.

Lemma resolve_items E items :
  forallb (item_ok E) items = true ->
  forall d st, is_record (PDict d) = true ->
  exists d' lines,
    foldM (probe E) items (PDict d) st = (Return (PDict d'), State (fs st) (out st ++ lines)) /\
    is_record (PDict d') = true /\
    forall product u,
      entry (PDict d') product u =
      match entry (PDict d) product u with
      | Some x => Some x
      | None => if observed E items product u then Some (stamp E product) else None
      end.
Proof.
  induction items as [|[os_name url] items IH]; intros Hok d st Hr.
  - exists d, []. cbn [foldM]. unfold ret. rewrite app_nil_r. destruct st.
    repeat split; [assumption|]. intros product u. cbn [observed existsb].
    destruct (entry (PDict d) product u); reflexivity.
  - cbn [forallb] in Hok. apply andb_true_iff in Hok. destruct Hok as [Hitem Hok].
    unfold item_ok in Hitem. cbn [fst snd] in Hitem.
    apply andb_true_iff in Hitem. destruct Hitem as [Hitem Hclock].
    apply andb_true_iff in Hitem. destruct Hitem as [Hos Hhead].
    cbn [foldM]. unfold bind at 1.
    assert (forall line,
               probe E (PDict d) (os_name, url) st = (Return (PDict d), logged st line) ->
               (forall product u, reports E product u (os_name, url) = false) ->
               exists d' lines,
                 (let (o, st') := probe E (PDict d) (os_name, url) st in
                  match o with
                  | Return a => foldM (probe E) items a st'
                  | Raise e => (Raise e, st')
                  end) = (Return (PDict d'), State (fs st) (out st ++ lines)) /\
                 is_record (PDict d') = true /\
                 forall product u,
                   entry (PDict d') product u =
                   match entry (PDict d) product u with
                   | Some x => Some x
                   | None => if observed E ((os_name, url) :: items) product u
                             then Some (stamp E product) else None
                   end) as Quiet.
    { intros line Hstep Hobs. rewrite Hstep.
      destruct (IH Hok d (logged st line) Hr) as (d' & lines & Hrun & Hr' & Hentry).
      exists d', (line :: lines). rewrite Hrun. unfold logged. cbn [fs out].
      rewrite <- app_assoc. repeat split; [assumption|].
      intros product u. rewrite Hentry. unfold observed. cbn [existsb].
      rewrite Hobs. reflexivity. }
    destruct (requests_head E url) as [e|[[|c l]|]] eqn:Hh.
    + apply (Quiet (error_fetching_line os_name e)).
      * apply probe_request_exception; assumption.
      * intros. unfold reports. cbn [fst snd]. rewrite Hh. apply andb_false_r.
    + apply (Quiet (no_location_line os_name)).
      * apply probe_empty_header; assumption.
      * intros. unfold reports. cbn [fst snd]. rewrite Hh. apply andb_false_r.
    + cbn [head_ok] in Hhead.
      rewrite (probe_record E os_name url st c l Hh d Hr).
      set (d1 := record_with d os_name (c :: l) (stamp E os_name)).
      assert (is_record (PDict d1) = true) as Hr1.
      { apply is_record_record_with; try assumption. apply text_ok_isoformat. }
      set (st1 := match entry (PDict d) os_name (c :: l) with
                  | Some _ => st
                  | None => logged st (added_line os_name (c :: l))
                  end).
      destruct (IH Hok d1 st1 Hr1) as (d' & lines & Hrun & Hr' & Hentry).
      assert (exists pre, st1 = State (fs st) (out st ++ pre)) as [pre Hst1].
      { unfold st1. destruct (entry (PDict d) os_name (c :: l)).
        - exists []. rewrite app_nil_r. destruct st; reflexivity.
        - eexists. reflexivity. }
      exists d', (pre ++ lines). rewrite Hrun, Hst1. cbn [fs out]. rewrite <- app_assoc.
      repeat split; [assumption|].
      intros product u. rewrite Hentry. unfold d1.
      rewrite entry_record_with by assumption.
      unfold observed. cbn [existsb]. unfold reports at 2. cbn [fst snd]. rewrite Hh.
      destruct (entry (PDict d) product u); [reflexivity|].
      destruct (Str.eqb product os_name && Str.eqb u (c :: l)) eqn:Hb; [|reflexivity].
      apply andb_true_iff in Hb. destruct Hb as [Hb _]. apply str_eqb_eq in Hb.
      subst product. reflexivity.
    + apply (Quiet (no_location_line os_name)).
      * apply probe_no_header; assumption.
      * intros. unfold reports. cbn [fst snd]. rewrite Hh. apply andb_false_r.
Qed.

(** A run that learns nothing leaves the record as it is. *)
Lemma resolve_settled E items d :
  is_record (PDict d) = true -> forallb (settled E (PDict d)) items = true ->
  forall st, exists lines,
    foldM (probe E) items (PDict d) st = (Return (PDict d), State (fs st) (out st ++ lines)).
Proof.
  intros Hr. induction items as [|[os_name url] items IH]; intros Hs st.
  - exists []. rewrite app_nil_r. destruct st. reflexivity.
  - cbn [forallb] in Hs. apply andb_true_iff in Hs. destruct Hs as [Hitem Hs].
    assert (exists pre, probe E (PDict d) (os_name, url) st =
                        (Return (PDict d), State (fs st) (out st ++ pre))) as [pre Hstep].
    { unfold settled in Hitem. cbn [fst snd] in Hitem.
      destruct (requests_head E url) as [e|[[|c l]|]] eqn:Hh.
      - eexists. apply probe_request_exception. exact Hh. exact Hitem.
      - eexists. apply probe_empty_header; assumption.
      - rewrite (probe_record E os_name url st c l Hh d Hr).
        destruct (entry (PDict d) os_name (c :: l)) as [x|] eqn:He; [|discriminate].
        exists []. rewrite app_nil_r. destruct st. cbn [fs out]. f_equal. f_equal. f_equal.
        unfold record_with. unfold entry in He.
        destruct (Dict.get os_name d) as [[ | | | | | urls]|]; try discriminate He.
        unfold Dict.mem. rewrite He. reflexivity.
      - eexists. apply probe_no_header; assumption. }
    destruct (IH Hs (State (fs st) (out st ++ pre))) as [lines Hrun].
    exists (pre ++ lines). cbn [foldM]. unfold bind. rewrite Hstep, Hrun.
    cbn [fs out]. rewrite <- app_assoc. reflexivity.
Qed.
End Resolver.

(** * The location store *)

Module Store.

Lemma exists_iff st path :
  os_path_exists path st =
  (Return (match fs st !! path with Some _ => true | None => false end), st).
Proof.
  unfold os_path_exists. destruct (fs st !! path) eqn:H.
  - rewrite bool_decide_eq_true_2 by eauto. reflexivity.
  - rewrite bool_decide_eq_false_2; [reflexivity|]. intros [? ?]. discriminate.
Qed.


Lemma read_present E st text :
  read_text E JSON_FILE st = (Return text, st) -> exists n, fs st !! JSON_FILE = Some n.
Proof.
  unfold read_text. destruct (fs st !! JSON_FILE); [eauto|discriminate].
Qed.

Lemma load_parsed E st text v :
  read_text E JSON_FILE st = (Return text, st) -> Json.loads text = Some v ->
  load_existing_data E st = (Return v, st).
Proof.
  intros Hread Hv. destruct (read_present E st text Hread) as [n Hn].
  unfold load_existing_data, bind. rewrite exists_iff, Hn.
  unfold try_except, bind. rewrite Hread, Hv. reflexivity.
Qed.


Lemma save_written st data :
  fs st !! JSON_FILE <> Some Dir ->
  save_data data st =
  (Return tt, State (<[JSON_FILE := File (Text (Json.dumps data))]> (fs st)) (out st)).
Proof.
  intros H. unfold save_data, write_file.
  destruct (fs st !! JSON_FILE) as [[|c]|]; [congruence|reflexivity..].
Qed.

Lemma read_written E f o text :
  read_text E JSON_FILE (State (<[JSON_FILE := File (Text text)]> f) o) =
  (Return text, State (<[JSON_FILE := File (Text text)]> f) o).
Proof. unfold read_text. cbn [fs]. rewrite lookup_insert_eq. reflexivity. Qed.

(** Saving a record and loading it gives the record. *)
Lemma load_saved E st r :
  plain r = true -> fs st !! JSON_FILE <> Some Dir ->
  exists st',
    save_data r st = (Return tt, st') /\
    fs st' !! JSON_FILE = Some (File (Text (Json.dumps r))) /\
    out st' = out st /\
    load_existing_data E st' = (Return r, st').
Proof.
  intros Hp Hf. eexists. split; [apply save_written, Hf|]. cbn [fs out].
  split; [apply lookup_insert_eq|]. split; [reflexivity|].
  apply (load_parsed E _ (Json.dumps r)); [apply read_written|].
  apply JsonRound.loads_dumps, Hp.
Qed.

End Store.

(** * Work items *)

Module Worker.

Lemma process_url_returns E args st :
  exists r st', process_url E args st = (Return r, st').
Proof.
  destruct args as [os_name url]. unfold process_url, try_except_Exception.
  match goal with |- context [match ?body st with _ => _ end] => destruct (body st) as [[r|e] st'] end.
  - eauto.
  - unfold bind, print, print_exc, ret. eauto.
Qed.

(** Every item of the work list is processed, whatever happens to the
    others. *)
Lemma pool_returns E items :
  forall st, exists results st',
    mapM (process_url E) items st = (Return results, st') /\
    length results = length items.
Proof.
  induction items as [|item items IH]; intros st.
  - exists [], st. split; reflexivity.
  - destruct (process_url_returns E item st) as (r & st1 & Hr).
    destruct (IH st1) as (results & st2 & Hrun & Hlen).
    exists (r :: results), st2. cbn [mapM]. unfold bind. rewrite Hr, Hrun.
    split; [reflexivity|]. cbn [length]. rewrite Hlen. reflexivity.
Qed.

Lemma sum_from_skips_false acc before after :
  Py.sum_from acc (before ++ Some false :: after) = Py.sum_from acc (before ++ after).
Proof.
  revert acc. induction before as [|[b|] before IH]; intros acc; cbn [app Py.sum_from].
  - rewrite Z.add_0_r. reflexivity.
  - apply IH.
  - reflexivity.
Qed.

Lemma makedirs_cases path st :
  (exists st1, os_makedirs path st = (Return tt, st1) /\ out st1 = out st /\
               (fs st1 = fs st \/ fs st1 = <[path := Dir]> (fs st)) /\
               fs st1 !! path = Some Dir) \/
  (exists e, os_makedirs path st = (Raise e, st)).
Proof.
  unfold os_makedirs. destruct (fs st !! path) as [[|c]|] eqn:H.
  - left. exists st. repeat split; auto.
  - right. eauto.
  - left. eexists. split; [reflexivity|]. cbn [fs out].
    repeat split; auto. apply lookup_insert_eq.
Qed.

Lemma download_get_raises E url path e st :
  requests_get E url path = GetRaises e -> isinstance e RequestException = true ->
  exists lines, download_cab E url path st = (Return false, State (fs st) (out st ++ lines)).
Proof.
  intros Hg He. unfold download_cab, try_except, bind, print, fetch. rewrite Hg.
  unfold raise. cbn [fs out]. unfold isinstance_any. cbn [existsb]. rewrite He. cbn [orb].
  unfold ret. cbn [fs out]. rewrite <- app_assoc. eauto.
Qed.

Lemma download_stream_raises E url path chunks e st :
  requests_get E url path = StreamRaises chunks e -> isinstance e RequestException = true ->
  (exists st', download_cab E url path st = (Return false, st') /\
               fs st' = <[path := File (Bytes (concat chunks))]> (fs st)) \/
  (exists e' st', download_cab E url path st = (Raise e', st') /\ fs st' = fs st).
Proof.
  intros Hg He. unfold download_cab, try_except, bind, print, fetch. rewrite Hg.
  unfold bind, write_file. cbn [fs out].
  destruct (fs st !! path) as [[|c]|] eqn:Hp.
  - right. cbn [isinstance_any existsb isinstance exc_type]. cbn. eauto.
  - left. unfold raise. unfold isinstance_any. cbn [existsb]. rewrite He. cbn [orb].
    unfold ret. cbn [fs out]. eauto.
  - left. unfold raise. unfold isinstance_any. cbn [existsb]. rewrite He. cbn [orb].
    unfold ret. cbn [fs out]. eauto.
Qed.

Lemma insert_dir_keeps_files (f : gmap str node) dir path c :
  <[dir := Dir]> f !! path = Some (File c) -> f !! path = Some (File c).
Proof.
  destruct (decide (dir = path)) as [->|Hne].
  - rewrite lookup_insert_eq. discriminate.
  - rewrite lookup_insert_ne by assumption. auto.
Qed.

(** A download that fails leaves the item failed. *)
Lemma download_failure E os_name url st e :
  isinstance e RequestException = true ->
  (requests_get E url (cab_path E os_name url) = GetRaises e \/
   exists chunks, requests_get E url (cab_path E os_name url) = StreamRaises chunks e) ->
  exists st',
    process_url E (os_name, PStr url) st = (Return (Some false), st') /\
    (requests_get E url (cab_path E os_name url) = GetRaises e ->
     forall c, fs st' !! cab_path E os_name url = Some (File c) ->
               fs st !! cab_path E os_name url = Some (File c)).
Proof.
  intros He Hg. unfold process_url, try_except_Exception.
  unfold bind at 1. cbn [as_str ret]. unfold bind at 1.
  destruct (makedirs_cases (output_dir E os_name url) st)
    as [(st1 & Hmk & Hout & Hfs & _)|(e0 & Hmk)]; rewrite Hmk.
  - unfold bind at 1.
    destruct Hg as [Hg|[chunks Hg]].
    + destruct (download_get_raises E url _ e st1 Hg He) as [lines Hdl].
      rewrite Hdl. cbn [negb ret]. eexists. split; [reflexivity|].
      intros _ c. cbn [fs]. destruct Hfs as [->| ->]; [auto|].
      apply insert_dir_keeps_files.
    + destruct (download_stream_raises E url _ chunks e st1 Hg He)
        as [(st2 & Hdl & _)|(e' & st2 & Hdl & _)]; rewrite Hdl.
      * cbn [negb ret]. eexists. split; [reflexivity|]. intros Hg'. congruence.
      * unfold bind, print, print_exc, ret. eexists. split; [reflexivity|].
        intros Hg'. congruence.
  - unfold bind, print, print_exc, ret. eexists. split; [reflexivity|].
    intros _ c. cbn [fs]. auto.
Qed.

Lemma download_completes E url path chunks st :
  requests_get E url path = StreamEnds chunks -> fs st !! path <> Some Dir ->
  download_cab E url path st =
  (Return true,
   State (<[path := File (Bytes (concat chunks))]> (fs st))
         (out st ++ [downloading_line url])).
Proof.
  intros Hg Hp. unfold download_cab, try_except, bind, print, fetch. rewrite Hg.
  unfold write_file. cbn [fs out].
  destruct (fs st !! path) as [[|c]|]; [congruence|reflexivity..].
Qed.

(** The result of an item whose archive arrives and whose extraction
    tool fails, on either platform; the archive stays where it was
    written. *)
Lemma extraction_failure E os_name url st chunks e :
  fs st !! output_dir E os_name url = None \/ fs st !! output_dir E os_name url = Some Dir ->
  cab_path E os_name url <> output_dir E os_name url ->
  fs st !! cab_path E os_name url <> Some Dir ->
  requests_get E url (cab_path E os_name url) = StreamEnds chunks ->
  (forall argv, subprocess_run E argv = RunRaises e) ->
  exists st',
    process_url E (os_name, PStr url) st =
    (Return (if Str.startswith (sys_platform E) (py "win") then Some false
             else if isinstance_any e [CalledProcessError; FileNotFoundError; TimeoutExpired]
                  then None else Some false), st') /\
    fs st' !! cab_path E os_name url = Some (File (Bytes (concat chunks))).
Proof.
  intros Hdir Hne Hcab Hg Hrun. unfold process_url, try_except_Exception.
  unfold bind at 1. cbn [as_str ret]. unfold bind at 1.
  assert (exists st1, os_makedirs (output_dir E os_name url) st = (Return tt, st1) /\
                      fs st1 !! cab_path E os_name url <> Some Dir) as (st1 & Hmk & Hcab1).
  { unfold os_makedirs. destruct Hdir as [Hd|Hd]; rewrite Hd.
    - eexists. split; [reflexivity|]. cbn [fs].
      rewrite lookup_insert_ne by congruence. exact Hcab.
    - eexists. split; [reflexivity|]. exact Hcab. }
  rewrite Hmk. unfold bind at 1.
  rewrite (download_completes E url _ chunks st1 Hg Hcab1). cbn [negb].
  set (st2 := State _ _).
  assert (fs st2 !! cab_path E os_name url = Some (File (Bytes (concat chunks)))) as Hfile
    by apply lookup_insert_eq.
  clearbody st2. unfold bind at 1.
  destruct (Str.startswith (sys_platform E) (py "win")).
  - unfold extract_cab_windows, try_except, bind at 1, run. rewrite Hrun.
    destruct (isinstance_any e [CalledProcessError; TimeoutExpired]).
    + unfold bind, print, print_stderr, ret.
      destruct (exc_stderr e) as [[|c s]|]; cbn [truthy andb fs out];
        (eexists; split; [reflexivity|exact Hfile]).
    + unfold bind, print, print_exc, ret. cbn [fs].
      eexists; split; [reflexivity|exact Hfile].
  - unfold extract_cab_unix, try_except, bind at 1, run. rewrite Hrun.
    destruct (isinstance_any e [CalledProcessError; FileNotFoundError; TimeoutExpired]).
    + unfold bind, print, print_stderr, ret.
      destruct (exc_stderr e) as [[|c s]|]; cbn [truthy andb fs out];
        (eexists; split; [reflexivity|exact Hfile]).
    + unfold bind, print, print_exc, ret. cbn [fs].
      eexists; split; [reflexivity|exact Hfile].
Qed.

(** ** The pool and the summary *)

Lemma extract_windows_bool E cab dir st r st' :
  extract_cab_windows E cab dir st = (Return r, st') -> is_bool r = true.
Proof.
  unfold extract_cab_windows, try_except, bind at 1, run.
  destruct (subprocess_run E _) as [written|e].
  - unfold ret. intros [= <- _]. reflexivity.
  - destruct (isinstance_any e _); [|discriminate].
    unfold bind, print, print_stderr, ret.
    destruct (exc_stderr e) as [[|c s]|]; intros [= <- _]; reflexivity.
Qed.

(** On Windows a worker returns a boolean. *)
Lemma process_url_windows E args st :
  Str.startswith (sys_platform E) (py "win") = true ->
  exists b st', process_url E args st = (Return (Some b), st').
Proof.
  intros Hwin. destruct args as [os_name url].
  unfold process_url, try_except_Exception. unfold bind at 1.
  destruct url as [ | | | u | | ];
    try (cbn [as_str]; unfold raise, bind, print, print_exc, ret; eauto; fail).
  cbn [as_str ret]. unfold bind at 1.
  destruct (os_makedirs _ st) as [[[]|e] st1];
    [|unfold bind, print, print_exc, ret; eauto].
  unfold bind at 1.
  destruct (download_cab E u _ st1) as [[[|]|e] st2];
    [| cbn [negb ret]; eauto | unfold bind, print, print_exc, ret; eauto].
  cbn [negb]. unfold bind at 1. rewrite Hwin.
  destruct (extract_cab_windows E _ _ st2) as [[r|e] st3] eqn:Hx;
    [|unfold bind, print, print_exc, ret; eauto].
  apply extract_windows_bool in Hx. destruct r as [b|]; [|discriminate].
  unfold bind at 1. destruct b; cbn [truthy andb].
  - unfold os_path_exists. destruct (bool_decide _).
    + unfold bind at 1. destruct (os_remove _ _) as [[[]|e] st4].
      * unfold ret. eauto.
      * unfold bind, print, print_exc, ret. eauto.
    + unfold bind, ret. eauto.
  - unfold bind, ret. eauto.
Qed.

Lemma pool_windows E items :
  Str.startswith (sys_platform E) (py "win") = true ->
  forall st results st',
    mapM (process_url E) items st = (Return results, st') ->
    forallb is_bool results = true.
Proof.
  intros Hwin. induction items as [|item items IH]; intros st results st' H.
  - cbn in H. injection H as <- _. reflexivity.
  - cbn [mapM] in H. unfold bind at 1 in H.
    destruct (process_url_windows E item st Hwin) as (b & st1 & Hb). rewrite Hb in H.
    unfold bind at 1 in H.
    destruct (mapM (process_url E) items st1) as [[rs|e] st2] eqn:Hrs; [|discriminate].
    unfold ret in H. injection H as <- _. cbn [forallb is_bool]. eapply IH, Hrs.
Qed.

Lemma sum_from_booleans acc results :
  forallb is_bool results = true ->
  Py.sum_from acc results = Return (acc + successes results)%Z.
Proof.
  revert acc. induction results as [|[b|] results IH]; intros acc H.
  - unfold successes. cbn. rewrite Z.add_0_r. reflexivity.
  - cbn [Py.sum_from]. rewrite IH by exact H. f_equal. unfold successes.
    cbn [List.filter truthy]. destruct b; cbn [length]; lia.
  - discriminate.
Qed.

Lemma sum_from_none acc results :
  forallb is_bool results = false -> exists e, Py.sum_from acc results = Raise e /\
                                               exc_type e = TypeError.
Proof.
  revert acc. induction results as [|[b|] results IH]; intros acc H.
  - discriminate.
  - cbn [Py.sum_from]. apply IH, H.
  - cbn [Py.sum_from]. eexists. split; reflexivity.
Qed.

Lemma main_phases E st :
  main E st =
  (let* data := record_phase E in
   let* url_list := lift (url_list data) in
   print [Lit (py "Processing "); FInt (Z.of_nat (length url_list));
          Lit (py " URLs with "); FInt MAX_WORKERS; Lit (py " workers")] >>
   let* results := mapM (process_url E) url_list in
   let* successful := lift (Py.sum results) in
   print [Lit (py "Processing complete. Successful: "); FInt successful;
          Lit (py "/"); FInt (Z.of_nat (length url_list))]) st.
Proof.
  unfold main, record_phase, bind.
  destruct (load_existing_data E st) as [[data|e] st1]; [|reflexivity].
  destruct (resolve E data st1) as [[data'|e] st2]; [|reflexivity].
  destruct (save_data data' st2) as [[[]|e] st3]; reflexivity.
Qed.

(** Once the record is saved and flattened into [items], every item is
    processed; the run ends with the summary line when every result is
    a boolean, and with a [TypeError] and no summary otherwise. *)
Theorem main_after_record_phase E st data st1 items :
  record_phase E st = (Return data, st1) ->
  url_list data = Return items ->
  exists results st2,
    mapM (process_url E) items (logged st1 (processing_line (length items))) =
    (Return results, st2) /\
    length results = length items /\
    (forallb is_bool results = true ->
     main E st = (Return tt, logged st2 (summary_line (successes results) (length items)))) /\
    (forallb is_bool results = false ->
     exists e, main E st = (Raise e, st2) /\ exc_type e = TypeError).
Proof.
  intros Hphase Hitems.
  destruct (pool_returns E items (logged st1 (processing_line (length items))))
    as (results & st2 & Hpool & Hlen).
  exists results, st2. split; [exact Hpool|]. split; [exact Hlen|].
  assert (main E st =
          match Py.sum_from 0%Z results with
          | Return a => (Return tt, logged st2 (summary_line a (length items)))
          | Raise e => (Raise e, st2)
          end) as Hmain.
  { rewrite main_phases. unfold bind at 1. rewrite Hphase.
    unfold bind at 1, lift at 1. rewrite Hitems.
    unfold bind at 1, print at 1.
    change (State (fs st1) (out st1 ++ [Print _]))
      with (logged st1 (processing_line (length items))).
    unfold bind at 1. rewrite Hpool. unfold bind, lift, Py.sum.
    destruct (Py.sum_from 0%Z results); reflexivity. }
  rewrite Hmain. split.
  - intros Hb. rewrite sum_from_booleans by exact Hb. reflexivity.
  - intros Hb. destruct (sum_from_none 0%Z results Hb) as (e & -> & He). eauto.
Qed.
End Worker.

(** * Output is append-only *)

Module Output.

Lemma appends_ret {A} (a : A) : appends (ret a).
Proof. intros st o st' [= <- <-]. exists []. rewrite app_nil_r. reflexivity. Qed.

Lemma appends_raise {A} e : appends (@raise A e).
Proof. intros st o st' [= <- <-]. exists []. rewrite app_nil_r. reflexivity. Qed.

Lemma appends_lift {A} (o : outcome A) : appends (lift o).
Proof. intros st o' st' [= <- <-]. exists []. rewrite app_nil_r. reflexivity. Qed.

Lemma appends_print line : appends (print line).
Proof. intros st o st' [= <- <-]. cbn [out]. eauto. Qed.

Lemma appends_print_exc e : appends (print_exc e).
Proof. intros st o st' [= <- <-]. cbn [out]. eauto. Qed.

Lemma appends_bind {A B} (m : M A) (k : A -> M B) :
  appends m -> (forall a, appends (k a)) -> appends (bind m k).
Proof.
  intros Hm Hk st o st' H. unfold bind in H.
  destruct (m st) as [[a|e] st1] eqn:Hm1.
  - destruct (Hm _ _ _ Hm1) as [more1 H1]. destruct (Hk a _ _ _ H) as [more2 H2].
    exists (more1 ++ more2). rewrite H2, H1, app_assoc. reflexivity.
  - injection H as <- <-. eapply Hm, Hm1.
Qed.

Lemma appends_try_except {A} (m : M A) classes handler :
  appends m -> (forall e, appends (handler e)) -> appends (try_except m classes handler).
Proof.
  intros Hm Hh st o st' H. unfold try_except in H.
  destruct (m st) as [[a|e] st1] eqn:Hm1.
  - injection H as <- <-. eapply Hm, Hm1.
  - destruct (Hm _ _ _ Hm1) as [more1 H1].
    destruct (isinstance_any e classes).
    + destruct (Hh e _ _ _ H) as [more2 H2].
      exists (more1 ++ more2). rewrite H2, H1, app_assoc. reflexivity.
    + injection H as <- <-. eauto.
Qed.

Lemma appends_try_except_Exception {A} (m : M A) handler :
  appends m -> (forall e, appends (handler e)) -> appends (try_except_Exception m handler).
Proof.
  intros Hm Hh st o st' H. unfold try_except_Exception in H.
  destruct (m st) as [[a|e] st1] eqn:Hm1.
  - injection H as <- <-. eapply Hm, Hm1.
  - destruct (Hm _ _ _ Hm1) as [more1 H1]. destruct (Hh e _ _ _ H) as [more2 H2].
    exists (more1 ++ more2). rewrite H2, H1, app_assoc. reflexivity.
Qed.

Ltac same_output :=
  let st := fresh "st" in let o := fresh "o" in let st' := fresh "st'" in
  let H := fresh "H" in
  intros st o st' H; exists []; rewrite app_nil_r;
  repeat match type of H with
         | context [match ?x with _ => _ end] => destruct x
         end;
  injection H as <- <-; reflexivity.

Lemma appends_exists path : appends (os_path_exists path).
Proof. unfold os_path_exists. same_output. Qed.

Lemma appends_write_file path c : appends (write_file path c).
Proof. unfold write_file. same_output. Qed.

Lemma appends_makedirs path : appends (os_makedirs path).
Proof. unfold os_makedirs. same_output. Qed.

Lemma appends_remove path : appends (os_remove path).
Proof. unfold os_remove. same_output. Qed.

Lemma appends_run E argv : appends (run E argv).
Proof. unfold run. same_output. Qed.

Create HintDb appends.
#[export] Hint Resolve appends_ret appends_raise appends_lift appends_print
  appends_print_exc appends_exists appends_write_file appends_makedirs
  appends_remove appends_run : appends.
#[export] Hint Extern 2 (appends (bind _ _)) => apply appends_bind; [|intro] : appends.
#[export] Hint Extern 2 (appends (try_except _ _ _)) =>
  apply appends_try_except; [|intro] : appends.
#[export] Hint Extern 2 (appends (try_except_Exception _ _)) =>
  apply appends_try_except_Exception; [|intro] : appends.
#[export] Hint Extern 3 (appends (match ?x with _ => _ end)) => destruct x : appends.
#[export] Hint Extern 3 (appends (if ?x then _ else _)) => destruct x : appends.

Lemma appends_fetch E url path : appends (fetch E url path).
Proof. unfold fetch. auto 10 with appends. Qed.

Lemma appends_print_stderr e : appends (print_stderr e).
Proof. unfold print_stderr. auto 10 with appends. Qed.

Lemma appends_extract_windows E cab dir : appends (extract_cab_windows E cab dir).
Proof.
  unfold extract_cab_windows. pose proof appends_print_stderr. auto 10 with appends.
Qed.

Lemma appends_extract_unix E cab dir : appends (extract_cab_unix E cab dir).
Proof.
  unfold extract_cab_unix. pose proof appends_print_stderr. auto 10 with appends.
Qed.

Lemma appends_download E url path : appends (download_cab E url path).
Proof. unfold download_cab. pose proof (appends_fetch E). auto 10 with appends. Qed.

Lemma appends_process_url E args : appends (process_url E args).
Proof.
  destruct args as [os_name url]. unfold process_url, as_str.
  pose proof (appends_download E). pose proof (appends_extract_windows E).
  pose proof (appends_extract_unix E).
  auto 20 with appends.
Qed.

End Output.

(** * A whole run *)

Module Run.

Lemma flatten_record d :
  forallb (fun kv => text_ok (fst kv) && is_urls (snd kv)) d = true ->
  flatten d = Return (work_items d).
Proof.
  induction d as [|[os_name v] d IH]; intros H; [reflexivity|].
  cbn [forallb fst snd] in H. apply andb_true_iff in H. destruct H as [Hv H].
  apply andb_true_iff in Hv. destruct Hv as [_ Hv].
  destruct v as [ | | | | | urls]; try discriminate Hv.
  cbn [flatten Py.iter]. rewrite (IH H). unfold work_items. cbn [flat_map fst snd].
  unfold Dict.keys. rewrite List.map_map. reflexivity.
Qed.

Lemma url_list_record d :
  is_record (PDict d) = true -> url_list (PDict d) = Return (work_items d).
Proof.
  intros H. cbn [is_record] in H. apply andb_true_iff in H. destruct H as [_ H].
  unfold url_list, Py.items. apply flatten_record, H.
Qed.

(** From a state file that holds a record, in a well-behaved world: the
    record is resolved and saved, every URL of the new record is
    processed, and the run ends with the summary line when every result is
    a boolean, and with a [TypeError] and no summary otherwise. *)
Theorem run_from_record E st text d :
  sane_world E = true ->
  read_text E JSON_FILE st = (Return text, st) ->
  Json.loads text = Some (PDict d) ->
  is_record (PDict d) = true ->
  exists d' st1 results st2,
    record_phase E st = (Return (PDict d'), st1) /\
    is_record (PDict d') = true /\
    (forall product url t,
       entry (PDict d) product url = Some t -> entry (PDict d') product url = Some t) /\
    mapM (process_url E) (work_items d')
      (logged st1 (processing_line (length (work_items d')))) = (Return results, st2) /\
    length results = length (work_items d') /\
    (forallb is_bool results = true ->
     main E st =
     (Return tt, logged st2 (summary_line (successes results) (length (work_items d'))))) /\
    (forallb is_bool results = false ->
     exists e, main E st = (Raise e, st2) /\ exc_type e = TypeError).
Proof.
  intros Hw Hread Hv Hr.
  pose proof (Store.load_parsed E st text _ Hread Hv) as Hload.
  destruct (Resolver.resolve_items E URLS Hw d st Hr) as (d' & lines & Hrun & Hr' & Hentry).
  assert (fs st !! JSON_FILE <> Some Dir) as Hfile.
  { unfold read_text in Hread. destruct (fs st !! JSON_FILE) as [[|c]|]; congruence. }
  pose proof (Store.save_written (State (fs st) (out st ++ lines)) (PDict d') Hfile) as Hsave.
  assert (exists st1, record_phase E st = (Return (PDict d'), st1)) as [st1 Hphase].
  { unfold record_phase. unfold bind at 1. rewrite Hload. unfold bind at 1.
    unfold resolve. rewrite Hrun. unfold bind. rewrite Hsave. eauto. }
  destruct (Worker.main_after_record_phase E st (PDict d') st1 (work_items d') Hphase
              (url_list_record d' Hr')) as (results & st2 & Hpool & Hlen & Hok & Hbad).
  exists d', st1, results, st2. repeat split; try assumption.
  intros product url t Ht. rewrite Hentry, Ht. reflexivity.
Qed.

(** On Windows such a run always ends with the summary. *)
Theorem windows_run_from_record E st text d :
  Str.startswith (sys_platform E) (py "win") = true ->
  sane_world E = true ->
  read_text E JSON_FILE st = (Return text, st) ->
  Json.loads text = Some (PDict d) ->
  is_record (PDict d) = true ->
  exists d' results st2,
    length results = length (work_items d') /\
    main E st =
    (Return tt, logged st2 (summary_line (successes results) (length (work_items d')))).
Proof.
  intros Hwin Hw Hread Hv Hr.
  destruct (run_from_record E st text d Hw Hread Hv Hr)
    as (d' & st1 & results & st2 & _ & _ & _ & Hpool & Hlen & Hok & _).
  exists d', results, st2. split; [exact Hlen|].
  apply Hok. eapply Worker.pool_windows; eassumption.
Qed.

End Run.

(** * The store and the resolver *)






(** C7: saving a location record (an object of objects of strings) writes
    the layout of the specification, one item per line with products
    indented by four spaces and URLs by eight, and loading the saved file
    gives the record back, with every product, URL and timestamp
    unchanged.  A state file in that shape stays as it is through a run in
    which no probe reports a new target: the run loads the record,
    resolves it to itself and saves it, and the file then loads as the same
    record. *)
Theorem save_then_load_is_identity E st r :
  (is_record r = true -> fs st !! JSON_FILE <> Some Dir ->
   exists st',
     save_data r st = (Return tt, st') /\
     fs st' !! JSON_FILE = Some (File (Text (Layout.record r))) /\
     Json.loads (Layout.record r) = Some r /\
     load_existing_data E st' = (Return r, st')) /\
  (forall text,
     scalars text = true ->
     read_text E JSON_FILE st = (Return text, st) ->
     Json.loads text = Some r ->
     record_shape r = true ->
     no_news E r = true ->
     exists st',
       record_phase E st = (Return r, st') /\
       fs st' !! JSON_FILE = Some (File (Text (Layout.record r))) /\
       load_existing_data E st' = (Return r, st')).
Proof.
  split.
  - intros Hr Hf. pose proof (RecordFacts.is_record_plain r Hr) as Hp.
    destruct (Store.load_saved E st r Hp Hf) as (st' & Hs & Hfile & _ & Hl).
    exists st'. rewrite <- RecordFacts.dumps_layout by assumption.
    repeat split; try assumption. apply JsonRound.loads_dumps, Hp.
  - intros text Htext Hread Hv Hshape Hn.
    pose proof (Loaded.loaded_record text r Htext Hv Hshape) as Hr.
    pose proof (RecordFacts.is_record_plain r Hr) as Hp.
    destruct r as [ | | | | | d]; try discriminate Hr.
    destruct (Resolver.resolve_settled E URLS d Hr Hn st) as [lines Hrun].
    assert (fs st !! JSON_FILE <> Some Dir) as Hf.
    { unfold read_text in Hread. destruct (fs st !! JSON_FILE) as [[|c]|]; congruence. }
    destruct (Store.load_saved E (State (fs st) (out st ++ lines)) (PDict d) Hp Hf)
      as (st2 & Hs & Hfile & _ & Hl).
    exists st2. rewrite <- RecordFacts.dumps_layout by assumption.
    split; [|split; assumption].
    unfold record_phase. unfold bind at 1.
    rewrite (Store.load_parsed E st text _ Hread Hv). unfold bind at 1.
    unfold resolve. rewrite Hrun. unfold bind. rewrite Hs. reflexivity.
Qed.

Lemma save_then_load_witness :
  (exists st',
     save_data sample_record empty_state = (Return tt, st') /\
     load_existing_data offline st' = (Return sample_record, st')) /\
  (exists st',
     record_phase offline sample_state = (Return sample_record, st') /\
     load_existing_data offline st' = (Return sample_record, st')).
Proof.
  split.
  - destruct (proj1 (save_then_load_is_identity offline empty_state sample_record))
      as (st' & Hs & _ & _ & Hl).
    + reflexivity.
    + vm_compute. discriminate.
    + exists st'. split; assumption.
  - destruct (proj2 (save_then_load_is_identity offline sample_state sample_record)
                (Layout.record sample_record)) as (st' & Hphase & _ & Hl).
    + reflexivity.
    + reflexivity.
    + reflexivity.
    + reflexivity.
    + reflexivity.
    + exists st'. split; assumption.
Defined.

(** * Work items and the summary *)

(** C3, amended: a work item whose download fails with a network or HTTP
    error returns [False], and a [False] adds nothing to the sum of the
    results; when the error comes before the destination file is opened,
    the item creates no archive: a file found at its archive path
    afterwards was already there. *)
Theorem failed_download_is_failure E os_name url st e :
  isinstance e RequestException = true ->
  (requests_get E url (cab_path E os_name url) = GetRaises e \/
   exists chunks, requests_get E url (cab_path E os_name url) = StreamRaises chunks e) ->
  exists st',
    process_url E (os_name, PStr url) st = (Return (Some false), st') /\
    (forall before after,
       Py.sum (before ++ Some false :: after) = Py.sum (before ++ after)) /\
    (requests_get E url (cab_path E os_name url) = GetRaises e ->
     forall c, fs st' !! cab_path E os_name url = Some (File c) ->
               fs st !! cab_path E os_name url = Some (File c)).
Proof.
  intros He Hg. destruct (Worker.download_failure E os_name url st e He Hg) as (st' & Hr & Hf).
  exists st'. split; [exact Hr|]. split; [|exact Hf].
  intros before after. apply Worker.sum_from_skips_false.
Qed.

Lemma failed_download_witness :
  isinstance connection_reset RequestException = true /\
  requests_get offline target (cab_path offline (py "Win10") target) = GetRaises connection_reset /\
  exists st',
    process_url offline (py "Win10", PStr target) empty_state = (Return (Some false), st') /\
    fs st' !! cab_path offline (py "Win10") target = None.
Proof.
  assert (isinstance connection_reset RequestException = true) as He by reflexivity.
  assert (requests_get offline target (cab_path offline (py "Win10") target) =
          GetRaises connection_reset) as Hg by reflexivity.
  split; [exact He|]. split; [exact Hg|].
  destruct (failed_download_is_failure offline (py "Win10") target empty_state
              connection_reset He (or_introl Hg)) as (st' & Hr & _ & Hf).
  exists st'. split; [exact Hr|].
  destruct (fs st' !! cab_path offline (py "Win10") target) as [[|c]|] eqn:Hn.
  - vm_compute in Hr. injection Hr as <-. vm_compute in Hn. discriminate Hn.
  - specialize (Hf Hg c eq_refl). vm_compute in Hf. discriminate Hf.
  - reflexivity.
Defined.

(** C3, as stated, fails: when the connection drops while the body is
    streamed, the item returns [False] and the part of the archive written
    so far stays on disk. *)
Lemma failed_download_leaves_partial_archive :
  requests_get stream_breaks target (cab_path stream_breaks (py "Win10") target) =
    StreamRaises [[77; 83]] connection_reset /\
  isinstance connection_reset RequestException = true /\
  fs empty_state !! cab_path stream_breaks (py "Win10") target = None /\
  fst (process_url stream_breaks (py "Win10", PStr target) empty_state) = Return (Some false) /\
  fs (snd (process_url stream_breaks (py "Win10", PStr target) empty_state))
    !! cab_path stream_breaks (py "Win10") target = Some (File (Bytes [77; 83])).
Proof. vm_compute. repeat split. Qed.

(** C5: on a Unix host, an item whose archive is downloaded and whose
    extraction fails keeps its archive, but its result is [None], not
    [False]: [extract_cab_unix] ends its handler without a [return]. *)
Theorem unix_extraction_failure_returns_none :
  requests_get unix_extraction_fails target
    (cab_path unix_extraction_fails (py "Win10") target) = StreamEnds [[77; 83]; [67; 70]] /\
  fst (process_url unix_extraction_fails (py "Win10", PStr target) empty_state) = Return None /\
  fs (snd (process_url unix_extraction_fails (py "Win10", PStr target) empty_state))
    !! cab_path unix_extraction_fails (py "Win10") target = Some (File (Bytes [77; 83; 67; 70])).
Proof. vm_compute. repeat split. Qed.

(** C1: on a Unix host, with one work item whose extraction fails, the
    item is attempted, and [main] raises [TypeError] at [sum(results)]
    instead of printing the summary. *)
Theorem unix_extraction_failure_loses_summary :
  fst (main unix_extraction_fails empty_state) =
    Raise (error TypeError "unsupported operand type(s) for +: 'int' and 'NoneType'") /\
  existsb is_summary (out (snd (main unix_extraction_fails empty_state))) = false /\
  In (downloading_line target) (out (snd (main unix_extraction_fails empty_state))).
Proof. vm_compute. repeat split. right. right. right. left. reflexivity. Qed.

(** On Windows every worker returns a boolean, so that the run ends with
    the summary of the [True] results among all the items. *)
Theorem main_on_windows E st data st1 items :
  Str.startswith (sys_platform E) (py "win") = true ->
  record_phase E st = (Return data, st1) ->
  url_list data = Return items ->
  exists results st2,
    mapM (process_url E) items (logged st1 (processing_line (length items))) =
    (Return results, st2) /\
    length results = length items /\
    main E st = (Return tt, logged st2 (summary_line (successes results) (length items))).
Proof.
  intros Hwin Hphase Hitems.
  destruct (Worker.main_after_record_phase E st data st1 items Hphase Hitems)
    as (results & st2 & Hpool & Hlen & Hok & _).
  exists results, st2. repeat split; try assumption.
  apply Hok. eapply Worker.pool_windows; eassumption.
Qed.

(** * A state file of another shape *)

Module Shape.

Lemma probe_non_dict E data item st :
  is_dict data = false ->
  (exists line, probe E data item st = (Return data, logged st line)) \/
  (exists e, probe E data item st = (Raise e, st)).
Proof.
  intros Hd. destruct item as [os_name url].
  destruct (requests_head E url) as [e|[[|c l]|]] eqn:Hh.
  - destruct (isinstance e RequestException) eqn:He.
    + left. eexists. apply Resolver.probe_request_exception; eassumption.
    + right. eexists. apply Resolver.probe_other_exception; eassumption.
  - left. eexists. apply Resolver.probe_empty_header; eassumption.
  - right. unfold probe, try_except, bind at 1. rewrite Hh.
    destruct data as [ | b | n | s | items | d]; try discriminate Hd;
      unfold bind, lift, Py.contains, Py.setitem, Py.getitem, ret;
      repeat match goal with
             | |- context [negb ?b] => destruct b; cbn [negb]
             end;
      cbn; eauto.
  - left. eexists. apply Resolver.probe_no_header; eassumption.
Qed.

Lemma resolve_non_dict E data items :
  is_dict data = false ->
  forall st,
    (exists lines, foldM (probe E) items data st =
                   (Return data, State (fs st) (out st ++ lines))) \/
    (exists e st', foldM (probe E) items data st = (Raise e, st')).
Proof.
  intros Hd. induction items as [|item items IH]; intros st.
  - left. exists []. rewrite app_nil_r. destruct st. reflexivity.
  - cbn [foldM]. unfold bind.
    destruct (probe_non_dict E data item st Hd) as [[line Hstep]|[e Hstep]]; rewrite Hstep.
    + destruct (IH (logged st line)) as [[lines Hrun]|(e & st' & Hrun)]; rewrite Hrun.
      * left. exists (line :: lines). unfold logged. cbn [fs out].
        rewrite <- app_assoc. reflexivity.
      * right. eauto.
    + right. eauto.
Qed.

Lemma url_list_non_dict data :
  is_dict data = false -> exists e, url_list data = Raise e.
Proof.
  destruct data; try discriminate; intros _; unfold url_list, Py.items; eauto.
Qed.

End Shape.

(** C10, as stated, fails: a state file holding an object whose values
    are strings is valid JSON and not an object of objects, yet the run
    raises nothing: the characters of each string are taken as URLs, their
    downloads fail, and the summary is printed. *)
Lemma object_of_strings_runs_to_the_summary :
  read_text no_headers JSON_FILE odd_state = (Return object_of_strings, odd_state) /\
  Json.loads object_of_strings = Some (PDict [(py "Other", PStr (py "ab"))]) /\
  is_record (PDict [(py "Other", PStr (py "ab"))]) = false /\
  fst (load_existing_data no_headers odd_state) = Return (PDict [(py "Other", PStr (py "ab"))]) /\
  fst (main no_headers odd_state) = Return tt /\
  last (out (snd (main no_headers odd_state))) = Some (summary_line 0 2).
Proof. vm_compute. repeat split. Qed.

(** * Output directories *)

Module Paths.

Lemma split_no_slash s : no_slash s = true -> Str.split 47 s = [s].
Proof.
  induction s as [|c s IH]; intros H; [reflexivity|].
  cbn [no_slash forallb] in H. apply andb_true_iff in H. destruct H as [Hc Hs].
  cbn [Str.split]. apply negb_true_iff in Hc. rewrite Hc. rewrite IH by assumption.
  reflexivity.
Qed.

Lemma split_app s r :
  no_slash s = true -> Str.split 47 (s ++ 47 :: r) = s :: Str.split 47 r.
Proof.
  induction s as [|c s IH]; intros H; [reflexivity|].
  cbn [no_slash forallb] in H. apply andb_true_iff in H. destruct H as [Hc Hs].
  cbn [app Str.split]. apply negb_true_iff in Hc. rewrite Hc. rewrite IH by assumption.
  reflexivity.
Qed.

(** Splitting at the slashes undoes joining with slashes. *)
Lemma split_join segs :
  segs <> [] -> forallb no_slash segs = true ->
  Str.split 47 (Str.join (py "/") segs) = segs.
Proof.
  induction segs as [|s segs IH]; [congruence|]. intros _ H.
  cbn [forallb] in H. apply andb_true_iff in H. destruct H as [Hs H].
  destruct segs as [|s2 segs].
  - apply split_no_slash, Hs.
  - change (Str.join (py "/") (s :: s2 :: segs))
      with (s ++ 47 :: Str.join (py "/") (s2 :: segs)).
    rewrite split_app by assumption. rewrite IH; [reflexivity|congruence|assumption].
Qed.

Lemma startswith_app p t : Str.startswith (p ++ t) p = true.
Proof.
  induction p as [|c p IH]; [reflexivity|]. cbn [app Str.startswith].
  rewrite N.eqb_refl. exact IH.
Qed.

Lemma startswith_inv s p : Str.startswith s p = true -> exists t, s = p ++ t.
Proof.
  revert s. induction p as [|c p IH]; intros s H; [exists s; reflexivity|].
  destruct s as [|c' s]; [discriminate|]. cbn [Str.startswith] in H.
  apply andb_true_iff in H. destruct H as [Hc H]. apply N.eqb_eq in Hc. subst c'.
  destruct (IH s H) as [t ->]. exists t. reflexivity.
Qed.

Lemma endswith_app stem suffix : Str.endswith (stem ++ suffix) suffix = true.
Proof. unfold Str.endswith. rewrite rev_app_distr. apply startswith_app. Qed.

Lemma endswith_inv s suffix : Str.endswith s suffix = true -> exists stem, s = stem ++ suffix.
Proof.
  unfold Str.endswith. intros H. apply startswith_inv in H. destruct H as [t H].
  exists (rev t). rewrite <- (rev_involutive s), H, rev_app_distr, rev_involutive.
  reflexivity.
Qed.

Lemma drop_last_app {A} (stem suffix : list A) :
  Str.drop_last (length suffix) (stem ++ suffix) = stem.
Proof.
  unfold Str.drop_last. rewrite length_app.
  replace (length stem + length suffix - length suffix)%nat with (length stem) by lia.
  rewrite firstn_app, firstn_all, Nat.sub_diag. cbn. apply app_nil_r.
Qed.

(** The name of the output subdirectory, from the segments of the URL. *)
Lemma path_suffix_of_segments segs :
  segs <> [] -> forallb no_slash segs = true ->
  let name := Str.join (py "_") (Str.last_n 5 segs) in
  (forall stem, name = stem ++ py ".cab" ->
                path_suffix (Str.join (py "/") segs) = stem) /\
  ((forall stem, name <> stem ++ py ".cab") ->
   path_suffix (Str.join (py "/") segs) = name).
Proof.
  intros Hne Hs name. unfold path_suffix. rewrite split_join by assumption.
  fold name. split.
  - intros stem Hn. rewrite Hn, endswith_app.
    change 4%nat with (length (py ".cab")). apply drop_last_app.
  - intros Hn. destruct (Str.endswith name (py ".cab")) eqn:He; [|reflexivity].
    apply endswith_inv in He. destruct He as [stem He]. destruct (Hn stem He).
Qed.


Lemma bind_ret {A B} (a : A) (k : A -> M B) st : bind (ret a) k st = k a st.
Proof. reflexivity. Qed.

Lemma bind_step {A B} (m : M A) (k : A -> M B) st a st1 :
  m st = (Return a, st1) -> bind m k st = k a st1.
Proof. intros H. unfold bind. rewrite H. reflexivity. Qed.

End Paths.

(** C8: the output subdirectory of a work item is named after the last
    five segments of the URL between slashes, joined by underscores,
    without a final [.cab]; the output path is [os.path.join] of the root
    directory, the product name and that name; and creating the directory
    tolerates a directory that is already there: nothing is raised, the
    state is unchanged, and the item then does exactly what it does when
    it has to create the directory. *)
Theorem output_directory_of_an_item E os_name url :
  (forall segs,
     segs <> [] -> forallb no_slash segs = true -> url = Str.join (py "/") segs ->
     let name := Str.join (py "_") (Str.last_n 5 segs) in
     (forall stem, name = stem ++ py ".cab" -> path_suffix url = stem) /\
     ((forall stem, name <> stem ++ py ".cab") -> path_suffix url = name)) /\
  output_dir E os_name url = os_path_join E [BASE_DIR; os_name; path_suffix url] /\
  (forall st,
     fs st !! output_dir E os_name url = Some Dir ->
     os_makedirs (output_dir E os_name url) st = (Return tt, st)) /\
  (forall st,
     fs st !! output_dir E os_name url = None ->
     process_url E (os_name, PStr url)
       (State (<[output_dir E os_name url := Dir]> (fs st)) (out st)) =
     process_url E (os_name, PStr url) st).
Proof.
  split; [|split; [|split]].
  - intros segs Hne Hs ->. apply Paths.path_suffix_of_segments; assumption.
  - reflexivity.
  - intros st Hdir. unfold os_makedirs. rewrite Hdir. reflexivity.
  - intros st Hdir. unfold process_url, try_except_Exception. cbv zeta.
    cbn [as_str]. rewrite !Paths.bind_ret.
    set (st1 := State (<[output_dir E os_name url := Dir]> (fs st)) (out st)).
    rewrite (Paths.bind_step (os_makedirs (output_dir E os_name url)) _ st1 tt st1)
      by (unfold os_makedirs, st1; cbn [fs]; rewrite lookup_insert_eq; reflexivity).
    rewrite (Paths.bind_step (os_makedirs (output_dir E os_name url)) _ st tt st1)
      by (unfold os_makedirs; rewrite Hdir; reflexivity).
    reflexivity.
Qed.

Lemma output_directory_witness :
  path_suffix target = py "msdownload_update_2024_03_wsusscn2" /\
  output_dir offline (py "Win10") target =
    py "products/Win10/msdownload_update_2024_03_wsusscn2" /\
  os_makedirs (py "products/Win10/msdownload_update_2024_03_wsusscn2")
    (State {[ py "products/Win10/msdownload_update_2024_03_wsusscn2" := Dir ]} []) =
  (Return tt, State {[ py "products/Win10/msdownload_update_2024_03_wsusscn2" := Dir ]} []).
Proof.
  destruct (output_directory_of_an_item offline (py "Win10") target)
    as (Hname & Hdir & Hmk & _).
  split; [|split].
  - apply (proj1 (Hname [py "http:"; py ""; py "download.windowsupdate.com"; py "c";
                         py "msdownload"; py "update"; py "2024"; py "03";
                         py "wsusscn2.cab"]
                    ltac:(discriminate) eq_refl eq_refl)).
    reflexivity.
  - rewrite Hdir. reflexivity.
  - apply (Hmk (State {[ py "products/Win10/msdownload_update_2024_03_wsusscn2" := Dir ]} [])).
    reflexivity.
Defined.

(** C9: the name of the output directory is a function of the URL that is
    not injective: two URLs that differ before their last five segments,
    and two URLs that differ by a final [.cab], have the same output
    directory for every product, hence the same archive path. *)
Theorem output_directory_is_shared E os_name :
  let u1 := py "https://host/x/a/b/c/d/e.cab" in
  let u2 := py "https://host/y/a/b/c/d/e.cab" in
  let u3 := py "https://host/x/a/b/c/d/e" in
  u1 <> u2 /\ u1 <> u3 /\
  output_dir E os_name u1 = output_dir E os_name u2 /\
  cab_path E os_name u1 = cab_path E os_name u2 /\
  output_dir E os_name u1 = output_dir E os_name u3 /\
  cab_path E os_name u1 = cab_path E os_name u3.
Proof.
  intros u1 u2 u3.
  assert (path_suffix u1 = path_suffix u2) as H12 by reflexivity.
  assert (path_suffix u1 = path_suffix u3) as H13 by reflexivity.
  unfold cab_path, output_dir. rewrite <- H12, <- H13.
  repeat split; discriminate.
Qed.

(** * Further facts about work items, paths and the record *)

Module Items.

Lemma extract_unix_none E cab dir st st' :
  extract_cab_unix E cab dir st = (Return None, st') ->
  exists e, subprocess_run E [py "cabextract"; py "-d"; dir; cab] = RunRaises e /\
            isinstance_any e [CalledProcessError; FileNotFoundError; TimeoutExpired] = true.
Proof.
  unfold extract_cab_unix, try_except, bind at 1, run.
  destruct (subprocess_run E _) as [written|e]; [discriminate|].
  destruct (isinstance_any e _) eqn:He; [|discriminate].
  intros _. eauto.
Qed.

Lemma process_url_none E os_name url st st' :
  process_url E (os_name, url) st = (Return None, st') ->
  Str.startswith (sys_platform E) (py "win") = false /\
  exists u e,
    url = PStr u /\
    subprocess_run E [py "cabextract"; py "-d"; output_dir E os_name u; cab_path E os_name u]
      = RunRaises e /\
    isinstance_any e [CalledProcessError; FileNotFoundError; TimeoutExpired] = true.
Proof.
  unfold process_url, try_except_Exception.
  destruct url as [ | | |u| | ];
    try (unfold bind, as_str, raise, print, print_exc, ret; discriminate).
  unfold bind at 1. cbn [as_str ret]. cbv zeta. unfold bind at 1.
  destruct (os_makedirs _ st) as [[[]|e0] st1];
    [|unfold bind, print, print_exc, ret; discriminate].
  unfold bind at 1.
  destruct (download_cab E u _ st1) as [[[|]|e1] st2]; cbn [negb];
    [| unfold ret; discriminate | unfold bind, print, print_exc, ret; discriminate].
  unfold bind at 1.
  destruct (Str.startswith (sys_platform E) (py "win")) eqn:Hw.
  - destruct (extract_cab_windows E _ _ st2) as [[r|e2] st3] eqn:Hx;
      [|unfold bind, print, print_exc, ret; discriminate].
    apply Worker.extract_windows_bool in Hx. destruct r as [b|]; [|discriminate].
    unfold bind, os_path_exists, os_remove, print, print_exc, ret.
    destruct b; cbn [truthy andb]; repeat case_match; intros; simplify_eq.
  - destruct (extract_cab_unix E _ _ st2) as [[r|e2] st3] eqn:Hx;
      [|unfold bind, print, print_exc, ret; discriminate].
    destruct r as [b|].
    + unfold bind, os_path_exists, os_remove, print, print_exc, ret.
      destruct b; cbn [truthy andb]; repeat case_match; intros; simplify_eq.
    + intros _. split; [reflexivity|]. apply extract_unix_none in Hx.
      destruct Hx as (e & Hr & He). eauto 6.
Qed.


Lemma after_run_keeps_files written : forall (f : gmap str node) p c,
  f !! p = Some (File c) -> exists c', after_run written f !! p = Some (File c').
Proof.
  induction written as [|[q b] written IH]; intros f p c H; [eauto|].
  cbn [after_run fold_left fst snd]. destruct (decide (q = p)) as [->|Hne].
  - apply (IH _ p (Bytes b)). apply lookup_insert_eq.
  - apply (IH _ p c). rewrite lookup_insert_ne by assumption. exact H.
Qed.

Lemma after_run_frame written : forall (f : gmap str node) p,
  ~ In p (List.map fst written) -> after_run written f !! p = f !! p.
Proof.
  induction written as [|[q b] written IH]; intros f p H; [reflexivity|].
  cbn [after_run fold_left fst snd]. cbn [List.map fst In] in H.
  change (after_run written (<[q := File (Bytes b)]> f) !! p = f !! p).
  rewrite IH by tauto. apply lookup_insert_ne. tauto.
Qed.

Lemma makedirs_ready dir st :
  fs st !! dir = None \/ fs st !! dir = Some Dir ->
  os_makedirs dir st = (Return tt, State (<[dir := Dir]> (fs st)) (out st)).
Proof.
  unfold os_makedirs. intros [H|H]; rewrite H; [reflexivity|].
  rewrite insert_id by assumption. destruct st; reflexivity.
Qed.

Lemma run_command E cab dir :
  (if Str.startswith (sys_platform E) (py "win")
   then extract_cab_windows E cab dir else extract_cab_unix E cab dir) =
  try_except
    (run E (extraction_command E cab dir) >> ret (Some true))
    (handled_by_extractor E)
    (fun e =>
       print [Lit (py "Error extracting "); FStr cab;
              Lit (if Str.startswith (sys_platform E) (py "win")
                   then py " on Windows: " else py " on unix: "); FExc e] >>
       print_stderr e >>
       ret (if Str.startswith (sys_platform E) (py "win") then Some false else None)).
Proof.
  unfold extraction_command, handled_by_extractor, extract_cab_windows, extract_cab_unix.
  destruct (Str.startswith (sys_platform E) (py "win")); reflexivity.
Qed.

(** The item up to the extraction, when the directory can be made and the
    archive arrives. *)
Lemma process_url_downloaded E os_name url st chunks :
  fs st !! output_dir E os_name url = None \/ fs st !! output_dir E os_name url = Some Dir ->
  cab_path E os_name url <> output_dir E os_name url ->
  fs st !! cab_path E os_name url <> Some Dir ->
  requests_get E url (cab_path E os_name url) = StreamEnds chunks ->
  process_url E (os_name, PStr url) st =
  try_except_Exception
    (let* success :=
       try_except
         (run E (extraction_command E (cab_path E os_name url) (output_dir E os_name url)) >>
          ret (Some true))
         (handled_by_extractor E)
         (fun e =>
            print [Lit (py "Error extracting "); FStr (cab_path E os_name url);
                   Lit (if Str.startswith (sys_platform E) (py "win")
                        then py " on Windows: " else py " on unix: "); FExc e] >>
            print_stderr e >>
            ret (if Str.startswith (sys_platform E) (py "win") then Some false else None)) in
     let* still_there :=
       (if truthy success then os_path_exists (cab_path E os_name url) else ret false) in
     (if truthy success && still_there then os_remove (cab_path E os_name url) else ret tt) >>
     ret success)
    (fun e =>
       print [Lit (py "Error processing "); FVal (PStr url); Lit (py ": "); FExc e] >>
       print_exc e >>
       ret (Some false))
    (State (<[cab_path E os_name url := File (Bytes (concat chunks))]>
              (<[output_dir E os_name url := Dir]> (fs st)))
           (out st ++ [downloading_line url])).
Proof.
  intros Hdir Hne Hcab Hg. unfold process_url, try_except_Exception.
  unfold bind at 1. cbn [as_str ret]. cbv zeta. unfold bind at 1.
  rewrite (makedirs_ready _ st Hdir). unfold bind at 1.
  rewrite (Worker.download_completes E url _ chunks _ Hg)
    by (cbn [fs]; rewrite lookup_insert_ne by congruence; exact Hcab).
  cbn [negb fs out]. rewrite run_command. reflexivity.
Qed.

End Items.


Module Frame.

Lemma keeps_ret p {A} (a : A) : keeps p (ret a).
Proof. intros st o st' [= <- <-]. reflexivity. Qed.

Lemma keeps_raise p {A} e : keeps p (@raise A e).
Proof. intros st o st' [= <- <-]. reflexivity. Qed.

Lemma keeps_lift p {A} (o : outcome A) : keeps p (lift o).
Proof. intros st o' st' [= <- <-]. reflexivity. Qed.

Lemma keeps_print p line : keeps p (print line).
Proof. intros st o st' [= <- <-]. reflexivity. Qed.

Lemma keeps_print_exc p e : keeps p (print_exc e).
Proof. intros st o st' [= <- <-]. reflexivity. Qed.

Lemma keeps_exists p path : keeps p (os_path_exists path).
Proof. intros st o st' [= <- <-]. reflexivity. Qed.

Lemma keeps_bind p {A B} (m : M A) (k : A -> M B) :
  keeps p m -> (forall a, keeps p (k a)) -> keeps p (bind m k).
Proof.
  intros Hm Hk st o st' H. unfold bind in H.
  destruct (m st) as [[a|e] st1] eqn:Hm1.
  - rewrite (Hk a _ _ _ H). eapply Hm, Hm1.
  - injection H as <- <-. eapply Hm, Hm1.
Qed.

Lemma keeps_try_except p {A} (m : M A) classes handler :
  keeps p m -> (forall e, keeps p (handler e)) -> keeps p (try_except m classes handler).
Proof.
  intros Hm Hh st o st' H. unfold try_except in H.
  destruct (m st) as [[a|e] st1] eqn:Hm1.
  - injection H as <- <-. eapply Hm, Hm1.
  - destruct (isinstance_any e classes).
    + rewrite (Hh e _ _ _ H). eapply Hm, Hm1.
    + injection H as <- <-. eapply Hm, Hm1.
Qed.

Lemma keeps_try_except_Exception p {A} (m : M A) handler :
  keeps p m -> (forall e, keeps p (handler e)) -> keeps p (try_except_Exception m handler).
Proof.
  intros Hm Hh st o st' H. unfold try_except_Exception in H.
  destruct (m st) as [[a|e] st1] eqn:Hm1.
  - injection H as <- <-. eapply Hm, Hm1.
  - rewrite (Hh e _ _ _ H). eapply Hm, Hm1.
Qed.

Lemma keeps_write_file p path c : p <> path -> keeps p (write_file path c).
Proof.
  intros Hp st o st' H. unfold write_file in H.
  destruct (fs st !! path) as [[|c0]|]; injection H as <- <-; cbn [fs];
    try reflexivity; apply lookup_insert_ne; congruence.
Qed.

Lemma keeps_makedirs p path : p <> path -> keeps p (os_makedirs path).
Proof.
  intros Hp st o st' H. unfold os_makedirs in H.
  destruct (fs st !! path) as [[|c0]|]; injection H as <- <-; cbn [fs];
    try reflexivity; apply lookup_insert_ne; congruence.
Qed.

Lemma keeps_remove p path : p <> path -> keeps p (os_remove path).
Proof.
  intros Hp st o st' H. unfold os_remove in H.
  destruct (fs st !! path) as [[|c0]|]; injection H as <- <-; cbn [fs];
    try reflexivity; apply lookup_delete_ne; congruence.
Qed.

Lemma keeps_run p E argv :
  (forall written, subprocess_run E argv = RunCompleted written ->
                   ~ In p (List.map fst written)) ->
  keeps p (run E argv).
Proof.
  intros Hw st o st' H. unfold run in H.
  destruct (subprocess_run E argv) as [written|e]; injection H as <- <-; [|reflexivity].
  cbn [fs]. apply (Items.after_run_frame written (fs st) p). apply Hw. reflexivity.
Qed.

Create HintDb keeps.
#[export] Hint Resolve keeps_ret keeps_raise keeps_lift keeps_print keeps_print_exc
  keeps_exists keeps_write_file keeps_makedirs keeps_remove keeps_run : keeps.
#[export] Hint Extern 2 (keeps _ (bind _ _)) => apply keeps_bind; [|intro] : keeps.
#[export] Hint Extern 2 (keeps _ (try_except _ _ _)) =>
  apply keeps_try_except; [|intro] : keeps.
#[export] Hint Extern 2 (keeps _ (try_except_Exception _ _)) =>
  apply keeps_try_except_Exception; [|intro] : keeps.
#[export] Hint Extern 3 (keeps _ (match ?x with _ => _ end)) => destruct x : keeps.
#[export] Hint Extern 3 (keeps _ (if ?x then _ else _)) => destruct x : keeps.

Lemma keeps_print_stderr p e : keeps p (print_stderr e).
Proof. unfold print_stderr. auto 10 with keeps. Qed.

Lemma keeps_download p E url path : p <> path -> keeps p (download_cab E url path).
Proof. intros Hp. unfold download_cab, fetch. auto 12 with keeps. Qed.

Lemma keeps_load p E : keeps p (load_existing_data E).
Proof.
  unfold load_existing_data.
  assert (keeps p (read_text E JSON_FILE)) as Hread.
  { intros st o st' H. unfold read_text in H.
    repeat match type of H with
           | context [match ?x with _ => _ end] => destruct x
           end; injection H as <- <-; reflexivity. }
  auto 12 with keeps.
Qed.

Lemma keeps_bind_ret p {A B} (a : A) (k : A -> M B) :
  keeps p (k a) -> keeps p (bind (ret a) k).
Proof. intros H st o st' Hb. apply (H st o st'). exact Hb. Qed.

(** A worker touches its directory, its archive and what the
    extraction tool writes, and nothing else. *)
Lemma keeps_process_url p E os_name url :
  p <> output_dir E os_name url -> p <> cab_path E os_name url ->
  (forall written,
     subprocess_run E
       (extraction_command E (cab_path E os_name url) (output_dir E os_name url))
     = RunCompleted written -> ~ In p (List.map fst written)) ->
  keeps p (process_url E (os_name, PStr url)).
Proof.
  intros Hdir Hcab Hw. unfold process_url. cbv zeta.
  pose proof (keeps_print_stderr p). pose proof (keeps_download p E url _ Hcab).
  apply keeps_try_except_Exception; [|intro; auto 10 with keeps].
  cbn [as_str]. apply keeps_bind_ret. rewrite Items.run_command.
  auto 20 with keeps.
Qed.

Lemma keeps_process_url_other p E os_name url :
  (forall u, url <> PStr u) -> keeps p (process_url E (os_name, url)).
Proof.
  intros Hu. unfold process_url. cbv zeta.
  apply keeps_try_except_Exception; [|intro; auto 10 with keeps].
  destruct url; try (destruct (Hu _ eq_refl));
    intros st o st' [= <- <-]; reflexivity.
Qed.

End Frame.


Module Names.

Lemma no_slash_app a b : no_slash (a ++ b) = no_slash a && no_slash b.
Proof. apply forallb_app. Qed.

Lemma split_segments s : forallb no_slash (Str.split 47 s) = true.
Proof.
  induction s as [|c s IH]; [reflexivity|]. cbn [Str.split].
  destruct (N.eqb c 47) eqn:Hc; [exact IH|].
  destruct (Str.split 47 s) as [|w ws]; cbn [forallb no_slash] in *.
  - rewrite Hc. reflexivity.
  - rewrite Hc. exact IH.
Qed.

Lemma forallb_skipn {A} (f : A -> bool) n l :
  forallb f l = true -> forallb f (skipn n l) = true.
Proof.
  revert l. induction n as [|n IH]; intros l H; [exact H|].
  destruct l as [|a l]; [reflexivity|]. cbn [skipn]. apply IH.
  cbn [forallb] in H. apply andb_true_iff in H. apply H.
Qed.

Lemma forallb_firstn {A} (f : A -> bool) n l :
  forallb f l = true -> forallb f (firstn n l) = true.
Proof.
  revert l. induction n as [|n IH]; intros l H; [reflexivity|].
  destruct l as [|a l]; [reflexivity|]. cbn [firstn forallb] in *.
  apply andb_true_iff in H. destruct H as [Ha H]. rewrite Ha. apply IH, H.
Qed.

Lemma join_no_slash sep parts :
  no_slash sep = true -> forallb no_slash parts = true ->
  no_slash (Str.join sep parts) = true.
Proof.
  intros Hsep. induction parts as [|p parts IH]; intros H; [reflexivity|].
  cbn [forallb] in H. apply andb_true_iff in H. destruct H as [Hp H].
  destruct parts as [|q parts]; [exact Hp|].
  change (Str.join sep (p :: q :: parts)) with (p ++ sep ++ Str.join sep (q :: parts)).
  rewrite !no_slash_app, Hp, Hsep, (IH H). reflexivity.
Qed.

Lemma path_suffix_no_slash url : no_slash (path_suffix url) = true.
Proof.
  unfold path_suffix.
  assert (no_slash (Str.join (py "_") (Str.last_n 5 (Str.split 47 url))) = true) as H.
  { apply join_no_slash; [reflexivity|]. apply forallb_skipn, split_segments. }
  destruct (Str.endswith _ _); [|exact H]. apply forallb_firstn, H.
Qed.

Lemma no_slash_startswith s : no_slash s = true -> Str.startswith s (py "/") = false.
Proof.
  destruct s as [|c s]; [reflexivity|]. cbn [no_slash forallb]. intros H.
  apply andb_true_iff in H. destruct H as [Hc _]. apply negb_true_iff in Hc.
  change (py "/") with [47]. cbn [Str.startswith]. rewrite N.eqb_sym, Hc. reflexivity.
Qed.

Lemma no_slash_endswith s : no_slash s = true -> Str.endswith s (py "/") = false.
Proof.
  intros H. destruct (Str.endswith s (py "/")) eqn:He; [|reflexivity].
  apply Paths.endswith_inv in He. destruct He as [stem ->].
  rewrite no_slash_app in H. apply andb_true_iff in H. destruct H as [_ H]. discriminate H.
Qed.

Lemma endswith_last s c : Str.endswith (s ++ [c]) (py "/") = (47 =? c).
Proof.
  unfold Str.endswith. rewrite rev_app_distr. change (py "/") with [47].
  cbn [rev app Str.startswith]. apply andb_true_r.
Qed.

Lemma has_slash_app a b : has_slash (a ++ b) = has_slash a || has_slash b.
Proof. apply existsb_app. Qed.

Lemma no_slash_has_slash s : no_slash s = negb (has_slash s).
Proof.
  induction s as [|c s IH]; [reflexivity|]. cbn [no_slash has_slash forallb existsb].
  fold (no_slash s). fold (has_slash s). rewrite IH, negb_orb. reflexivity.
Qed.

End Names.


Module Posix.

Lemma startswith_has_slash s : Str.startswith s (py "/") = true -> has_slash s = true.
Proof.
  destruct s as [|c s]; [discriminate|]. change (py "/") with [47].
  cbn [Str.startswith has_slash existsb]. intros H. apply andb_true_iff in H.
  destruct H as [H _]. rewrite N.eqb_sym, H. reflexivity.
Qed.

Lemma step_has_slash path b : has_slash path = true -> has_slash (posix_step path b) = true.
Proof.
  intros H. unfold posix_step. destruct (Str.startswith b (py "/")) eqn:Hb.
  - apply startswith_has_slash, Hb.
  - destruct (_ || _); rewrite !Names.has_slash_app, H; reflexivity.
Qed.

Lemma join_base_has_slash a b : has_slash (posix_join [BASE_DIR; a; b]) = true.
Proof.
  cbn [posix_join posix_join_from]. apply (step_has_slash _ b).
  destruct (Str.startswith a (py "/")) eqn:Ha.
  - apply startswith_has_slash, Ha.
  - change (Str.eqb BASE_DIR [] || Str.endswith BASE_DIR (py "/")) with false.
    cbn match. rewrite !Names.has_slash_app. reflexivity.
Qed.

Lemma output_dir_has_slash E os_name url :
  os_path_join E = posix_join -> has_slash (output_dir E os_name url) = true.
Proof. intros H. unfold output_dir. rewrite H. apply join_base_has_slash. Qed.

Lemma cab_path_has_slash E os_name url :
  os_path_join E = posix_join -> has_slash (cab_path E os_name url) = true.
Proof.
  intros H. unfold cab_path. rewrite H. cbn [posix_join posix_join_from].
  apply (step_has_slash _ (py "archive.cab")), output_dir_has_slash, H.
Qed.

Lemma endswith_app_nonempty a b suffix :
  b <> [] -> Str.endswith (a ++ b) [suffix] = Str.endswith b [suffix].
Proof.
  intros Hb. unfold Str.endswith. rewrite rev_app_distr.
  destruct (rev b) as [|c r] eqn:Hr.
  - apply (f_equal (@rev N)) in Hr. rewrite rev_involutive in Hr. contradiction.
  - cbn [rev app Str.startswith]. rewrite !andb_true_r. reflexivity.
Qed.

Lemma str_eqb_app_nonempty a b : a <> [] -> Str.eqb (a ++ b) [] = false.
Proof.
  intros Ha. unfold Str.eqb. apply bool_decide_eq_false. intros H.
  apply app_eq_nil in H. tauto.
Qed.

End Posix.



Module Survival.
Import Frame.

Lemma keeps_mapM p {A B} (f : A -> M B) items :
  (forall a, keeps p (f a)) -> keeps p (mapM f items).
Proof.
  intros Hf. induction items as [|a items IH]; cbn [mapM]; auto 10 with keeps.
Qed.

Lemma keeps_worker_posix E args :
  os_path_join E = posix_join ->
  (forall argv written,
     subprocess_run E argv = RunCompleted written -> ~ In JSON_FILE (List.map fst written)) ->
  keeps JSON_FILE (process_url E args).
Proof.
  intros Hj Hw. destruct args as [os_name url].
  assert ((exists u, url = PStr u) \/ forall u, url <> PStr u) as [[u ->]|Hu]
    by (destruct url; eauto; right; discriminate).
  - apply keeps_process_url.
    + intros H. pose proof (Posix.output_dir_has_slash E os_name u Hj) as Hs.
      rewrite <- H in Hs. discriminate Hs.
    + intros H. pose proof (Posix.cab_path_has_slash E os_name u Hj) as Hs.
      rewrite <- H in Hs. discriminate Hs.
    + intros written. apply Hw.
  - apply keeps_process_url_other, Hu.
Qed.

Lemma record_phase_saved E st data st1 :
  record_phase E st = (Return data, st1) ->
  fs st1 !! JSON_FILE = Some (File (Text (Json.dumps data))).
Proof.
  unfold record_phase, bind. destruct (load_existing_data E st) as [[d0|e] st0]; [|discriminate].
  destruct (resolve E d0 st0) as [[d1|e] st2]; [|discriminate].
  unfold save_data, write_file. destruct (fs st2 !! JSON_FILE) as [[|c]|]; try discriminate;
    intros [= <- <-]; cbn [fs]; apply lookup_insert_eq.
Qed.

Lemma keeps_pool_and_summary E items :
  os_path_join E = posix_join ->
  (forall argv written,
     subprocess_run E argv = RunCompleted written -> ~ In JSON_FILE (List.map fst written)) ->
  keeps JSON_FILE
    (print [Lit (py "Processing "); FInt (Z.of_nat (length items));
            Lit (py " URLs with "); FInt MAX_WORKERS; Lit (py " workers")] >>
     let* results := mapM (process_url E) items in
     let* successful := lift (Py.sum results) in
     print [Lit (py "Processing complete. Successful: "); FInt successful;
            Lit (py "/"); FInt (Z.of_nat (length items))]).
Proof.
  intros Hj Hw.
  pose proof (keeps_mapM JSON_FILE (process_url E) items
                (fun a => keeps_worker_posix E a Hj Hw)).
  auto 20 with keeps.
Qed.

End Survival.



Module Settled.

(** A run that learns nothing prints no [Added new URL] line. *)
Lemma resolve_quiet E items d :
  is_record (PDict d) = true -> forallb (settled E (PDict d)) items = true ->
  forall st, exists lines,
    foldM (probe E) items (PDict d) st = (Return (PDict d), State (fs st) (out st ++ lines)) /\
    forall os_name location, ~ In (added_line os_name location) lines.
Proof.
  intros Hr. induction items as [|[os_name url] items IH]; intros Hs st.
  - exists []. rewrite app_nil_r. destruct st as [f o]. split; [reflexivity|]. intros ? ? [].
  - cbn [forallb] in Hs. apply andb_true_iff in Hs. destruct Hs as [Hitem Hs].
    assert (exists pre, probe E (PDict d) (os_name, url) st =
                        (Return (PDict d), State (fs st) (out st ++ pre)) /\
                        forall o l, ~ In (added_line o l) pre) as (pre & Hstep & Hpre).
    { unfold settled in Hitem. cbn [fst snd] in Hitem.
      destruct (requests_head E url) as [e|[[|c l]|]] eqn:Hh.
      - eexists. split; [apply Resolver.probe_request_exception; [exact Hh|exact Hitem]|].
        intros o l0 [H|[]]. discriminate H.
      - eexists. split; [apply Resolver.probe_empty_header; assumption|].
        intros o l0 [H|[]]. discriminate H.
      - rewrite (Resolver.probe_record E os_name url st c l Hh d Hr).
        destruct (entry (PDict d) os_name (c :: l)) as [x|] eqn:He; [|discriminate].
        exists []. rewrite app_nil_r. split; [|intros ? ? []].
        destruct st as [f o]. cbn [fs out]. f_equal. f_equal. f_equal.
        unfold record_with. unfold entry in He.
        destruct (Dict.get os_name d) as [[ | | | | | urls]|]; try discriminate He.
        unfold Dict.mem. rewrite He. reflexivity.
      - eexists. split; [apply Resolver.probe_no_header; assumption|].
        intros o l0 [H|[]]. discriminate H. }
    destruct (IH Hs (State (fs st) (out st ++ pre))) as (lines & Hrun & Hlines).
    exists (pre ++ lines). cbn [foldM]. unfold bind. rewrite Hstep, Hrun.
    cbn [fs out]. rewrite <- app_assoc. split; [reflexivity|].
    intros o l0 Hin. apply in_app_or in Hin. destruct Hin as [Hin|Hin].
    + apply (Hpre _ _ Hin).
    + apply (Hlines _ _ Hin).
Qed.

(** What a resolution has recorded is settled for every later one that
    gets the same answers. *)
Lemma resolved_is_settled E E' d d' :
  forallb (item_ok E) URLS = true ->
  (forall url, requests_head E' url = requests_head E url) ->
  (forall product u,
     entry (PDict d') product u =
     match entry (PDict d) product u with
     | Some x => Some x
     | None => if observed E URLS product u then Some (stamp E product) else None
     end) ->
  forallb (settled E' (PDict d')) URLS = true.
Proof.
  intros Hw Hsame Hentry.
  apply forallb_forall. intros [os_name url] Hin. unfold settled. cbn [fst snd].
  rewrite Hsame. rewrite forallb_forall in Hw. specialize (Hw _ Hin).
  unfold item_ok in Hw. cbn [fst snd] in Hw.
  apply andb_true_iff in Hw. destruct Hw as [Hw _].
  apply andb_true_iff in Hw. destruct Hw as [_ Hh].
  destruct (requests_head E url) as [e|[[|c l]|]] eqn:Hhead; try reflexivity; [exact Hh|].
  rewrite Hentry.
  destruct (entry (PDict d) os_name (c :: l)); [reflexivity|].
  assert (observed E URLS os_name (c :: l) = true) as ->; [|reflexivity].
  unfold observed. apply existsb_exists. exists (os_name, url). split; [exact Hin|].
  unfold reports. cbn [fst snd]. rewrite Hhead, !DictFacts.str_eqb_refl. reflexivity.
Qed.

End Settled.



Module Loading.

Lemma load_cases E st :
  load_existing_data E st =
  match fs st !! JSON_FILE with
  | None => (Return (PDict []), st)
  | Some Dir => (Raise (Exn OSError JSON_FILE None), st)
  | Some (File c) =>
      match (match c with Text s => Some s | Bytes b => text_decode E b end) with
      | None => (Raise (Exn UnicodeDecodeError JSON_FILE None), st)
      | Some text =>
          match Json.loads text with
          | Some v => (Return v, st)
          | None => (Return (PDict []), logged st invalid_json_line)
          end
      end
  end.
Proof.
  unfold load_existing_data, bind. rewrite Store.exists_iff.
  unfold try_except, bind, read_text.
  destruct (fs st !! JSON_FILE) as [[|[text|b]]|] eqn:Hf; rewrite ?Hf; try reflexivity.
  - destruct (Json.loads text); reflexivity.
  - destruct (text_decode E b) as [text|]; [|reflexivity].
    destruct (Json.loads text); reflexivity.
Qed.

End Loading.



Module WorkList.

Lemma mem_in_keys {V} k (d : list (str * V)) :
  Dict.mem k d = true <-> In k (Dict.keys d).
Proof.
  unfold Dict.mem, Dict.keys. induction d as [|[k' v] d IH]; cbn [Dict.get List.map fst In].
  - split; [discriminate|tauto].
  - destruct (Str.eqb k k') eqn:Hk.
    + apply DictFacts.str_eqb_eq in Hk. subst k'. tauto.
    + apply DictFacts.str_eqb_neq in Hk. rewrite IH. split; [tauto|].
      intros [H|H]; [congruence|exact H].
Qed.

Lemma in_get {V} k (v : V) d :
  unique_keys d = true -> In (k, v) d -> Dict.get k d = Some v.
Proof.
  induction d as [|[k' v'] d IH]; intros Hu Hin; [destruct Hin|].
  cbn [unique_keys] in Hu. apply andb_true_iff in Hu. destruct Hu as [Hk Hu].
  apply negb_true_iff in Hk. cbn [Dict.get]. destruct Hin as [[= -> ->]|Hin].
  - rewrite DictFacts.str_eqb_refl. reflexivity.
  - destruct (Str.eqb k k') eqn:He; [|apply IH; assumption].
    apply DictFacts.str_eqb_eq in He. subst k'.
    unfold Dict.mem in Hk. rewrite (IH Hu Hin) in Hk. discriminate Hk.
Qed.

Lemma keys_nodup {V} (d : list (str * V)) : unique_keys d = true -> List.NoDup (Dict.keys d).
Proof.
  induction d as [|[k v] d IH]; intros Hu; [apply List.NoDup_nil|].
  cbn [unique_keys] in Hu. apply andb_true_iff in Hu. destruct Hu as [Hk Hu].
  cbn [Dict.keys List.map fst]. apply List.NoDup_cons; [|apply IH, Hu].
  intros Hin. apply mem_in_keys in Hin. rewrite Hin in Hk. discriminate Hk.
Qed.

Lemma in_work_items d os_name url :
  In (os_name, url) (work_items d) <->
  exists urls u, In (os_name, PDict urls) d /\ url = PStr u /\ In u (Dict.keys urls).
Proof.
  unfold work_items. rewrite in_flat_map. split.
  - intros ([k v] & Hkv & Hin). cbn [fst snd] in Hin.
    destruct v as [ | | | | |urls]; try destruct Hin.
    apply in_map_iff in Hin. destruct Hin as (u & [= <- <-] & Hu). eauto.
  - intros (urls & u & Hd & -> & Hu). exists (os_name, PDict urls). split; [exact Hd|].
    cbn [fst snd]. apply in_map_iff. eauto.
Qed.

Lemma work_items_nodup d :
  is_record (PDict d) = true -> List.NoDup (work_items d).
Proof.
  cbn [is_record]. intros H. apply andb_true_iff in H. destruct H as [Hu Hall].
  induction d as [|[k v] d IH]; [apply List.NoDup_nil|].
  cbn [unique_keys] in Hu. apply andb_true_iff in Hu. destruct Hu as [Hk Hu].
  cbn [forallb fst snd] in Hall. apply andb_true_iff in Hall. destruct Hall as [Hv Hall].
  apply andb_true_iff in Hv. destruct Hv as [_ Hv].
  destruct v as [ | | | | |urls]; try discriminate Hv.
  change (work_items ((k, PDict urls) :: d))
    with (List.map (fun u => (k, PStr u)) (Dict.keys urls) ++ work_items d).
  apply List.NoDup_app.
  - apply Finite.Injective_map_NoDup; [intros a b [=]; assumption|].
    apply keys_nodup. cbn [is_urls] in Hv. apply andb_true_iff in Hv. apply Hv.
  - apply IH; assumption.
  - intros x Hx Hin. apply in_map_iff in Hx. destruct Hx as (u & <- & Hx).
    apply in_work_items in Hin. destruct Hin as (urls' & u' & Hd & _ & _).
    apply negb_true_iff in Hk. apply DictFacts.get_mem in Hk.
    apply (in_get _ _ _ Hu) in Hd. congruence.
Qed.

End WorkList.



Module Pool.

Lemma pool_booleans E items :
  (forall args st st', process_url E args st <> (Return None, st')) ->
  forall st results st',
    mapM (process_url E) items st = (Return results, st') ->
    forallb is_bool results = true.
Proof.
  intros Hb. induction items as [|item items IH]; intros st results st' H.
  - cbn in H. injection H as <- _. reflexivity.
  - cbn [mapM] in H. unfold bind at 1 in H.
    destruct (process_url E item st) as [[[b|]|e] st1] eqn:Hr; [| |discriminate].
    + unfold bind at 1 in H.
      destruct (mapM (process_url E) items st1) as [[rs|e] st2] eqn:Hrs; [|discriminate].
      unfold ret in H. injection H as <- _. cbn [forallb is_bool]. eapply IH, Hrs.
    + destruct (Hb _ _ _ Hr).
Qed.

Lemma successes_bounds results :
  (0 <= successes results <= Z.of_nat (length results))%Z.
Proof.
  unfold successes. pose proof (List.filter_length_le truthy results). lia.
Qed.

End Pool.


Module Probing.
Import Frame.

Lemma keeps_probe p E data item : keeps p (probe E data item).
Proof.
  destruct item as [os_name url]. unfold probe. auto 30 with keeps.
Qed.

Lemma probe_fs E data item st : fs (snd (probe E data item st)) = fs st.
Proof.
  apply map_eq. intros p. destruct (probe E data item st) as [o st'] eqn:H.
  apply (keeps_probe p E data item st o st' H).
Qed.

Lemma keeps_resolve p E items : forall data, keeps p (foldM (probe E) items data).
Proof.
  induction items as [|item items IH]; intros data; cbn [foldM].
  - auto with keeps.
  - apply keeps_bind; [apply keeps_probe|exact IH].
Qed.

Lemma resolve_aborts E os_name url e items :
  In (os_name, url) items ->
  requests_head E url = HeadRaises e -> isinstance e RequestException = false ->
  forall data st, exists e' st', foldM (probe E) items data st = (Raise e', st').
Proof.
  intros Hin Hh He. induction items as [|item items IH]; [destruct Hin|].
  intros data st. cbn [foldM]. unfold bind. destruct Hin as [->|Hin].
  - rewrite (Resolver.probe_other_exception E os_name url st data e Hh He). eauto.
  - destruct (probe E data item st) as [[data1|e1] st1]; [|eauto].
    apply (IH Hin).
Qed.

End Probing.



Module Growth.

Lemma grows_refl d : grows_from d d.
Proof.
  split; [exists []; rewrite app_nil_r; reflexivity|].
  intros product urls H. exists []. rewrite app_nil_r. exact H.
Qed.

Lemma grows_trans d1 d2 d3 : grows_from d1 d2 -> grows_from d2 d3 -> grows_from d1 d3.
Proof.
  intros [[m1 H1] G1] [[m2 H2] G2]. split.
  - exists (m1 ++ m2). rewrite H2, H1, app_assoc. reflexivity.
  - intros product urls H. destruct (G1 _ _ H) as [n1 Hn1].
    destruct (G2 _ _ Hn1) as [n2 Hn2]. exists (n1 ++ n2). rewrite Hn2, app_assoc.
    reflexivity.
Qed.

Lemma keys_set_present {V} k (v : V) d :
  Dict.mem k d = true -> Dict.keys (Dict.set k v d) = Dict.keys d.
Proof.
  unfold Dict.mem, Dict.keys. induction d as [|[k' v'] d IH]; [discriminate|].
  cbn [Dict.get Dict.set]. destruct (Str.eqb k k'); [reflexivity|].
  intros H. cbn [List.map fst]. rewrite IH by exact H. reflexivity.
Qed.

Lemma grows_record_with d os_name location s :
  grows_from d (record_with d os_name location s).
Proof.
  unfold record_with. destruct (Dict.get os_name d) as [v|] eqn:Hd.
  - destruct v as [ | | | | |urls0]; try apply grows_refl.
    destruct (Dict.mem location urls0) eqn:Hm; [apply grows_refl|].
    split.
    + exists []. rewrite app_nil_r. apply keys_set_present.
      unfold Dict.mem. rewrite Hd. reflexivity.
    + intros product urls H. destruct (decide (product = os_name)) as [->|Hne].
      * rewrite DictFacts.get_set_same. rewrite Hd in H. injection H as ->.
        exists [(location, s)]. rewrite DictFacts.dict_set_fresh by exact Hm. reflexivity.
      * exists []. rewrite app_nil_r, DictFacts.get_set_other by exact Hne. exact H.
  - assert (Dict.mem os_name d = false) as Hm by (apply DictFacts.get_mem, Hd).
    rewrite DictFacts.dict_set_fresh by exact Hm. split.
    + eexists. unfold Dict.keys. rewrite List.map_app. reflexivity.
    + intros product urls H. exists []. rewrite app_nil_r.
      rewrite <- (DictFacts.dict_set_fresh os_name (PDict [(location, s)]) d Hm).
      rewrite DictFacts.get_set_other; [exact H|]. intros ->. congruence.
Qed.

Lemma resolve_grows E items :
  forallb (item_ok E) items = true ->
  forall d st, is_record (PDict d) = true ->
  exists d' lines,
    foldM (probe E) items (PDict d) st = (Return (PDict d'), State (fs st) (out st ++ lines)) /\
    grows_from d d'.
Proof.
  induction items as [|[os_name url] items IH]; intros Hok d st Hr.
  - exists d, []. cbn [foldM]. unfold ret. rewrite app_nil_r. destruct st as [f o].
    split; [reflexivity|apply grows_refl].
  - cbn [forallb] in Hok. apply andb_true_iff in Hok. destruct Hok as [Hitem Hok].
    unfold item_ok in Hitem. cbn [fst snd] in Hitem.
    apply andb_true_iff in Hitem. destruct Hitem as [Hitem Hclock].
    apply andb_true_iff in Hitem. destruct Hitem as [Hos Hhead].
    assert (exists d1 pre,
               probe E (PDict d) (os_name, url) st =
               (Return (PDict d1), State (fs st) (out st ++ pre)) /\
               is_record (PDict d1) = true /\ grows_from d d1) as (d1 & pre & Hstep & Hr1 & Hg1).
    { destruct (requests_head E url) as [e|[[|c l]|]] eqn:Hh.
      - exists d. eexists. split; [apply Resolver.probe_request_exception; [exact Hh|exact Hhead]|].
        split; [exact Hr|apply grows_refl].
      - exists d. eexists. split; [apply Resolver.probe_empty_header; exact Hh|].
        split; [exact Hr|apply grows_refl].
      - cbn [head_ok] in Hhead.
        rewrite (Resolver.probe_record E os_name url st c l Hh d Hr).
        exists (record_with d os_name (c :: l) (stamp E os_name)).
        assert (exists pre,
                   match entry (PDict d) os_name (c :: l) with
                   | Some _ => st
                   | None => logged st (added_line os_name (c :: l))
                   end = State (fs st) (out st ++ pre)) as [pre ->].
        { destruct (entry (PDict d) os_name (c :: l)).
          - exists []. rewrite app_nil_r. destruct st as [f o]; reflexivity.
          - eexists. reflexivity. }
        exists pre. split; [reflexivity|]. split; [|apply grows_record_with].
        apply Resolver.is_record_record_with; try assumption.
        apply Resolver.text_ok_isoformat.
      - exists d. eexists. split; [apply Resolver.probe_no_header; exact Hh|].
        split; [exact Hr|apply grows_refl]. }
    destruct (IH Hok d1 (State (fs st) (out st ++ pre)) Hr1) as (d' & lines & Hrun & Hg).
    exists d', (pre ++ lines). cbn [foldM]. unfold bind. rewrite Hstep, Hrun.
    cbn [fs out]. rewrite <- app_assoc. split; [reflexivity|].
    eapply grows_trans; eassumption.
Qed.

End Growth.


Module Files.

Lemma same_files_insert_file f1 f2 q c :
  same_files f1 f2 -> same_files (<[q := File c]> f1) (<[q := File c]> f2).
Proof.
  intros H p c'. destruct (decide (q = p)) as [->|Hne].
  - rewrite !lookup_insert_eq. reflexivity.
  - rewrite !lookup_insert_ne by assumption. apply H.
Qed.

Lemma same_files_after_run written :
  forall f1 f2, same_files f1 f2 -> same_files (after_run written f1) (after_run written f2).
Proof.
  induction written as [|[q b] written IH]; intros f1 f2 H; [exact H|].
  cbn [after_run fold_left fst snd]. apply (IH _ _ (same_files_insert_file _ _ q _ H)).
Qed.

Lemma same_files_mkdir (f : gmap str node) dir :
  f !! dir = None \/ f !! dir = Some Dir -> same_files (<[dir := Dir]> f) f.
Proof.
  intros Hd p c. destruct (decide (dir = p)) as [->|Hne].
  - rewrite lookup_insert_eq. destruct Hd as [-> | ->]; split; discriminate.
  - rewrite lookup_insert_ne by assumption. reflexivity.
Qed.

Lemma after_run_other written p q :
  p <> q ->
  forall n (f : gmap str node), after_run written (<[q := n]> f) !! p = after_run written f !! p.
Proof.
  intros Hp. induction written as [|[k b] written IH]; intros n f.
  - apply lookup_insert_ne. congruence.
  - cbn [after_run fold_left fst snd]. destruct (decide (k = q)) as [->|Hk].
    + rewrite insert_insert_eq. reflexivity.
    + rewrite insert_insert_ne by congruence. apply (IH n (<[k := File (Bytes b)]> f)).
Qed.

End Files.

Module Downloads.
Lemma download_true E url path st st' :
  download_cab E url path st = (Return true, st') ->
  exists chunks,
    requests_get E url path = StreamEnds chunks /\
    fs st' !! path = Some (File (Bytes (concat chunks))).
Proof.
  unfold download_cab, fetch.
  destruct (requests_get E url path) as [e|chunks e|chunks];
    unfold try_except, bind, print, write_file, raise, ret; cbn [fs out].
  - destruct (isinstance_any e [RequestException]); intros [=].
  - destruct (fs st !! path) as [[|c]|]; repeat case_match; intros [=].
  - destruct (fs st !! path) as [[|c]|]; intros [= <-]; exists chunks; cbn [fs];
      (split; [reflexivity|apply lookup_insert_eq]).
Qed.
End Downloads.


Module Unusable.

Lemma in_set_other {V} k (b : V) os_name v d :
  In (k, b) d -> (k = os_name -> Dict.get os_name d <> Some b) ->
  In (k, b) (Dict.set os_name v d).
Proof.
  induction d as [|[k' v'] d IH]; intros Hin Hne; [destruct Hin|].
  cbn [Dict.set]. cbn [Dict.get] in Hne. destruct (Str.eqb os_name k') eqn:Hk.
  - apply DictFacts.str_eqb_eq in Hk. subst k'. destruct Hin as [[= <- <-]|Hin].
    + destruct (Hne eq_refl eq_refl).
    + right. exact Hin.
  - destruct Hin as [Hin|Hin]; [left; exact Hin|]. right. apply IH; assumption.
Qed.

(** A value that cannot be iterated over stays in the record, whatever
    the answer to a probe. *)
Lemma probe_keeps_value E d item st k b :
  In (k, b) d -> iterable b = false ->
  (exists d' st', probe E (PDict d) item st = (Return (PDict d'), st') /\ In (k, b) d') \/
  (exists e st', probe E (PDict d) item st = (Raise e, st')).
Proof.
  intros Hin Hb. destruct item as [os_name url].
  destruct (requests_head E url) as [e|[[|c l]|]] eqn:Hh.
  - destruct (isinstance e RequestException) eqn:He.
    + left. eexists _, _. split; [apply Resolver.probe_request_exception; eassumption|exact Hin].
    + right. eexists _, _. apply Resolver.probe_other_exception; eassumption.
  - left. eexists _, _. split; [apply Resolver.probe_empty_header; eassumption|exact Hin].
  - unfold probe, try_except, bind, lift, Py.contains, Py.getitem, Py.setitem, print, ret.
    rewrite Hh. unfold Dict.mem.
    destruct (Dict.get os_name d) as [v|] eqn:Hd; cbn [negb]; rewrite ?Hd.
    + destruct v as [ | | | s | items | urls];
        try (right; eauto; fail).
      * destruct (Str.contains s (c :: l)); cbn [negb]; rewrite ?Hd; [left|right]; eauto.
      * destruct (existsb (Py.is_str (c :: l)) items); cbn [negb]; rewrite ?Hd;
          [left|right]; eauto.
      * left. destruct (Dict.get (c :: l) urls); cbn [negb]; rewrite ?Hd.
        -- eexists _, _. split; [reflexivity|exact Hin].
        -- eexists _, _. split; [reflexivity|].
           apply in_set_other; [exact Hin|]. intros _ H. rewrite Hd in H.
           injection H as <-. discriminate Hb.
    + left. rewrite !DictFacts.get_set_same. cbn [Dict.get negb].
      rewrite ?DictFacts.get_set_same. eexists _, _. split; [reflexivity|].
      apply in_set_other.
      * apply in_set_other; [exact Hin|]. intros ->. rewrite Hd. discriminate.
      * intros _. rewrite DictFacts.get_set_same. intros [= <-]. discriminate Hb.
  - left. eexists _, _. split; [apply Resolver.probe_no_header; eassumption|exact Hin].
Qed.

Lemma resolve_keeps_value E items k b :
  iterable b = false ->
  forall d st, In (k, b) d ->
    (exists d' st', foldM (probe E) items (PDict d) st = (Return (PDict d'), st') /\
                    In (k, b) d') \/
    (exists e st', foldM (probe E) items (PDict d) st = (Raise e, st')).
Proof.
  intros Hb. induction items as [|item items IH]; intros d st Hin.
  - left. exists d, st. split; [reflexivity|exact Hin].
  - cbn [foldM]. unfold bind.
    destruct (probe_keeps_value E d item st k b Hin Hb)
      as [(d1 & st1 & Hstep & Hin1)|(e & st1 & Hstep)]; rewrite Hstep.
    + apply (IH d1 st1 Hin1).
    + right. eauto.
Qed.

Lemma flatten_raises d k b :
  In (k, b) d -> iterable b = false -> exists e, flatten d = Raise e.
Proof.
  intros Hin Hb. induction d as [|[k' v] d IH]; [destruct Hin|].
  cbn [flatten]. destruct Hin as [[= -> ->]|Hin].
  - destruct b; try discriminate Hb; cbn; eauto.
  - destruct (Py.iter v) as [urls|e]; [|eauto].
    destruct (IH Hin) as [e ->]. eauto.
Qed.

Lemma not_all_iterable d :
  forallb (fun kv : str * pyval => iterable (snd kv)) d = false ->
  exists k b, In (k, b) d /\ iterable b = false.
Proof.
  induction d as [|[k v] d IH]; [discriminate|]. cbn [forallb snd].
  destruct (iterable v) eqn:Hv.
  - intros H. destruct (IH H) as (k' & b & Hin & Hb). exists k', b. split; [right|]; assumption.
  - intros _. exists k, v. split; [left; reflexivity|exact Hv].
Qed.

(** After a value that cannot hold URLs is loaded, [main] raises. *)
Lemma main_raises E st v :
  load_existing_data E st = (Return v, st) ->
  object_of_iterables v = false ->
  exists e st', main E st = (Raise e, st').
Proof.
  intros Hload Hv. unfold main. unfold bind at 1. rewrite Hload. unfold bind at 1.
  unfold resolve. destruct (is_dict v) eqn:Hd.
  - destruct v as [ | | | | |d]; try discriminate Hd. cbn [object_of_iterables] in Hv.
    destruct (not_all_iterable d Hv) as (k & b & Hin & Hb).
    destruct (resolve_keeps_value E URLS k b Hb d st Hin)
      as [(d' & st' & Hrun & Hin')|(e & st' & Hrun)]; rewrite Hrun; [|eauto].
    unfold bind at 1. destruct (save_data (PDict d') st') as [[[]|e] st2]; [|eauto].
    destruct (flatten_raises d' k b Hin' Hb) as [e He].
    unfold bind, lift, url_list, Py.items. rewrite He. eauto.
  - destruct (Shape.resolve_non_dict E v URLS Hd st) as [[lines Hrun]|(e & st' & Hrun)];
      rewrite Hrun; [|eauto].
    unfold bind at 1. destruct (save_data v _) as [[[]|e] st2]; [|eauto].
    destruct (Shape.url_list_non_dict v Hd) as [e He].
    unfold bind, lift. rewrite He. eauto.
Qed.

End Unusable.


Module Additive.
Import Frame.





End Additive.

(** * Further properties of the program *)

(** * Work items, one by one *)

(** X1: a worker returns [None] only through the Unix extractor.  When
    [process_url] returns [None], the host is not Windows, the URL is a
    string, its archive was downloaded in full and is still on disk, and
    [cabextract] raised one of the three exceptions that
    [extract_cab_unix] handles: on Windows, and for every other failure, a
    result is a boolean. *)
Theorem none_comes_from_the_unix_extractor E os_name url st st' :
  process_url E (os_name, url) st = (Return None, st') ->
  Str.startswith (sys_platform E) (py "win") = false /\
  exists u chunks e,
    url = PStr u /\
    requests_get E u (cab_path E os_name u) = StreamEnds chunks /\
    subprocess_run E
      [py "cabextract"; py "-d"; output_dir E os_name u; cab_path E os_name u]
    = RunRaises e /\
    isinstance_any e [CalledProcessError; FileNotFoundError; TimeoutExpired] = true /\
    fs st' !! cab_path E os_name u = Some (File (Bytes (concat chunks))).
Proof.
  intros Hnone.
  destruct (Items.process_url_none E os_name url st st' Hnone) as (Hw & u & e & -> & Hrun & He).
  split; [exact Hw|]. exists u.
  revert Hnone. unfold process_url, try_except_Exception.
  unfold bind at 1. cbn [as_str ret]. cbv zeta. unfold bind at 1.
  destruct (os_makedirs _ st) as [[[]|e0] st1];
    [|unfold bind, print, print_exc, ret; discriminate].
  unfold bind at 1.
  destruct (download_cab E u _ st1) as [[[|]|e1] st2] eqn:Hdl; cbn [negb];
    [| unfold ret; discriminate | unfold bind, print, print_exc, ret; discriminate].
  apply Downloads.download_true in Hdl. destruct Hdl as (chunks & Hg & Hfile).
  unfold bind at 1. rewrite Hw.
  unfold extract_cab_unix, try_except, bind at 1, run. rewrite Hrun, He.
  unfold bind, print, print_stderr, print, ret.
  destruct (exc_stderr e) as [[|c s]|]; cbn [truthy andb fs out];
    intros [= <-]; exists chunks, e; cbn [fs]; auto.
Qed.

Lemma none_comes_from_the_unix_extractor_witness :
  exists chunks e,
    requests_get unix_extraction_fails target
      (cab_path unix_extraction_fails (py "Win10") target) = StreamEnds chunks /\
    isinstance_any e [CalledProcessError; FileNotFoundError; TimeoutExpired] = true.
Proof.
  destruct (none_comes_from_the_unix_extractor unix_extraction_fails (py "Win10") (PStr target)
              empty_state
              (snd (process_url unix_extraction_fails (py "Win10", PStr target) empty_state)))
    as (_ & u & chunks & e & Hu & Hg & _ & He & _).
  - vm_compute. reflexivity.
  - injection Hu as <-. exists chunks, e. split; [exact Hg|exact He].
Defined.

(** X2: when the output directory is there, the archive arrives and the
    extraction tool of the host completes, the item returns [True], prints
    the download line only, and the archive is removed; every other file
    is as the tool left it. *)
Theorem successful_item_removes_the_archive E os_name url st chunks written :
  fs st !! output_dir E os_name url = Some Dir ->
  cab_path E os_name url <> output_dir E os_name url ->
  fs st !! cab_path E os_name url <> Some Dir ->
  requests_get E url (cab_path E os_name url) = StreamEnds chunks ->
  subprocess_run E (extraction_command E (cab_path E os_name url) (output_dir E os_name url))
    = RunCompleted written ->
  exists st',
    process_url E (os_name, PStr url) st = (Return (Some true), st') /\
    fs st' !! cab_path E os_name url = None /\
    (forall p c, p <> cab_path E os_name url ->
       fs st' !! p = Some (File c) <-> after_run written (fs st) !! p = Some (File c)) /\
    out st' = out st ++ [downloading_line url].
Proof.
  intros Hdir Hne Hcab Hg Hrun.
  rewrite (Items.process_url_downloaded E os_name url st chunks (or_intror Hdir) Hne Hcab Hg).
  set (cab := cab_path E os_name url) in *. set (dir := output_dir E os_name url) in *.
  set (f1 := <[cab := File (Bytes (concat chunks))]> (<[dir := Dir]> (fs st))).
  destruct (Items.after_run_keeps_files written f1 cab (Bytes (concat chunks))) as [c' Hc'];
    [apply lookup_insert_eq|].
  exists (State (delete cab (after_run written f1)) (out st ++ [downloading_line url])).
  split; [|split; [|split]].
  - unfold try_except_Exception, try_except, bind at 1, bind at 1, run.
    rewrite Hrun. cbn [fs out ret]. unfold bind at 1. cbn [truthy].
    unfold os_path_exists at 1. cbn [fs out]. fold (after_run written f1). rewrite Hc'.
    rewrite bool_decide_true by eauto. cbn [andb]. unfold bind, os_remove. cbn [fs out].
    rewrite Hc'. reflexivity.
  - cbn [fs]. apply lookup_delete_eq.
  - intros p c Hp. cbn [fs]. rewrite lookup_delete_ne by congruence.
    unfold f1. rewrite (Files.after_run_other written p cab Hp).
    apply Files.same_files_after_run, Files.same_files_mkdir. right. exact Hdir.
  - reflexivity.
Qed.

Lemma successful_item_witness :
  exists st',
    process_url extraction_works (py "Win10", PStr target) (ready_for extraction_works) =
      (Return (Some true), st') /\
    fs st' !! cab_path extraction_works (py "Win10") target = None /\
    fs st' !! (target_dir ++ py "/products.xml") = Some (File (Bytes [60; 120; 47; 62])).
Proof.
  destruct (successful_item_removes_the_archive extraction_works (py "Win10") target
              (ready_for extraction_works) archive_chunks
              [(target_dir ++ py "/products.xml", [60; 120; 47; 62])])
    as (st' & Hr & Hcab & Hfiles & _).
  - reflexivity.
  - vm_compute. discriminate.
  - vm_compute. discriminate.
  - reflexivity.
  - reflexivity.
  - exists st'. split; [exact Hr|]. split; [exact Hcab|].
    apply Hfiles; [vm_compute; discriminate|]. reflexivity.
Defined.

(** X3: with the output directory there and the archive downloaded, an
    exception of the extraction tool that the extractor of the host does
    not handle (on Windows, [FileNotFoundError] when [expand] is missing)
    is caught by [process_url]: the item returns [False], prints its error
    line and the traceback after the download line, and keeps the
    archive. *)
Theorem unhandled_extraction_error E os_name url st chunks e :
  fs st !! output_dir E os_name url = Some Dir ->
  cab_path E os_name url <> output_dir E os_name url ->
  fs st !! cab_path E os_name url <> Some Dir ->
  requests_get E url (cab_path E os_name url) = StreamEnds chunks ->
  subprocess_run E (extraction_command E (cab_path E os_name url) (output_dir E os_name url))
    = RunRaises e ->
  isinstance_any e (handled_by_extractor E) = false ->
  exists st',
    process_url E (os_name, PStr url) st = (Return (Some false), st') /\
    fs st' !! cab_path E os_name url = Some (File (Bytes (concat chunks))) /\
    out st' = out st ++ [downloading_line url; error_processing_line (PStr url) e; PrintExc e].
Proof.
  intros Hdir Hne Hcab Hg Hrun He.
  rewrite (Items.process_url_downloaded E os_name url st chunks (or_intror Hdir) Hne Hcab Hg).
  unfold try_except_Exception, try_except, bind at 1, bind at 1, run.
  rewrite Hrun, He. unfold bind, print, print_exc, ret. cbn [fs out].
  eexists. split; [reflexivity|]. cbn [fs out]. split; [apply lookup_insert_eq|].
  rewrite <- !app_assoc. reflexivity.
Qed.

Lemma unhandled_extraction_error_witness :
  isinstance_any (Exn FileNotFoundError (py "expand") None)
    (handled_by_extractor expand_missing) = false /\
  exists st',
    process_url expand_missing (py "Win10", PStr target) (ready_for expand_missing) =
      (Return (Some false), st') /\
    fs st' !! cab_path expand_missing (py "Win10") target =
      Some (File (Bytes [77; 83; 67; 70])).
Proof.
  assert (isinstance_any (Exn FileNotFoundError (py "expand") None)
            (handled_by_extractor expand_missing) = false) as He by reflexivity.
  split; [exact He|].
  destruct (unhandled_extraction_error expand_missing (py "Win10") target (ready_for expand_missing)
              archive_chunks (Exn FileNotFoundError (py "expand") None))
    as (st' & Hr & Hcab & _).
  - reflexivity.
  - vm_compute. discriminate.
  - vm_compute. discriminate.
  - reflexivity.
  - reflexivity.
  - exact He.
  - exists st'. split; [exact Hr|exact Hcab].
Defined.

(** X4: with the output directory there and the archive downloaded, an
    exception of the extraction tool that the extractor of the host
    handles is reported by the extractor: after the download line come its
    error line, which names the platform, and the standard error of the
    tool when there is some; the archive stays; the item returns [False]
    on Windows and [None] elsewhere. *)
Theorem handled_extraction_error E os_name url st chunks e :
  fs st !! output_dir E os_name url = Some Dir ->
  cab_path E os_name url <> output_dir E os_name url ->
  fs st !! cab_path E os_name url <> Some Dir ->
  requests_get E url (cab_path E os_name url) = StreamEnds chunks ->
  subprocess_run E (extraction_command E (cab_path E os_name url) (output_dir E os_name url))
    = RunRaises e ->
  isinstance_any e (handled_by_extractor E) = true ->
  exists st',
    process_url E (os_name, PStr url) st =
      (Return (if Str.startswith (sys_platform E) (py "win") then Some false else None), st') /\
    fs st' !! cab_path E os_name url = Some (File (Bytes (concat chunks))) /\
    out st' = out st ++ [downloading_line url;
                         error_extracting_line E (cab_path E os_name url) e] ++ stderr_lines e.
Proof.
  intros Hdir Hne Hcab Hg Hrun He.
  rewrite (Items.process_url_downloaded E os_name url st chunks (or_intror Hdir) Hne Hcab Hg).
  unfold try_except_Exception, try_except, bind at 1, bind at 1, run.
  rewrite Hrun, He. unfold stderr_lines, error_extracting_line.
  unfold bind, print, print_stderr, print, ret. cbn [fs out].
  destruct (Str.startswith (sys_platform E) (py "win"));
    destruct (exc_stderr e) as [[|c s]|]; cbn [truthy andb fs out];
    (eexists; split; [reflexivity|]; cbn [fs out]; split; [apply lookup_insert_eq|];
     rewrite <- ?app_assoc; reflexivity).
Qed.

Lemma handled_extraction_error_witness :
  exists st',
    process_url windows_extraction_fails (py "Win10", PStr target) (ready_for windows_extraction_fails) =
      (Return (Some false), st') /\
    out st' =
      [downloading_line target;
       error_extracting_line windows_extraction_fails
         (cab_path windows_extraction_fails (py "Win10") target) exit_status_1;
       Print [Lit (py "stderr: "); FStr (py "no valid cabinets found")]].
Proof.
  destruct (handled_extraction_error windows_extraction_fails (py "Win10") target (ready_for windows_extraction_fails)
              archive_chunks exit_status_1)
    as (st' & Hr & _ & Hout).
  - reflexivity.
  - vm_compute. discriminate.
  - vm_compute. discriminate.
  - reflexivity.
  - reflexivity.
  - reflexivity.
  - exists st'. split; [exact Hr|exact Hout].
Defined.

(** X5: when a regular file is where the output directory of an item
    should be, the item does not download: whenever [process_url] returns,
    it returns [False], the file system is as it was, and what it printed
    is its error line for an [OSError] and the traceback. *)
Theorem blocked_output_directory E os_name url st c r st' :
  fs st !! output_dir E os_name url = Some (File c) ->
  process_url E (os_name, PStr url) st = (Return r, st') ->
  r = Some false /\
  fs st' = fs st /\
  exists e,
    isinstance e OSError = true /\
    out st' = out st ++ [error_processing_line (PStr url) e; PrintExc e].
Proof.
  intros Hf. unfold process_url, try_except_Exception.
  unfold bind at 1. cbn [as_str ret]. cbv zeta.
  unfold bind at 1, os_makedirs. rewrite Hf.
  unfold bind, print, print_exc, ret. cbn [fs out]. intros [= <- <-].
  split; [reflexivity|]. split; [reflexivity|].
  exists (Exn OSError (output_dir E os_name url) None). split; [reflexivity|].
  cbn [out]. rewrite <- app_assoc. reflexivity.
Qed.

Lemma blocked_output_directory_witness :
  fst (process_url offline (py "Win10", PStr target) blocked_state) = Return (Some false) /\
  fs (snd (process_url offline (py "Win10", PStr target) blocked_state)) = fs blocked_state.
Proof.
  destruct (blocked_output_directory offline (py "Win10") target blocked_state (Bytes [])
              (Some false)
              (snd (process_url offline (py "Win10", PStr target) blocked_state)))
    as (_ & Hfs & _).
  - reflexivity.
  - vm_compute. reflexivity.
  - split; [reflexivity|exact Hfs].
Defined.



(** X7: [download_cab] returns [True] only when the whole body has
    arrived, and then the destination holds exactly the chunks received,
    in order, whatever it held before; it returns [False] only after a
    [RequestException], and then its error line follows the download
    line. *)
Theorem download_cab_result E url path st b st' :
  download_cab E url path st = (Return b, st') ->
  if b then
    exists chunks,
      requests_get E url path = StreamEnds chunks /\
      fs st' !! path = Some (File (Bytes (concat chunks))) /\
      out st' = out st ++ [downloading_line url]
  else
    exists e,
      isinstance e RequestException = true /\
      (requests_get E url path = GetRaises e \/
       exists chunks, requests_get E url path = StreamRaises chunks e) /\
      out st' = out st ++ [downloading_line url; error_downloading_line url e].
Proof.
  unfold download_cab, fetch.
  destruct (requests_get E url path) as [e|chunks e|chunks];
    unfold try_except, bind, print, write_file, raise, ret; cbn [fs out].
  - unfold isinstance_any. cbn [existsb]. rewrite orb_false_r.
    destruct (isinstance e RequestException) eqn:He; intros [= <- <-].
    exists e. cbn [out]. rewrite <- app_assoc. eauto.
  - destruct (fs st !! path) as [[|c]|]; unfold isinstance_any; cbn [existsb];
      rewrite ?orb_false_r.
    + cbn. intros [=].
    + destruct (isinstance e RequestException) eqn:He; intros [= <- <-].
      exists e. cbn [out]. rewrite <- app_assoc. eauto.
    + destruct (isinstance e RequestException) eqn:He; intros [= <- <-].
      exists e. cbn [out]. rewrite <- app_assoc. eauto.
  - destruct (fs st !! path) as [[|c]|]; intros [= <- <-]; exists chunks; cbn [fs out];
      (split; [reflexivity|]; split; [apply lookup_insert_eq|reflexivity]).
Qed.

Lemma download_cab_result_witness :
  exists st',
    download_cab stream_breaks target (py "archive.cab") empty_state = (Return false, st') /\
    out st' = [downloading_line target; error_downloading_line target connection_reset].
Proof.
  eexists. split; [reflexivity|].
  destruct (download_cab_result stream_breaks target (py "archive.cab") empty_state false
              _ eq_refl) as (e & _ & [Hg|[chunks Hg]] & Hout).
  - discriminate Hg.
  - injection Hg as _ <-. exact Hout.
Defined.

(** * Paths *)

(** X8: the name of the output subdirectory never contains a slash,
    whatever the URL.  On a POSIX host, for a product name that is not
    empty and neither starts nor ends with a slash, the output directory
    is therefore [products/<product>/<name>] for every URL, and the
    archive is [archive.cab] in it. *)
Theorem posix_output_dir E os_name url :
  os_path_join E = posix_join ->
  os_name <> [] ->
  Str.startswith os_name (py "/") = false -> Str.endswith os_name (py "/") = false ->
  no_slash (path_suffix url) = true /\
  output_dir E os_name url = py "products/" ++ os_name ++ py "/" ++ path_suffix url /\
  cab_path E os_name url =
    output_dir E os_name url ++
    (if Str.eqb (path_suffix url) [] then py "archive.cab" else py "/archive.cab").
Proof.
  intros Hj Hne Hs He.
  pose proof (Names.path_suffix_no_slash url) as Hn.
  assert (output_dir E os_name url = py "products/" ++ os_name ++ py "/" ++ path_suffix url)
    as Hdir.
  { unfold output_dir. rewrite Hj. cbn [posix_join posix_join_from]. rewrite Hs.
    change (Str.eqb BASE_DIR [] || Str.endswith BASE_DIR (py "/")) with false. cbn match.
    rewrite (Names.no_slash_startswith _ Hn).
    change (BASE_DIR ++ py "/" ++ os_name) with (py "products/" ++ os_name).
    rewrite Posix.str_eqb_app_nonempty by discriminate.
    change (py "/") with [47] in *.
    rewrite Posix.endswith_app_nonempty, He by assumption. cbn [orb].
    rewrite <- app_assoc. reflexivity. }
  split; [exact Hn|]. split; [exact Hdir|].
  unfold cab_path. rewrite Hj. cbn [posix_join posix_join_from].
  change (Str.startswith (py "archive.cab") (py "/")) with false. cbn match.
  rewrite Hdir at 1 2. rewrite Posix.str_eqb_app_nonempty by discriminate. cbn [orb].
  destruct (path_suffix url) as [|c s] eqn:Hp.
  - change (Str.eqb [] []) with true. cbn match.
    rewrite app_nil_r, !app_assoc. change (py "/") with [47].
    rewrite Names.endswith_last. reflexivity.
  - replace (Str.eqb (c :: s) []) with false
      by (symmetry; apply bool_decide_eq_false; discriminate).
    rewrite !app_assoc. change (py "/") with [47] at 2.
    rewrite Posix.endswith_app_nonempty by discriminate.
    change [47] with (py "/"). rewrite (Names.no_slash_endswith _ Hn).
    rewrite <- !app_assoc. reflexivity.
Qed.

Lemma posix_output_dir_witness :
  output_dir offline (py "Win10") target = target_dir /\
  cab_path offline (py "Win10") target = target_dir ++ py "/archive.cab".
Proof.
  destruct (posix_output_dir offline (py "Win10") target) as (_ & Hdir & Hcab).
  - reflexivity.
  - discriminate.
  - reflexivity.
  - reflexivity.
  - split; [rewrite Hdir; reflexivity|rewrite Hcab, Hdir; reflexivity].
Defined.

(** * The run *)

(** X9: on a POSIX host where the extraction tool does not write
    [locations.json], no worker touches the state file: at the end of
    [main], however it ends, the file holds what [save_data] wrote. *)
Theorem state_file_survives_the_workers E st data st1 :
  os_path_join E = posix_join ->
  (forall argv written,
     subprocess_run E argv = RunCompleted written -> ~ In JSON_FILE (List.map fst written)) ->
  record_phase E st = (Return data, st1) ->
  fs (snd (main E st)) !! JSON_FILE = Some (File (Text (Json.dumps data))).
Proof.
  intros Hj Hw Hphase. rewrite Worker.main_phases. unfold bind at 1. rewrite Hphase.
  rewrite <- (Survival.record_phase_saved E st data st1 Hphase).
  unfold bind at 1, lift at 1.
  destruct (url_list data) as [items|e]; [|reflexivity].
  pose proof (Survival.keeps_pool_and_summary E items Hj Hw) as Hk.
  match goal with |- fs (snd (?m st1)) !! _ = _ =>
    destruct (m st1) as [o st2] eqn:Hm end.
  apply (Hk _ _ _ Hm).
Qed.

Lemma state_file_survives_witness :
  fs (snd (main extraction_works empty_state)) !! JSON_FILE =
  Some (File (Text (Json.dumps recorded))).
Proof.
  eapply (state_file_survives_the_workers extraction_works empty_state recorded).
  - reflexivity.
  - intros argv written [= <-]. vm_compute. intros [H|[]]. discriminate H.
  - vm_compute. reflexivity.
Defined.

(** X10: when [main] returns, it has printed the summary.  If the
    record was saved and flattened and [main] ends without an exception,
    then every item was processed, every result is a boolean, and the last
    line is the summary, which gives the number of [True] results, between
    zero and the number of items, out of the number of items. *)
Theorem run_ends_with_the_summary E st data st1 items st' :
  record_phase E st = (Return data, st1) ->
  url_list data = Return items ->
  main E st = (Return tt, st') ->
  exists results st2,
    mapM (process_url E) items (logged st1 (processing_line (length items))) =
      (Return results, st2) /\
    length results = length items /\
    forallb is_bool results = true /\
    (0 <= successes results <= Z.of_nat (length items))%Z /\
    st' = logged st2 (summary_line (successes results) (length items)).
Proof.
  intros Hphase Hitems Hmain.
  destruct (Worker.main_after_record_phase E st data st1 items Hphase Hitems)
    as (results & st2 & Hpool & Hlen & Hok & Hbad).
  exists results, st2. split; [exact Hpool|]. split; [exact Hlen|].
  destruct (forallb is_bool results) eqn:Hb.
  - split; [reflexivity|].
    split; [rewrite <- Hlen; apply Pool.successes_bounds|].
    rewrite (Hok eq_refl) in Hmain. injection Hmain as <-. reflexivity.
  - destruct (Hbad eq_refl) as (e & He & _). rewrite He in Hmain. discriminate Hmain.
Qed.

Lemma run_ends_with_the_summary_witness :
  exists st2,
    snd (main extraction_works empty_state) = logged st2 (summary_line 1 1).
Proof.
  destruct (run_ends_with_the_summary extraction_works empty_state recorded
              (snd (record_phase extraction_works empty_state))
              [(py "Win10", PStr target)]
              (snd (main extraction_works empty_state)))
    as (results & st2 & Hpool & _ & _ & _ & Hmain).
  - vm_compute. reflexivity.
  - reflexivity.
  - vm_compute. reflexivity.
  - exists st2. rewrite Hmain.
    vm_compute in Hpool. injection Hpool as <- _. reflexivity.
Defined.

(** X11: the work list of a record has exactly one item for each URL
    recorded for each product, and no item twice: every URL ever recorded
    is processed again in every run. *)
Theorem url_list_of_a_record d :
  is_record (PDict d) = true ->
  exists items,
    url_list (PDict d) = Return items /\
    (forall os_name url,
       In (os_name, url) items <->
       exists u, url = PStr u /\ entry (PDict d) os_name u <> None) /\
    List.NoDup items.
Proof.
  intros Hr. exists (work_items d). split; [apply Run.url_list_record, Hr|].
  split; [|apply WorkList.work_items_nodup, Hr].
  assert (unique_keys d = true) as Hu
    by (cbn [is_record] in Hr; apply andb_true_iff in Hr; apply Hr).
  intros os_name url. rewrite WorkList.in_work_items. unfold entry. split.
  - intros (urls & u & Hd & -> & Hin). exists u. split; [reflexivity|].
    rewrite (WorkList.in_get _ _ _ Hu Hd). apply WorkList.mem_in_keys in Hin.
    unfold Dict.mem in Hin. destruct (Dict.get u urls); [discriminate|discriminate Hin].
  - intros (u & -> & He). destruct (Dict.get os_name d) as [v|] eqn:Hd; [|congruence].
    destruct v as [ | | | | |urls]; try congruence. exists urls, u.
    split; [apply DictFacts.get_in, Hd|]. split; [reflexivity|].
    apply WorkList.mem_in_keys. unfold Dict.mem. destruct (Dict.get u urls); congruence.
Qed.

Lemma url_list_of_a_record_witness :
  exists items,
    url_list sample_record = Return items /\
    In (py "Win10", PStr (py "https://a/b.cab")) items.
Proof.
  destruct (url_list_of_a_record
              [(py "Win10", PDict [(py "https://a/b.cab", PStr (py "2024-01-02T03:04:05"))]);
               (py "Win11", PDict [])] eq_refl) as (items & Hitems & Hin & _).
  exists items. split; [exact Hitems|].
  apply Hin. eexists. split; [reflexivity|]. vm_compute. discriminate.
Defined.

(** * The resolver *)

(** X12: resolving is idempotent.  After a resolution of a record in a
    well-behaved world, a second resolution that gets the same answers
    from the network, at whatever time, returns the record as it is and
    prints no [Added new URL] line: the timestamp of an entry stays that
    of the run that first saw the URL. *)
Theorem resolve_is_idempotent E E' data st data' st1 st2 :
  is_record data = true -> sane_world E = true ->
  (forall url, requests_head E' url = requests_head E url) ->
  resolve E data st = (Return data', st1) ->
  exists lines,
    resolve E' data' st2 = (Return data', State (fs st2) (out st2 ++ lines)) /\
    forall os_name location, ~ In (added_line os_name location) lines.
Proof.
  intros Hr Hw Hsame Hrun. destruct data as [ | | | | | d]; try discriminate Hr.
  destruct (Resolver.resolve_items E URLS Hw d st Hr) as (d' & lines & Hrun' & Hr' & Hentry).
  unfold resolve in Hrun. rewrite Hrun' in Hrun. injection Hrun as <- <-.
  apply Settled.resolve_quiet; [exact Hr'|].
  apply (Settled.resolved_is_settled E E' d d' Hw Hsame Hentry).
Qed.

Lemma resolve_is_idempotent_witness :
  fst (resolve (redirecting offline) (PDict []) empty_state) = Return recorded /\
  fst (resolve (later (redirecting offline)) recorded empty_state) = Return recorded.
Proof.
  split; [reflexivity|].
  destruct (resolve_is_idempotent (redirecting offline) (later (redirecting offline))
              (PDict []) empty_state recorded
              (snd (resolve (redirecting offline) (PDict []) empty_state)) empty_state)
    as (lines & Hrun & _).
  - reflexivity.
  - reflexivity.
  - reflexivity.
  - reflexivity.
  - rewrite Hrun. reflexivity.
Defined.

(** X13: the resolver only appends.  In a well-behaved world the
    products of the record keep their order and every product keeps its
    URLs, in their order and with their timestamps; a new product comes
    after the products that were there, and a new URL after the URLs of
    its product. *)
Theorem resolve_appends E d st :
  is_record (PDict d) = true -> sane_world E = true ->
  exists d' st',
    resolve E (PDict d) st = (Return (PDict d'), st') /\
    (exists more, Dict.keys d' = Dict.keys d ++ more) /\
    (forall product urls,
       Dict.get product d = Some (PDict urls) ->
       exists more, Dict.get product d' = Some (PDict (urls ++ more))).
Proof.
  intros Hr Hw.
  destruct (Growth.resolve_grows E URLS Hw d st Hr) as (d' & lines & Hrun & Hkeys & Hurls).
  exists d'. eexists. split; [exact Hrun|]. split; assumption.
Qed.

Lemma resolve_appends_witness :
  exists d' more,
    fst (resolve (redirecting offline) sample_record empty_state) = Return (PDict d') /\
    Dict.get (py "Win10") d' =
      Some (PDict ((py "https://a/b.cab", PStr (py "2024-01-02T03:04:05")) :: more)).
Proof.
  destruct (resolve_appends (redirecting offline)
              [(py "Win10", PDict [(py "https://a/b.cab", PStr (py "2024-01-02T03:04:05"))]);
               (py "Win11", PDict [])] empty_state eq_refl eq_refl)
    as (d' & st' & Hrun & _ & Hurls).
  destruct (Hurls (py "Win10") _ eq_refl) as [more Hmore].
  exists d', more. split; [|exact Hmore].
  change sample_record
    with (PDict [(py "Win10", PDict [(py "https://a/b.cab", PStr (py "2024-01-02T03:04:05"))]);
                 (py "Win11", PDict [])]).
  rewrite Hrun. reflexivity.
Defined.

(** X14: an exception of [requests.head] that is not a
    [RequestException] is not handled: when the probe of a tracked product
    raises one, [main] ends with an uncaught exception before anything is
    saved or downloaded, and the file system is as it was. *)
Theorem unexpected_probe_error_aborts_the_run E os_name url e st :
  In (os_name, url) URLS ->
  requests_head E url = HeadRaises e -> isinstance e RequestException = false ->
  exists e' st', main E st = (Raise e', st') /\ fs st' = fs st.
Proof.
  intros Hin Hh He. unfold main. unfold bind at 1.
  destruct (load_existing_data E st) as [[data|e0] st0] eqn:Hload.
  - assert (fs st0 = fs st) as Hfs0
      by (apply map_eq; intros p; apply (Frame.keeps_load p E st _ _ Hload)).
    unfold bind at 1. unfold resolve.
    destruct (Probing.resolve_aborts E os_name url e URLS Hin Hh He data st0)
      as (e' & st' & Hrun).
    rewrite Hrun. exists e', st'. split; [reflexivity|]. rewrite <- Hfs0.
    apply map_eq. intros p. apply (Probing.keeps_resolve p E URLS data st0 _ _ Hrun).
  - exists e0, st0. split; [reflexivity|].
    apply map_eq. intros p. apply (Frame.keeps_load p E st _ _ Hload).
Qed.

Lemma unexpected_probe_error_witness :
  main head_crashes sample_state = (Raise no_ca_bundle, sample_state).
Proof.
  destruct (unexpected_probe_error_aborts_the_run head_crashes (py "Win10") win10_url
              no_ca_bundle sample_state) as (e' & st' & Hmain & _).
  - left. reflexivity.
  - reflexivity.
  - reflexivity.
  - rewrite Hmain. vm_compute in Hmain. injection Hmain as <- <-. reflexivity.
Defined.

(** * The store *)

(** X15: how [load_existing_data] fails.  A directory at the path of the
    state file makes it raise an [OSError], and a file that is not text in
    the codec of the host a [UnicodeDecodeError]; a [JSONDecodeError] never
    leaves it.  Whatever it does, it changes no file, and it prints nothing
    but the warning about invalid JSON, with which it returns an empty
    mapping. *)
Theorem load_existing_data_failures E st :
  (fs st !! JSON_FILE = Some Dir ->
   exists e, load_existing_data E st = (Raise e, st) /\ isinstance e OSError = true) /\
  (forall b,
     fs st !! JSON_FILE = Some (File (Bytes b)) -> text_decode E b = None ->
     exists e, load_existing_data E st = (Raise e, st) /\ exc_type e = UnicodeDecodeError) /\
  (forall o st',
     load_existing_data E st = (o, st') ->
     fs st' = fs st /\
     (st' = st \/ (o = Return (PDict []) /\ st' = logged st invalid_json_line)) /\
     (forall e, o = Raise e -> exc_type e <> JSONDecodeError)).
Proof.
  rewrite Loading.load_cases. split; [|split].
  - intros ->. eexists. split; reflexivity.
  - intros b -> ->. eexists. split; reflexivity.
  - intros o st'.
    destruct (fs st !! JSON_FILE) as [[|c]|].
    + intros [= <- <-]. split; [reflexivity|]. split; [left; reflexivity|].
      intros e [= <-]. discriminate.
    + destruct (match c with Text s => Some s | Bytes b => text_decode E b end) as [text|].
      * destruct (Json.loads text); intros [= <- <-];
          (split; [reflexivity|]; split; [auto|]; intros e [=]).
      * intros [= <- <-]. split; [reflexivity|]. split; [left; reflexivity|].
        intros e [= <-]. discriminate.
    + intros [= <- <-]. split; [reflexivity|]. split; [left; reflexivity|]. intros e [=].
Qed.

Lemma load_existing_data_failures_witness :
  exists e,
    load_existing_data offline directory_state = (Raise e, directory_state) /\
    isinstance e OSError = true.
Proof.
  apply (proj1 (load_existing_data_failures offline directory_state)). reflexivity.
Defined.

(** X16: what [save_data] writes is ASCII.  For every value made of
    strings, lists, mappings, booleans and [None], the text of the state
    file has no character above 127 (a character of a URL outside ASCII is
    written as an escape), so that its bytes are the same in every codec
    that extends ASCII, and read back under UTF-8 as the same text. *)
Theorem saved_file_is_ascii data st :
  plain data = true -> fs st !! JSON_FILE <> Some Dir ->
  exists st' text,
    save_data data st = (Return tt, st') /\
    fs st' !! JSON_FILE = Some (File (Text text)) /\
    is_ascii text = true /\
    utf8_decode text = Some text.
Proof.
  intros Hp Hf. rewrite (Store.save_written st data Hf).
  eexists _, (Json.dumps data). split; [reflexivity|]. cbn [fs].
  split; [apply lookup_insert_eq|].
  pose proof (SevenBit.dumps_ascii data Hp) as Ha.
  split; [exact Ha|]. apply SevenBit.utf8_decode_ascii, Ha.
Qed.

Lemma saved_file_is_ascii_witness :
  exists st' text,
    save_data (PDict [(py "Win10", PDict [([104; 233], PStr (py "t"))])]) empty_state =
      (Return tt, st') /\
    fs st' !! JSON_FILE = Some (File (Text text)) /\
    is_ascii text = true.
Proof.
  destruct (saved_file_is_ascii (PDict [(py "Win10", PDict [([104; 233], PStr (py "t"))])])
              empty_state) as (st' & text & Hs & Hf & Ha & _).
  - reflexivity.
  - vm_compute. discriminate.
  - exists st', text. split; [exact Hs|]. split; [exact Hf|exact Ha].
Defined.

(** * The Wayback Machine *)

(** X17: [archive_to_wayback] is best effort.  It prints its first line,
    requests the URL behind [http://web.archive.org/save/], and touches no
    file; a [RequestException] of that request is swallowed after a line
    and the traceback, and any other exception is raised to the caller. *)
Theorem archive_to_wayback_is_best_effort requests_get_status url st :
  exists o lines,
    archive_to_wayback requests_get_status url st =
      (o, State (fs st) (out st ++ archiving_line url :: lines)) /\
    match requests_get_status (py "http://web.archive.org/save/" ++ url) with
    | None => o = Return tt /\ lines = []
    | Some e =>
        if isinstance e RequestException
        then o = Return tt /\ lines = [failed_to_archive_line url; PrintExc e]
        else o = Raise e /\ lines = []
    end.
Proof.
  unfold archive_to_wayback, try_except, bind at 1, print at 1.
  destruct (requests_get_status _) as [e|].
  - unfold raise, isinstance_any. cbn [existsb]. rewrite orb_false_r.
    destruct (isinstance e RequestException).
    + unfold bind, print, print_exc. cbn [fs out]. rewrite <- !app_assoc. eauto.
    + eauto.
  - unfold ret. eauto.
Qed.

(** * The run and its state file *)




(** C10, amended: loading validates no shape.  When the backing file
    holds valid JSON, within the limits of the interpreter, whose top-level
    value is not an object, or is an object with a value that is a number,
    a boolean or [null], [load_existing_data] returns that value as it is,
    and [main] ends with an uncaught exception. *)
Theorem unusable_state_aborts_the_run E st text v :
  read_text E JSON_FILE st = (Return text, st) ->
  modest text = true ->
  Json.loads text = Some v ->
  object_of_iterables v = false ->
  load_existing_data E st = (Return v, st) /\
  exists e st', main E st = (Raise e, st').
Proof.
  intros Hread _ Hv Hshape.
  assert (load_existing_data E st = (Return v, st)) as Hload
    by (eapply Store.load_parsed; eassumption).
  split; [exact Hload|]. apply (Unusable.main_raises E st v Hload Hshape).
Qed.

Lemma unusable_state_witness :
  (load_existing_data offline list_state =
     (Return (PList [PNum (py "1"); PNum (py "2")]), list_state) /\
   exists e st', main offline list_state = (Raise e, st')) /\
  (load_existing_data no_headers number_state =
     (Return (PDict [(py "Other", PNum (py "5"))]), number_state) /\
   exists e st', main no_headers number_state = (Raise e, st')).
Proof.
  split.
  - apply (unusable_state_aborts_the_run offline list_state (py "[1, 2]")); reflexivity.
  - apply (unusable_state_aborts_the_run no_headers number_state object_of_numbers);
      reflexivity.
Defined.
